(** * CementAI Nexus backend: embedding and verified properties

    A shallow embedding of the backend of the cement plant dashboard:
    - [src/backend/src/simulation/dataGenerator.ts] (class [CementPlantSimulator]),
    - [src/backend/src/index.ts] (data source switch, broadcast, HTTP handlers),
    - [src/backend/src/ai/geminiService.ts] (chat wrapper around the AI service).

    Modelling conventions.
    - A JavaScript [number] is a real number ([R]); rounding, infinities and
      NaN of IEEE doubles are outside the model.  Counters that only ever hold
      small non-negative integers ([realDataIndex], array lengths) are [N].
    - A [Date] is its time value in milliseconds ([R]).
    - A string that the code inspects is the list of its UTF-16 code units.
    - [Math.random()], [Date.now()] / [new Date()], [uuidv4()] and [fetch]
      read the outside world.  The world is a record of four infinite
      sequences of future results; every read consumes the head of its
      sequence.
    - Methods are functions in the world monad [M]; the object they mutate is
      passed in and handed back explicitly. *)

From Stdlib Require Import Reals Lra Lia List String Ascii ZArith NArith Bool QArith.
Import ListNotations.

Local Open Scope R_scope.

(* ------------------------------------------------------------------ *)
(** ** JavaScript strings and values *)

(** A JavaScript string is the sequence of its UTF-16 code units. *)
Definition jsstring : Type := list N.

(** The string written by an ASCII literal. *)
Fixpoint js (s : string) : jsstring :=
  match s with
  | EmptyString => []
  | String c s' => N_of_ascii c :: js s'
  end.

Definition jsstring_eqb (a b : jsstring) : bool :=
  if list_eq_dec N.eq_dec a b then true else false.

(** [s.split('\n')]: the pieces between the line feeds; never empty. *)
Fixpoint split_lines (s : jsstring) : list jsstring :=
  match s with
  | [] => [[]]
  | c :: s' =>
      if (c =? 10)%N then [] :: split_lines s'
      else match split_lines s' with
           | [] => [[c]]
           | l :: ls => (c :: l) :: ls
           end
  end.

Fixpoint starts_with (p s : jsstring) : bool :=
  match p, s with
  | [], _ => true
  | _ :: _, [] => false
  | a :: p', b :: s' => (a =? b)%N && starts_with p' s'
  end.

(** [s.includes(p)] *)
Fixpoint includes (s p : jsstring) : bool :=
  starts_with p s ||
  match s with
  | [] => false
  | _ :: s' => includes s' p
  end.

(** The class [\w] of a regular expression: [A-Za-z0-9_]. *)
Definition is_word (c : N) : bool :=
  ((48 <=? c) && (c <=? 57) || (65 <=? c) && (c <=? 90)
   || (97 <=? c) && (c <=? 122) || (c =? 95))%N.

Fixpoint drop_while (f : N -> bool) (s : jsstring) : jsstring :=
  match s with
  | [] => []
  | c :: s' => if f c then drop_while f s' else s
  end.

(** [s.replace(/^\W+/, '')]: the longest run of non-word units at the head of
    the string is removed. *)
Definition strip_leading_non_word (s : jsstring) : jsstring :=
  drop_while (fun c => negb (is_word c)) s.

(** White space and line terminators, the units removed by [trim()]. *)
Definition is_space (c : N) : bool :=
  ((9 <=? c) && (c <=? 13) || (c =? 32) || (c =? 160) || (c =? 5760)
   || (8192 <=? c) && (c <=? 8202) || (c =? 8232) || (c =? 8233)
   || (c =? 8239) || (c =? 8287) || (c =? 12288) || (c =? 65279))%N.

(** [s.trim()] *)
Definition trim (s : jsstring) : jsstring :=
  rev (drop_while is_space (rev (drop_while is_space s))).

(** [arr.slice(0, n)] *)
Definition slice0 {A : Type} (n : nat) (arr : list A) : list A := firstn n arr.

(** The values an API reply can hold once parsed, and [undefined]. *)
#[warnings="-register-all"]
Inductive Value : Type :=
  | VUndefined
  | VNull
  | VBool (b : bool)
  | VNumber (x : Q)
  | VString (s : jsstring)
  | VArray (items : list Value)
  | VObject (fields : list (jsstring * Value)).

(** Evaluation that may throw. *)
Inductive Result (A : Type) : Type :=
  | Ok (a : A)
  | Throw.
Arguments Ok {A} a.
Arguments Throw {A}.

Definition rbind {A B : Type} (r : Result A) (k : A -> Result B) : Result B :=
  match r with
  | Ok a => k a
  | Throw => Throw
  end.

Fixpoint lookup_field (fields : list (jsstring * Value)) (k : jsstring) : Value :=
  match fields with
  | [] => VUndefined
  | (k', v) :: rest => if jsstring_eqb k' k then v else lookup_field rest k
  end.

(** [v.name] for one of the names [candidates], [content], [parts], [text]:
    a TypeError on [undefined] and [null]; the field of an object, and
    [undefined] where there is none and on every other kind of value. *)
Definition prop (v : Value) (name : jsstring) : Result Value :=
  match v with
  | VUndefined | VNull => Throw
  | VObject fields => Ok (lookup_field fields name)
  | _ => Ok VUndefined
  end.

(** [v[0]] *)
Definition index0 (v : Value) : Result Value :=
  match v with
  | VUndefined | VNull => Throw
  | VArray items => Ok (match items with [] => VUndefined | x :: _ => x end)
  | VString s => Ok (match s with [] => VUndefined | c :: _ => VString [c] end)
  | VObject fields => Ok (lookup_field fields (js "0"))
  | _ => Ok VUndefined
  end.

(** JavaScript truthiness. *)
Definition truthy (v : Value) : bool :=
  match v with
  | VUndefined | VNull => false
  | VBool b => b
  | VNumber x => negb (Qeq_bool x 0)
  | VString s => match s with [] => false | _ => true end
  | VArray _ | VObject _ => true
  end.

(** What [fetch] and the reading of the reply's body come to. *)
Inductive FetchOutcome : Type :=
  | FetchRejected                              (* no reply: [fetch] rejects *)
  | HttpError (status : N)                     (* a reply with [ok] false *)
  | HttpOkInvalidBody                          (* [response.json()] rejects *)
  | HttpOk (data : Value).                     (* [ok], and the parsed body *)

(* ------------------------------------------------------------------ *)
(** ** The outside world and the effect monad *)

Record World : Type := mkWorld {
  randoms : nat -> R;           (* results of the coming calls of Math.random() *)
  clock   : nat -> R;           (* results of the coming calls of Date.now(), ms *)
  uuids   : nat -> string;      (* results of the coming calls of uuidv4() *)
  fetches : nat -> FetchOutcome (* outcomes of the coming calls of fetch *)
}.

Definition M (A : Type) : Type := World -> A * World.

Definition ret {A : Type} (a : A) : M A := fun w => (a, w).

Definition bind {A B : Type} (m : M A) (k : A -> M B) : M B :=
  fun w => let (a, w') := m w in k a w'.

Declare Scope m_scope.
Delimit Scope m_scope with m.
Notation "x <- m ;; k" := (bind m (fun x => k))
  (at level 61, m at next level, right associativity) : m_scope.
Notation "' pat <- m ;; k" := (bind m (fun x => match x with pat => k end))
  (at level 61, pat pattern, m at next level, right associativity) : m_scope.
Local Open Scope m_scope.

Definition tail {A : Type} (f : nat -> A) : nat -> A := fun n => f (S n).

(** [Math.random()] *)
Definition Math_random : M R :=
  fun w => (randoms w O, mkWorld (tail (randoms w)) (clock w) (uuids w) (fetches w)).

(** [Date.now()], and the time value of [new Date()] *)
Definition Date_now : M R :=
  fun w => (clock w O, mkWorld (randoms w) (tail (clock w)) (uuids w) (fetches w)).

(** [uuidv4()] *)
Definition uuidv4 : M string :=
  fun w => (uuids w O, mkWorld (randoms w) (clock w) (tail (uuids w)) (fetches w)).

(** [fetch(...)] followed by the reading of the body *)
Definition fetch : M FetchOutcome :=
  fun w => (fetches w O, mkWorld (randoms w) (clock w) (uuids w) (tail (fetches w))).

(** Monadic [Array.prototype.map]: the callback runs on the elements from
    left to right. *)
Fixpoint mapM {A B : Type} (f : A -> M B) (l : list A) : M (list B) :=
  match l with
  | [] => ret []
  | x :: xs => y <- f x ;; ys <- mapM f xs ;; ret (y :: ys)
  end.

(** [Math.floor], as an integer. *)
Definition Math_floor (x : R) : Z := Int_part x.

(** The time value kept by [new Date(x)]: [x] truncated towards zero. *)
Definition new_Date (x : R) : R :=
  if Rle_dec 0 x then IZR (Int_part x) else - IZR (Int_part (- x)).

(* ------------------------------------------------------------------ *)
(** ** data/models.ts *)

Inductive SensorType : Type :=
  | st_temperature | st_pressure | st_flow | st_power
  | st_vibration | st_ph | st_humidity.

Record SensorReading : Type := mkSensorReading {
  sr_timestamp : R;
  sensor_id    : string;
  sr_value     : R;
  unit         : string;
  sr_location  : string;
  sensor_type  : SensorType
}.

Record ProcessParameters : Type := mkProcessParameters {
  pp_timestamp          : R;
  kiln_temperature      : R;
  kiln_pressure         : R;
  raw_mill_power        : R;
  cement_mill_power     : R;
  production_rate       : R;
  energy_consumption    : R;
  alternative_fuel_rate : R;
  raw_meal_flow         : R;
  cement_fineness       : R;
  clinker_temperature   : R;
  exhaust_fan_speed     : R;
  preheater_temperature : R
}.

Record ChemicalComposition : Type := mkChemicalComposition {
  c3s : R; c2s : R; c3a : R; c4af : R; so3 : R; free_lime : R
}.

(** [sample_id] is built by a template literal; the model keeps the
    interpolated values instead of their decimal text:
    [QS_${Date.now()}_${Math.floor(Math.random() * 1000)}] and
    [REAL_${Date.now()}]. *)
Inductive SampleId : Type :=
  | QS (now : R) (n : Z)
  | REAL (now : R).

Record QualityMetrics : Type := mkQualityMetrics {
  qm_timestamp             : R;
  sample_id                : SampleId;
  blaine_fineness          : R;
  compressive_strength_3d  : R;
  compressive_strength_28d : R;
  setting_time_initial     : R;
  setting_time_final       : R;
  quality_score            : R;
  defect_count             : R;
  consistency              : R;
  chemical_composition     : ChemicalComposition
}.

Inductive Status : Type := running | stopped | maintenance | error.

(** [location] of an equipment record: [Plant Section ${n}]. *)
Inductive PlantLocation : Type := PlantSection (n : Z).

Record EquipmentStatus : Type := mkEquipmentStatus {
  equipment_id      : string;
  equipment_name    : string;
  status            : Status;
  efficiency        : R;
  temperature       : R;
  vibration_level   : R;
  power_consumption : R;
  runtime_hours     : R;
  last_maintenance  : R;
  location          : PlantLocation;
  alerts            : list string
}.

Inductive Severity : Type := low | medium | high | critical.

Inductive AlertType : Type :=
  | at_temperature | at_vibration | at_power | at_quality
  | at_efficiency | at_maintenance.

Record Alert : Type := mkAlert {
  alert_id           : string;
  alert_timestamp    : R;
  severity           : Severity;
  alert_type         : option AlertType;   (* [None]: index out of the array *)
  message            : string;
  acknowledged       : bool;
  resolved           : bool;
  alert_equipment_id : option string
}.

Record EnvironmentalData : Type := mkEnvironmentalData {
  env_timestamp                 : R;
  co2_emissions                 : R;
  nox_emissions                 : R;
  so2_emissions                 : R;
  dust_emissions                : R;
  energy_consumption_specific   : R;
  alternative_fuel_substitution : R;
  waste_heat_recovery           : R;
  water_consumption             : R
}.

Inductive RecommendationType : Type :=
  | energy_optimization | quality_improvement | rt_maintenance | environmental.

Inductive Priority : Type := p_low | p_medium | p_high | p_urgent.

Record ParameterAdjustment : Type := mkParameterAdjustment {
  parameter         : string;
  current_value     : R;
  recommended_value : R;
  pa_unit           : string
}.

Record AIRecommendation : Type := mkAIRecommendation {
  rec_id               : string;
  rec_timestamp        : R;
  rec_type             : RecommendationType;
  priority             : Priority;
  title                : string;
  description          : string;
  expected_benefit     : string;
  implementation_steps : list string;
  confidence_score     : R;
  parameters_to_adjust : list ParameterAdjustment
}.

Record PlantOverview : Type := mkPlantOverview {
  po_timestamp               : R;
  overall_efficiency         : R;
  production_rate_current    : R;
  production_rate_target     : R;
  energy_consumption_current : R;
  energy_consumption_target  : R;
  quality_score_avg          : R;
  active_alerts_count        : N;
  equipment_running_count    : N;
  equipment_total_count      : N;
  environmental_compliance   : bool
}.

Record DashboardData : Type := mkDashboardData {
  plant_overview     : PlantOverview;
  recent_sensors     : list SensorReading;
  current_parameters : ProcessParameters;
  recent_quality     : list QualityMetrics;
  equipment_status   : list EquipmentStatus;
  active_alerts      : list Alert;
  ai_recommendations : list AIRecommendation;
  environmental_data : EnvironmentalData
}.

Record SimulationConfig : Type := mkConfig {
  plant_capacity      : R;
  sensor_count        : R;
  simulation_speed    : R;
  noise_level         : R;
  anomaly_probability : R;
  quality_variation   : R
}.

(* ------------------------------------------------------------------ *)
(** ** simulation/dataGenerator.ts: class CementPlantSimulator *)

Record CementPlantSimulator : Type := mkSimulator {
  config            : SimulationConfig;
  baseTime          : R;
  simulationRunning : bool;
  lastParameters    : option ProcessParameters
}.

(** [constructor(config)]: [baseTime = new Date()]. *)
Definition newCementPlantSimulator (cfg : SimulationConfig) : M CementPlantSimulator :=
  t <- Date_now ;; ret (mkSimulator cfg t false None).

(** [getRandomInRange(min, max, noise = 0.1)] *)
Definition getRandomInRange (min max noise : R) : M R :=
  u1 <- Math_random ;;
  let base := min + u1 * (max - min) in
  u2 <- Math_random ;;
  let noiseValue := base * noise * (u2 - 0.5) * 2 in
  ret (Rmax min (Rmin max (base + noiseValue))).

(** The default value of the parameter [noise]. *)
Definition default_noise : R := 0.1.

(** [generateCyclicalValue(baseValue, amplitude, period, phase = 0)] *)
Definition generateCyclicalValue (self : CementPlantSimulator)
    (baseValue amplitude period phase : R) : M R :=
  now <- Date_now ;;
  let timeInHours := (now - baseTime self) / (1000 * 60 * 60) in
  let cyclical := sin ((2 * PI * timeInHours / period) + phase) in
  ret (baseValue + (amplitude * cyclical)).

(** Hours elapsed since [baseTime] at the next reading of the clock. *)
Definition elapsedHours (self : CementPlantSimulator) (w : World) : R :=
  (clock w O - baseTime self) / (1000 * 60 * 60).

(** [generateSensorReadings()] *)
Definition generateSensorReadings (self : CementPlantSimulator) : M (list SensorReading) :=
  timestamp <- Date_now ;;
  v1 <- generateCyclicalValue self 1450 50 4 0 ;;
  v2 <- getRandomInRange (-15) (-5) default_noise ;;
  v3 <- generateCyclicalValue self 2800 200 6 (PI / 4) ;;
  v4 <- generateCyclicalValue self 3200 300 8 (PI / 2) ;;
  v5 <- generateCyclicalValue self (plant_capacity (config self) * 0.85)
          (plant_capacity (config self) * 0.1) 12 0 ;;
  v6 <- getRandomInRange 320 380 default_noise ;;
  v7 <- getRandomInRange 15 25 default_noise ;;
  v8 <- getRandomInRange 340 380 default_noise ;;
  ret [ mkSensorReading timestamp "KILN_TEMP_01" v1 "°C" "Kiln Burning Zone" st_temperature;
        mkSensorReading timestamp "KILN_PRESSURE_01" v2 "kPa" "Kiln Inlet" st_pressure;
        mkSensorReading timestamp "RAW_MILL_POWER_01" v3 "kW" "Raw Mill" st_power;
        mkSensorReading timestamp "CEMENT_MILL_POWER_01" v4 "kW" "Cement Mill" st_power;
        mkSensorReading timestamp "PRODUCTION_FLOW_01" v5 "TPH" "Cement Silo" st_flow;
        mkSensorReading timestamp "EXHAUST_TEMP_01" v6 "°C" "Preheater Exit" st_temperature;
        mkSensorReading timestamp "DUST_LEVEL_01" v7 "mg/Nm³" "Stack" st_flow;
        mkSensorReading timestamp "FINENESS_01" v8 "m²/kg" "Cement Mill Exit" st_flow ].

(** [generateProcessParameters()]: returns the parameters and the simulator
    with [lastParameters] updated. *)
Definition generateProcessParameters (self : CementPlantSimulator)
  : M (ProcessParameters * CementPlantSimulator) :=
  timestamp <- Date_now ;;
  let timeHours := (timestamp - baseTime self) / (1000 * 60 * 60) in
  let productionCycle := sin (2 * PI * timeHours / 24) in
  g <- getRandomInRange (-0.05) 0.05 0.5 ;;
  let efficiency := 0.8 + 0.15 * productionCycle + g in
  kiln_temperature <- generateCyclicalValue self 1450 40 4 0 ;;
  kiln_pressure <- getRandomInRange (-15) (-5) default_noise ;;
  raw_mill <- generateCyclicalValue self 2800 200 6 0 ;;
  cement_mill <- generateCyclicalValue self 3200 250 8 0 ;;
  energy <- getRandomInRange 85 105 default_noise ;;
  alternative_fuel_rate <- getRandomInRange 15 35 default_noise ;;
  cement_fineness <- getRandomInRange 340 380 default_noise ;;
  clinker_temperature <- getRandomInRange 1100 1200 default_noise ;;
  exhaust_fan_speed <- getRandomInRange 480 520 default_noise ;;
  preheater_temperature <- getRandomInRange 320 380 default_noise ;;
  let parameters :=
    {| pp_timestamp := timestamp;
       kiln_temperature := kiln_temperature;
       kiln_pressure := kiln_pressure;
       raw_mill_power := raw_mill * efficiency;
       cement_mill_power := cement_mill * efficiency;
       production_rate := plant_capacity (config self) * efficiency;
       energy_consumption := energy / efficiency;
       alternative_fuel_rate := alternative_fuel_rate;
       raw_meal_flow := plant_capacity (config self) * 1.55 * efficiency;
       cement_fineness := cement_fineness;
       clinker_temperature := clinker_temperature;
       exhaust_fan_speed := exhaust_fan_speed;
       preheater_temperature := preheater_temperature |} in
  ret (parameters,
       mkSimulator (config self) (baseTime self) (simulationRunning self) (Some parameters)).

(** [generateQualityMetrics()] *)
Definition generateQualityMetrics (self : CementPlantSimulator) : M QualityMetrics :=
  timestamp <- Date_now ;;
  u <- Math_random ;;
  let qualityBase := 75 + u * 20 in
  now <- Date_now ;;
  u' <- Math_random ;;
  blaine <- getRandomInRange 340 380 default_noise ;;
  cs3 <- getRandomInRange 18 25 default_noise ;;
  cs28 <- getRandomInRange 42 52 default_noise ;;
  sti <- getRandomInRange 45 90 default_noise ;;
  stf <- getRandomInRange 180 300 default_noise ;;
  defects <- getRandomInRange 0 5 default_noise ;;
  consistency <- getRandomInRange 95 99.5 default_noise ;;
  c3s <- getRandomInRange 50 65 default_noise ;;
  c2s <- getRandomInRange 15 25 default_noise ;;
  c3a <- getRandomInRange 8 12 default_noise ;;
  c4af <- getRandomInRange 8 12 default_noise ;;
  so3 <- getRandomInRange 2.5 3.5 default_noise ;;
  free_lime <- getRandomInRange 0.5 1.5 default_noise ;;
  ret {| qm_timestamp := timestamp;
         sample_id := QS now (Math_floor (u' * 1000));
         blaine_fineness := blaine;
         compressive_strength_3d := cs3;
         compressive_strength_28d := cs28;
         setting_time_initial := sti;
         setting_time_final := stf;
         quality_score := qualityBase;
         defect_count := IZR (Math_floor defects);
         consistency := consistency;
         chemical_composition := mkChemicalComposition c3s c2s c3a c4af so3 free_lime |}.

(** The comparisons [a > b] and [a < b] on numbers, as booleans. *)
Definition gtb (a b : R) : bool := if Rgt_dec a b then true else false.
Definition ltb (a b : R) : bool := if Rlt_dec a b then true else false.

(** [arr[i]] for an integer [i]: [None] stands for [undefined]. *)
Definition array_get {A : Type} (arr : list A) (i : Z) : option A :=
  if (i <? 0)%Z then None else nth_error arr (Z.to_nat i).

(** [generateAlertsForEquipment(equipmentId)] *)
Definition generateAlertsForEquipment (self : CementPlantSimulator)
    (equipmentId : string) : M (list Alert) :=
  u <- Math_random ;;
  if ltb u 0.3 then
    id <- uuidv4 ;;
    now <- Date_now ;;
    u1 <- Math_random ;;
    u2 <- Math_random ;;
    sev <- (if gtb u2 0.7 then ret high
            else u3 <- Math_random ;; ret (if gtb u3 0.4 then medium else low)) ;;
    u4 <- Math_random ;;
    u5 <- Math_random ;;
    u6 <- Math_random ;;
    ret [ {| alert_id := id;
             alert_timestamp := new_Date (now - u1 * 24 * 60 * 60 * 1000);
             severity := sev;
             alert_type := array_get [at_temperature; at_vibration; at_power; at_efficiency]
                             (Math_floor (u4 * 4));
             message := (equipmentId ++ ": Parameter deviation detected")%string;
             acknowledged := gtb u5 0.3;
             resolved := gtb u6 0.6;
             alert_equipment_id := Some equipmentId |} ]
  else ret [].

(** The fixed table of equipment at the head of [generateEquipmentStatus]:
    pairs [(id, name)]. *)
Definition equipment : list (string * string) :=
  [ ("KILN_01", "Rotary Kiln #1");
    ("RAW_MILL_01", "Raw Mill #1");
    ("CEMENT_MILL_01", "Cement Mill #1");
    ("PREHEATER_01", "Preheater Tower");
    ("COOLER_01", "Grate Cooler");
    ("CRUSHER_01", "Limestone Crusher");
    ("SEPARATOR_01", "Cement Separator");
    ("FAN_01", "Exhaust Fan") ]%string.

(** The callback of [equipment.map] in [generateEquipmentStatus]. *)
Definition equipmentRecord (self : CementPlantSimulator) (eq : string * string)
  : M EquipmentStatus :=
  u <- Math_random ;;
  st <- (if gtb u 0.05 then ret running
         else u' <- Math_random ;; ret (if gtb u' 0.5 then maintenance else error)) ;;
  efficiency <- getRandomInRange 85 98 default_noise ;;
  temperature <- getRandomInRange 45 85 default_noise ;;
  vibration_level <- getRandomInRange 0.5 8.0 default_noise ;;
  power_consumption <- getRandomInRange 800 3500 default_noise ;;
  runtime_hours <- getRandomInRange 1000 8760 default_noise ;;
  now <- Date_now ;;
  u1 <- Math_random ;;
  u2 <- Math_random ;;
  alerts <- generateAlertsForEquipment self (fst eq) ;;
  ret {| equipment_id := fst eq;
         equipment_name := snd eq;
         status := st;
         efficiency := efficiency;
         temperature := temperature;
         vibration_level := vibration_level;
         power_consumption := power_consumption;
         runtime_hours := runtime_hours;
         last_maintenance := new_Date (now - u1 * 30 * 24 * 60 * 60 * 1000);
         location := PlantSection (Math_floor (u2 * 3) + 1);
         alerts := map message alerts |}.

(** [generateEquipmentStatus()] *)
Definition generateEquipmentStatus (self : CementPlantSimulator) : M (list EquipmentStatus) :=
  mapM (equipmentRecord self) equipment.

(** [this.lastParameters?.production_rate || fallback]: the fallback is taken
    when there are no last parameters or when the rate is 0. *)
Definition lastProductionRateOr (self : CementPlantSimulator) (fallback : R) : R :=
  match lastParameters self with
  | Some p => if Req_dec_T (production_rate p) 0 then fallback else production_rate p
  | None => fallback
  end.

(** [generateEnvironmentalData()] *)
Definition generateEnvironmentalData (self : CementPlantSimulator) : M EnvironmentalData :=
  timestamp <- Date_now ;;
  let productionRate := lastProductionRateOr self (plant_capacity (config self) * 0.8) in
  co2 <- getRandomInRange 820 950 default_noise ;;
  nox <- getRandomInRange 400 800 default_noise ;;
  so2 <- getRandomInRange 50 200 default_noise ;;
  dust <- getRandomInRange 15 30 default_noise ;;
  ecs <- getRandomInRange 85 105 default_noise ;;
  afs <- getRandomInRange 15 35 default_noise ;;
  whr <- getRandomInRange 20 35 default_noise ;;
  water <- getRandomInRange 200 350 default_noise ;;
  ret {| env_timestamp := timestamp;
         co2_emissions := co2;
         nox_emissions := nox;
         so2_emissions := so2;
         dust_emissions := dust;
         energy_consumption_specific := ecs;
         alternative_fuel_substitution := afs;
         waste_heat_recovery := productionRate * whr;
         water_consumption := water |}.

Definition is_running (s : Status) : bool :=
  match s with running => true | _ => false end.

(** [generatePlantOverview()] *)
Definition generatePlantOverview (self : CementPlantSimulator) : M PlantOverview :=
  timestamp <- Date_now ;;
  equipmentStatus <- generateEquipmentStatus self ;;
  let runningEquipment :=
    N.of_nat (List.length (filter (fun eq => is_running (status eq)) equipmentStatus)) in
  let activeAlerts :=
    fold_left (fun total eq => (total + N.of_nat (List.length (alerts eq)))%N) equipmentStatus 0%N in
  oe <- getRandomInRange 82 94 default_noise ;;
  ecc <- getRandomInRange 85 105 default_noise ;;
  qsa <- getRandomInRange 88 96 default_noise ;;
  u <- Math_random ;;
  ret {| po_timestamp := timestamp;
         overall_efficiency := oe;
         production_rate_current :=
           lastProductionRateOr self (plant_capacity (config self) * 0.85);
         production_rate_target := plant_capacity (config self);
         energy_consumption_current := ecc;
         energy_consumption_target := 90;
         quality_score_avg := qsa;
         active_alerts_count := activeAlerts;
         equipment_running_count := runningEquipment;
         equipment_total_count := N.of_nat (List.length equipmentStatus);
         environmental_compliance := gtb u 0.1 |}.

(** [startSimulation()], [stopSimulation()], [isRunning()];
    [injectAnomaly(type)] only writes to the console. *)
Definition startSimulation (self : CementPlantSimulator) : CementPlantSimulator :=
  mkSimulator (config self) (baseTime self) true (lastParameters self).

Definition stopSimulation (self : CementPlantSimulator) : CementPlantSimulator :=
  mkSimulator (config self) (baseTime self) false (lastParameters self).

Definition isRunning (self : CementPlantSimulator) : bool := simulationRunning self.

Definition injectAnomaly (self : CementPlantSimulator) : CementPlantSimulator := self.

(* ------------------------------------------------------------------ *)
(** ** ai/geminiService.ts *)

Record GeminiResponse : Type := mkGeminiResponse {
  response        : jsstring;
  confidence      : Q;
  recommendations : option (list jsstring);   (* [None]: the field is absent *)
  context_used    : list jsstring
}.

Record GeminiService : Type := mkGeminiService {
  apiKey             : jsstring;
  customSystemPrompt : option jsstring
}.

Definition setCustomSystemPrompt (self : GeminiService) (prompt : jsstring) : GeminiService :=
  mkGeminiService (apiKey self) (Some prompt).

Definition getCustomSystemPrompt (self : GeminiService) : option jsstring :=
  customSystemPrompt self.

Definition clearCustomSystemPrompt (self : GeminiService) : GeminiService :=
  mkGeminiService (apiKey self) None.

Definition defaultSystemPrompt : jsstring := js
"
You are CementAI Nexus Assistant, an expert AI system for cement plant operations. You have deep knowledge of:

1. Cement Manufacturing Process:
   - Raw material preparation and grinding
   - Pyroprocessing in rotary kilns
   - Clinker cooling and cement grinding
   - Quality control and testing

2. Equipment and Systems:
   - Rotary kilns, preheaters, and coolers
   - Raw mills and cement mills
   - Fans, separators, and conveyors
   - Control systems and instrumentation

3. Process Optimization:
   - Energy efficiency improvements
   - Alternative fuel utilization
   - Emissions reduction strategies
   - Quality optimization techniques

4. Operational Excellence:
   - Preventive maintenance
   - Safety procedures
   - Environmental compliance
   - Cost optimization

Always provide:
- Clear, actionable recommendations
- Specific technical explanations
- Safety considerations
- Environmental impact awareness
- Cost-benefit analysis when relevant

Keep responses concise but comprehensive, suitable for plant operators and engineers.
".

(** [buildSystemPrompt()]: an empty custom prompt is falsy. *)
Definition buildSystemPrompt (self : GeminiService) : jsstring :=
  match customSystemPrompt self with
  | Some p => if truthy (VString p) then p else defaultSystemPrompt
  | None => defaultSystemPrompt
  end.

(** The prompt sent to the service is the text
    [systemPrompt + '\n\n' + `Question: ${question}\n\n`] followed, when there
    is dashboard data, by status lines that print some of its numbers with
    [toFixed].  The model keeps the three parts instead of the printed text. *)
Record Prompt : Type := mkPrompt {
  prompt_system   : jsstring;
  prompt_question : jsstring;
  prompt_context  : option DashboardData
}.

(** [buildContextualPrompt(question, dashboardData, plantContext)]: the
    question and the data of the status lines; [plantContext] is not used. *)
Definition buildContextualPrompt (question : jsstring)
    (dashboardData : option DashboardData) (plantContext : option ProcessParameters)
  : jsstring * option DashboardData :=
  (question, dashboardData).

(** The text of the reply that [callGeminiAPI] makes up when the call fails. *)
Definition connectionTroubleText : jsstring := js
"I apologize, but I'm having trouble connecting to the AI service right now. 

However, based on your question, I can provide general guidance:

For cement plant operations, the key areas to focus on are:
- **Process Control**: Maintaining stable kiln temperature, consistent raw meal feed, and optimal mill operations
- **Quality Assurance**: Regular testing of cement properties, monitoring fineness and strength development
- **Energy Efficiency**: Optimizing fuel consumption, utilizing alternative fuels, and reducing specific energy consumption
- **Environmental Compliance**: Managing emissions, dust control, and sustainable practices

Please try your question again, or feel free to ask more specific questions about:
- Kiln operation and temperature control
- Quality parameters and testing
- Energy optimization strategies
- Environmental compliance
- Maintenance and reliability

I'll do my best to provide detailed, context-aware recommendations based on your current plant data.".

Definition connectionTroubleReply : Value :=
  VObject [ (js "candidates",
    VArray [ VObject [ (js "content",
      VObject [ (js "parts",
        VArray [ VObject [ (js "text", VString connectionTroubleText) ] ]) ]) ] ]) ].

(** The test
    [!data.candidates || !data.candidates[0] || !data.candidates[0].content]
    negated; it throws where a property of [undefined] or [null] is read. *)
Definition hasExpectedStructure (data : Value) : Result bool :=
  rbind (prop data (js "candidates")) (fun candidates =>
  if negb (truthy candidates) then Ok false else
  rbind (index0 candidates) (fun candidate =>
  if negb (truthy candidate) then Ok false else
  rbind (prop candidate (js "content")) (fun content =>
  Ok (truthy content)))).

(** [callGeminiAPI(prompt)]: every failure inside the [try] block (no reply,
    a reply that is not [ok], a body that is not JSON, a body without the
    expected structure) ends in the [catch] block, which returns the made-up
    reply. *)
Definition callGeminiAPI (self : GeminiService) (prompt : Prompt) : M Value :=
  outcome <- fetch ;;
  ret match outcome with
      | FetchRejected => connectionTroubleReply
      | HttpError _ => connectionTroubleReply
      | HttpOkInvalidBody => connectionTroubleReply
      | HttpOk data =>
          match hasExpectedStructure data with
          | Ok true => data
          | Ok false => connectionTroubleReply
          | Throw => connectionTroubleReply
          end
      end.

Definition mentions_action (line : jsstring) : bool :=
  includes line (js "Reduce") || includes line (js "Increase")
  || includes line (js "Optimize") || includes line (js "Adjust")
  || includes line (js "Monitor") || includes line (js "Check").

(** [line.replace(/^\W+/, '').trim()] *)
Definition cleaned (line : jsstring) : jsstring :=
  trim (strip_leading_non_word line).

(** [extractRecommendations(text)] *)
Definition extractRecommendations (text : jsstring) : list jsstring :=
  let lines := split_lines text in
  let recommendations :=
    fold_left
      (fun recommendations line =>
         if mentions_action line then
           if (10 <? List.length (cleaned line))%nat
           then recommendations ++ [cleaned line]
           else recommendations
         else recommendations)
      lines [] in
  slice0 5 recommendations.

(** [parseGeminiResponse(response)]: [Throw] stands for the error
    [Failed to parse Gemini response].  A [text] that is not a string has no
    method [split], so that [extractRecommendations] throws on it. *)
Definition parseGeminiResponse (response : Value) : Result GeminiResponse :=
  rbind (prop response (js "candidates")) (fun candidates =>
  rbind (index0 candidates) (fun candidate =>
  rbind (prop candidate (js "content")) (fun content =>
  rbind (prop content (js "parts")) (fun parts =>
  rbind (index0 parts) (fun part =>
  rbind (prop part (js "text")) (fun text =>
  match text with
  | VString text =>
      let recommendations := extractRecommendations text in
      Ok {| response := text;
            confidence := 0.85;
            recommendations := Some recommendations;
            context_used := [js "plant_data"; js "process_parameters";
                             js "environmental_metrics"] |}
  | _ => Throw
  end)))))).

(** The reply of the [catch] block of [askGemini]. *)
Definition unableToAccess : GeminiResponse :=
  {| response := js "I apologize, but I am currently unable to access the AI system. Please try again later.";
     confidence := 0;
     recommendations := None;
     context_used := [js "error"] |}.

(** [askGemini(question, dashboardData, plantContext)].  The console output,
    among it the first 150 units of the reply's text, is left out: it throws
    only where [parseGeminiResponse] throws as well. *)
Definition askGemini (self : GeminiService) (question : jsstring)
    (dashboardData : option DashboardData) (plantContext : option ProcessParameters)
  : M GeminiResponse :=
  let systemPrompt := buildSystemPrompt self in
  let contextualPrompt := buildContextualPrompt question dashboardData plantContext in
  let fullPrompt := mkPrompt systemPrompt (fst contextualPrompt) (snd contextualPrompt) in
  response <- callGeminiAPI self fullPrompt ;;
  ret match parseGeminiResponse response with
      | Ok r => r
      | Throw => unableToAccess
      end.

(* ------------------------------------------------------------------ *)
(** ** index.ts: the data source switch, the broadcast and the handlers *)

(** A record of the real data sequence. *)
Record RealRecord : Type := mkRealRecord {
  rr_timestamp            : string;
  rr_kiln_temperature     : R;
  rr_kiln_pressure        : R;
  rr_raw_mill_power       : R;
  rr_cement_mill_power    : R;
  rr_production_rate      : R;
  rr_compressive_strength : R;
  rr_fineness             : R;
  rr_co2_emissions        : R;
  rr_energy_consumption   : R
}.

(** [loadSampleRealData()] *)
Definition loadSampleRealData : list RealRecord :=
  [ mkRealRecord "2024-01-01T00:00:00Z" 1450.5 (-12.3) 2850 3150 1850 42.5 365 875 95.2;
    mkRealRecord "2024-01-01T00:05:00Z" 1452.1 (-11.8) 2890 3180 1870 43.1 358 878 94.8;
    mkRealRecord "2024-01-01T00:10:00Z" 1448.7 (-13.1) 2820 3120 1820 41.9 372 882 96.1;
    mkRealRecord "2024-01-01T00:15:00Z" 1455.3 (-10.9) 2910 3200 1895 44.2 351 869 93.7;
    mkRealRecord "2024-01-01T00:20:00Z" 1451.8 (-12.7) 2875 3165 1860 42.8 363 873 95.5;
    mkRealRecord "2024-01-01T00:25:00Z" 1453.4 (-11.5) 2895 3185 1885 43.5 356 871 94.3;
    mkRealRecord "2024-01-01T00:30:00Z" 1449.9 (-13.4) 2835 3135 1835 42.1 369 885 96.8;
    mkRealRecord "2024-01-01T00:35:00Z" 1456.2 (-10.6) 2925 3210 1905 44.8 348 865 93.2;
    mkRealRecord "2024-01-01T00:40:00Z" 1452.7 (-12.1) 2885 3175 1875 43.3 361 876 95.1;
    mkRealRecord "2024-01-01T00:45:00Z" 1450.3 (-12.9) 2860 3155 1850 42.6 367 880 95.9 ].

(** [generateDashboardFromRealData(realData)]; the equipment status comes
    from the simulator. *)
Definition generateDashboardFromRealData (simulator : CementPlantSimulator)
    (realData : RealRecord) : M DashboardData :=
  timestamp <- Date_now ;;
  let sensorReadings :=
    [ mkSensorReading timestamp "KILN_TEMP_01" (rr_kiln_temperature realData)
        "°C" "Kiln Burning Zone" st_temperature;
      mkSensorReading timestamp "KILN_PRESSURE_01" (rr_kiln_pressure realData)
        "kPa" "Kiln Inlet" st_pressure;
      mkSensorReading timestamp "RAW_MILL_POWER_01" (rr_raw_mill_power realData)
        "kW" "Raw Mill" st_power;
      mkSensorReading timestamp "CEMENT_MILL_POWER_01" (rr_cement_mill_power realData)
        "kW" "Cement Mill" st_power;
      mkSensorReading timestamp "PRODUCTION_FLOW_01" (rr_production_rate realData)
        "TPH" "Cement Silo" st_flow;
      mkSensorReading timestamp "FINENESS_01" (rr_fineness realData)
        "m²/kg" "Quality Control Lab" st_flow ] in
  let processParameters :=
    {| pp_timestamp := timestamp;
       kiln_temperature := rr_kiln_temperature realData;
       kiln_pressure := rr_kiln_pressure realData;
       raw_mill_power := rr_raw_mill_power realData;
       cement_mill_power := rr_cement_mill_power realData;
       production_rate := rr_production_rate realData;
       energy_consumption := rr_energy_consumption realData;
       alternative_fuel_rate := 25;
       raw_meal_flow := rr_production_rate realData * 1.55;
       cement_fineness := rr_fineness realData;
       clinker_temperature := rr_kiln_temperature realData - 300;
       exhaust_fan_speed := 500;
       preheater_temperature := rr_kiln_temperature realData - 1100 |} in
  now <- Date_now ;;
  let qualityMetrics :=
    {| qm_timestamp := timestamp;
       sample_id := REAL now;
       blaine_fineness := rr_fineness realData;
       compressive_strength_3d := rr_compressive_strength realData * 0.5;
       compressive_strength_28d := rr_compressive_strength realData;
       setting_time_initial := 75;
       setting_time_final := 270;
       quality_score := Rmin 95 (rr_compressive_strength realData * 2);
       defect_count := 1;
       consistency := 97.5;
       chemical_composition := mkChemicalComposition 60 20 10 10 3.0 1.0 |} in
  let environmentalData :=
    {| env_timestamp := timestamp;
       co2_emissions := rr_co2_emissions realData;
       nox_emissions := 650;
       so2_emissions := 120;
       dust_emissions := 25;
       energy_consumption_specific := rr_energy_consumption realData;
       alternative_fuel_substitution := 25;
       waste_heat_recovery := rr_production_rate realData * 25;
       water_consumption := 300 |} in
  let plantOverview :=
    {| po_timestamp := timestamp;
       overall_efficiency := Rmin 95 (100 - (rr_energy_consumption realData - 90) * 2);
       production_rate_current := rr_production_rate realData;
       production_rate_target := 2000;
       energy_consumption_current := rr_energy_consumption realData;
       energy_consumption_target := 90;
       quality_score_avg := Rmin 95 (rr_compressive_strength realData * 2);
       active_alerts_count := 2;
       equipment_running_count := 7;
       equipment_total_count := 8;
       environmental_compliance := true |} in
  equipmentStatus <- generateEquipmentStatus simulator ;;
  ret {| plant_overview := plantOverview;
         recent_sensors := sensorReadings;
         current_parameters := processParameters;
         recent_quality := [qualityMetrics];
         equipment_status := equipmentStatus;
         active_alerts := [];
         ai_recommendations := [];
         environmental_data := environmentalData |}.

(** The module-level state of [index.ts]. *)
Record Server : Type := mkServer {
  simulator           : CementPlantSimulator;
  geminiService       : GeminiService;
  latestDashboardData : option DashboardData;
  realDataEnabled     : bool;
  realDataSource      : list RealRecord;
  realDataIndex       : N
}.

(** The state once the module is loaded. *)
Definition initialServer (simulator : CementPlantSimulator) (gemini : GeminiService) : Server :=
  mkServer simulator gemini None false [] 0.

Definition set_simulator (s : Server) (sim : CementPlantSimulator) : Server :=
  mkServer sim (geminiService s) (latestDashboardData s) (realDataEnabled s)
           (realDataSource s) (realDataIndex s).

Definition set_geminiService (s : Server) (g : GeminiService) : Server :=
  mkServer (simulator s) g (latestDashboardData s) (realDataEnabled s)
           (realDataSource s) (realDataIndex s).

(** The dashboard data made of six calls of the simulator, as written in
    [broadcastData] and in the handler of [/api/dashboard/data]. *)
Definition simulatedDashboard (sim : CementPlantSimulator)
  : M (DashboardData * CementPlantSimulator) :=
  plantOverview <- generatePlantOverview sim ;;
  sensors <- generateSensorReadings sim ;;
  '(parameters, sim') <- generateProcessParameters sim ;;
  quality <- generateQualityMetrics sim' ;;
  equipmentStatus <- generateEquipmentStatus sim' ;;
  environmentalData <- generateEnvironmentalData sim' ;;
  ret ({| plant_overview := plantOverview;
          recent_sensors := sensors;
          current_parameters := parameters;
          recent_quality := [quality];
          equipment_status := equipmentStatus;
          active_alerts := [];
          ai_recommendations := [];
          environmental_data := environmentalData |}, sim').

(** [realDataSource[realDataIndex % realDataSource.length]]; [None] stands
    for [undefined]. *)
Definition currentRealData (s : Server) : option RealRecord :=
  nth_error (realDataSource s)
            (N.to_nat (realDataIndex s mod N.of_nat (List.length (realDataSource s)))).

(** [broadcastData()]: the new state and the data emitted as
    [dashboard_update] to all clients.  [Throw] stands for the TypeError
    raised where [generateDashboardFromRealData] reads a field of
    [undefined]; the index is below the length, so that this does not happen
    (lemma [currentRealData_defined]). *)
Definition broadcastData (s : Server) : M (Result DashboardData * Server) :=
  if realDataEnabled s && (0 <? List.length (realDataSource s))%nat then
    match currentRealData s with
    | Some realData =>
        dashboardData <- generateDashboardFromRealData (simulator s) realData ;;
        ret (Ok dashboardData,
             mkServer (simulator s) (geminiService s) (Some dashboardData)
                      (realDataEnabled s) (realDataSource s) (realDataIndex s + 1))
    | None => ret (Throw, s)
    end
  else
    '(dashboardData, sim') <- simulatedDashboard (simulator s) ;;
    ret (Ok dashboardData,
         mkServer sim' (geminiService s) (Some dashboardData)
                  (realDataEnabled s) (realDataSource s) (realDataIndex s)).

(** The bodies of the replies. *)
Inductive Body : Type :=
  | SensorData (data : list SensorReading)
  | PlantStatus (data : PlantOverview)
  | ProcessData (data : ProcessParameters)
  | QualityData (data : QualityMetrics)
  | EquipmentData (data : list EquipmentStatus)
  | EnvironmentalInfo (data : EnvironmentalData)
  | Dashboard (data : DashboardData)
  | Message (text : string)
  | AnomalyInjected (type : option string)
  | Chat (data : GeminiResponse)
  | SystemPrompt (systemPrompt : option jsstring) (isCustom : bool)
  | SystemPromptSet (systemPrompt : jsstring)
  | Loaded (dataType : string) (recordCount : N)
  | Toggled (realDataEnabled : bool) (currentDataSource : string)
  | RealDataStatus (realDataEnabled : bool) (recordCount currentIndex : N)
      (dataSource : string) (nextRecord : option RealRecord)
  | Failure (error : string).

Record Response : Type := mkResponse {
  http_status    : N;
  success        : bool;
  body           : Body;
  resp_timestamp : R
}.

Definition respond (st : N) (ok : bool) (b : Body) : M Response :=
  t <- Date_now ;; ret (mkResponse st ok b t).

(** [GET /api/sensors/realtime] *)
Definition get_sensors_realtime (s : Server) : M (Response * Server) :=
  sensorData <- generateSensorReadings (simulator s) ;;
  r <- respond 200 true (SensorData sensorData) ;;
  ret (r, s).

(** [GET /api/plant/status] *)
Definition get_plant_status (s : Server) : M (Response * Server) :=
  plantOverview <- generatePlantOverview (simulator s) ;;
  r <- respond 200 true (PlantStatus plantOverview) ;;
  ret (r, s).

(** [GET /api/process/parameters] *)
Definition get_process_parameters (s : Server) : M (Response * Server) :=
  '(processParams, sim') <- generateProcessParameters (simulator s) ;;
  r <- respond 200 true (ProcessData processParams) ;;
  ret (r, set_simulator s sim').

(** [GET /api/quality/current] *)
Definition get_quality_current (s : Server) : M (Response * Server) :=
  qualityData <- generateQualityMetrics (simulator s) ;;
  r <- respond 200 true (QualityData qualityData) ;;
  ret (r, s).

(** [GET /api/equipment/status] *)
Definition get_equipment_status (s : Server) : M (Response * Server) :=
  equipmentStatus <- generateEquipmentStatus (simulator s) ;;
  r <- respond 200 true (EquipmentData equipmentStatus) ;;
  ret (r, s).

(** [GET /api/environmental/current] *)
Definition get_environmental_current (s : Server) : M (Response * Server) :=
  environmentalData <- generateEnvironmentalData (simulator s) ;;
  r <- respond 200 true (EnvironmentalInfo environmentalData) ;;
  ret (r, s).

(** [GET /api/dashboard/data] *)
Definition get_dashboard_data (s : Server) : M (Response * Server) :=
  match latestDashboardData s with
  | Some latest =>
      r <- respond 200 true (Dashboard latest) ;;
      ret (r, s)
  | None =>
      '(dashboardData, sim') <- simulatedDashboard (simulator s) ;;
      r <- respond 200 true (Dashboard dashboardData) ;;
      ret (r, set_simulator s sim')
  end.

(** [POST /api/simulation/start], [/stop] and [/anomaly] *)
Definition post_simulation_start (s : Server) : M (Response * Server) :=
  r <- respond 200 true (Message "Simulation started") ;;
  ret (r, set_simulator s (startSimulation (simulator s))).

Definition post_simulation_stop (s : Server) : M (Response * Server) :=
  r <- respond 200 true (Message "Simulation stopped") ;;
  ret (r, set_simulator s (stopSimulation (simulator s))).

Definition post_simulation_anomaly (type : option string) (s : Server)
  : M (Response * Server) :=
  r <- respond 200 true (AnomalyInjected type) ;;
  ret (r, set_simulator s (injectAnomaly (simulator s))).

(** [POST /api/ai/chat] with the body [{ message }] *)
Definition post_ai_chat (message : jsstring) (s : Server) : M (Response * Server) :=
  response <- askGemini (geminiService s) message (latestDashboardData s) None ;;
  r <- respond 200 true (Chat response) ;;
  ret (r, s).

(** [GET], [POST] and [DELETE /api/ai/system-prompt]; the body of the
    [POST] holds a string or nothing of use ([None]). *)
Definition get_system_prompt (s : Server) : M (Response * Server) :=
  let currentPrompt := getCustomSystemPrompt (geminiService s) in
  r <- respond 200 true
         (SystemPrompt currentPrompt (match currentPrompt with Some _ => true | None => false end)) ;;
  ret (r, s).

Definition post_system_prompt (systemPrompt : option jsstring) (s : Server)
  : M (Response * Server) :=
  match systemPrompt with
  | Some p =>
      if negb (truthy (VString p)) then
        r <- respond 400 false (Failure "System prompt is required and must be a string") ;;
        ret (r, s)
      else if (List.length (trim p) <? 10)%nat then
        r <- respond 400 false (Failure "System prompt must be at least 10 characters long") ;;
        ret (r, s)
      else
        let g := setCustomSystemPrompt (geminiService s) (trim p) in
        r <- respond 200 true (SystemPromptSet (trim p)) ;;
        ret (r, set_geminiService s g)
  | None =>
      r <- respond 400 false (Failure "System prompt is required and must be a string") ;;
      ret (r, s)
  end.

Definition delete_system_prompt (s : Server) : M (Response * Server) :=
  let g := clearCustomSystemPrompt (geminiService s) in
  r <- respond 200 true (Message "Custom system prompt cleared, reverted to default") ;;
  ret (r, set_geminiService s g).

(** [POST /api/real-data/load] with the body [{ dataType, source }]; the
    [dataType] is a string or nothing of use ([None]). *)
Definition is_sample (dataType : option string) : bool :=
  match dataType with
  | Some t => (t =? "sample")%string
  | None => false
  end.

Definition post_real_data_load (dataType : option string) (s : Server)
  : M (Response * Server) :=
  if is_sample dataType then
    let source := loadSampleRealData in
    r <- respond 200 true (Loaded "sample" (N.of_nat (List.length source))) ;;
    ret (r, mkServer (simulator s) (geminiService s) (latestDashboardData s)
                     true source 0)
  else
    (* the text of the error has the word sample in quotation marks *)
    r <- respond 400 false (Failure "Unsupported data type. Use sample for demo data.") ;;
    ret (r, s).

Definition dataSourceName (enabled : bool) : string :=
  if enabled then "Real plant data" else "Simulated data".

(** [POST /api/real-data/toggle] *)
Definition post_real_data_toggle (s : Server) : M (Response * Server) :=
  let enabled := negb (realDataEnabled s) in
  r <- respond 200 true (Toggled enabled (dataSourceName enabled)) ;;
  ret (r, mkServer (simulator s) (geminiService s) (latestDashboardData s)
                   enabled (realDataSource s) (realDataIndex s)).

(** [GET /api/real-data/status] *)
Definition get_real_data_status (s : Server) : M (Response * Server) :=
  r <- respond 200 true
         (RealDataStatus (realDataEnabled s)
            (N.of_nat (List.length (realDataSource s))) (realDataIndex s)
            (dataSourceName (realDataEnabled s))
            (if realDataEnabled s && (0 <? List.length (realDataSource s))%nat
             then currentRealData s else None)) ;;
  ret (r, s).

(** The handlers of a socket: on connection the latest data, if any, are
    emitted to the new client; [request_sensor_data] and
    [request_process_data] are answered from the simulator. *)
Definition on_connection (s : Server) : M (option DashboardData * Server) :=
  ret (latestDashboardData s, s).

Definition on_request_sensor_data (s : Server) : M (list SensorReading * Server) :=
  sensors <- generateSensorReadings (simulator s) ;;
  ret (sensors, s).

Definition on_request_process_data (s : Server) : M (ProcessParameters * Server) :=
  '(parameters, sim') <- generateProcessParameters (simulator s) ;;
  ret (parameters, set_simulator s sim').

(** What can happen to the server: the timer fires, a request arrives, a
    socket connects or asks.  The analysis endpoints under [/api/ai] other
    than the chat, [/health], [/api/health] and [/api/firebase/test] assign
    to none of the variables of [Server] and are not listed. *)
Inductive Event : Type :=
  | Tick
  | GetSensorsRealtime
  | GetPlantStatus
  | GetProcessParameters
  | GetQualityCurrent
  | GetEquipmentStatus
  | GetEnvironmentalCurrent
  | GetDashboardData
  | PostSimulationStart
  | PostSimulationStop
  | PostSimulationAnomaly (type : option string)
  | PostAiChat (message : jsstring)
  | GetSystemPrompt
  | PostSystemPrompt (systemPrompt : option jsstring)
  | DeleteSystemPrompt
  | PostRealDataLoad (dataType : option string)
  | PostRealDataToggle
  | GetRealDataStatus
  | SocketConnection
  | SocketRequestSensorData
  | SocketRequestProcessData.

(** What the server sends out in answer to an event. *)
Inductive Output : Type :=
  | Broadcast (data : Result DashboardData)
  | Reply (r : Response)
  | EmitDashboard (data : option DashboardData)
  | EmitSensorData (data : list SensorReading)
  | EmitProcessData (data : ProcessParameters).

Definition reply (m : M (Response * Server)) : M (Output * Server) :=
  '(r, s) <- m ;; ret (Reply r, s).

Definition step (e : Event) (s : Server) : M (Output * Server) :=
  match e with
  | Tick => '(d, s') <- broadcastData s ;; ret (Broadcast d, s')
  | GetSensorsRealtime => reply (get_sensors_realtime s)
  | GetPlantStatus => reply (get_plant_status s)
  | GetProcessParameters => reply (get_process_parameters s)
  | GetQualityCurrent => reply (get_quality_current s)
  | GetEquipmentStatus => reply (get_equipment_status s)
  | GetEnvironmentalCurrent => reply (get_environmental_current s)
  | GetDashboardData => reply (get_dashboard_data s)
  | PostSimulationStart => reply (post_simulation_start s)
  | PostSimulationStop => reply (post_simulation_stop s)
  | PostSimulationAnomaly type => reply (post_simulation_anomaly type s)
  | PostAiChat message => reply (post_ai_chat message s)
  | GetSystemPrompt => reply (get_system_prompt s)
  | PostSystemPrompt p => reply (post_system_prompt p s)
  | DeleteSystemPrompt => reply (delete_system_prompt s)
  | PostRealDataLoad dataType => reply (post_real_data_load dataType s)
  | PostRealDataToggle => reply (post_real_data_toggle s)
  | GetRealDataStatus => reply (get_real_data_status s)
  | SocketConnection => '(d, s') <- on_connection s ;; ret (EmitDashboard d, s')
  | SocketRequestSensorData =>
      '(d, s') <- on_request_sensor_data s ;; ret (EmitSensorData d, s')
  | SocketRequestProcessData =>
      '(d, s') <- on_request_process_data s ;; ret (EmitProcessData d, s')
  end.

(** A run of events, with the outputs in the order they were sent. *)
Fixpoint run (es : list Event) (s : Server) : M (list Output * Server) :=
  match es with
  | [] => ret ([], s)
  | e :: es' =>
      '(o, s') <- step e s ;;
      '(os, s'') <- run es' s' ;;
      ret (o :: os, s'')
  end.

(** [createGeminiService()] and [simulationConfig] with the environment
    variables unset. *)
Definition createGeminiService : GeminiService := mkGeminiService (js "demo-key") None.

Definition simulationConfig : SimulationConfig := mkConfig 2000 50 1 0.1 0.05 0.1.

(** The server when the module has been loaded. *)
Definition bootServer : M Server :=
  simulator <- newCementPlantSimulator simulationConfig ;;
  ret (initialServer simulator createGeminiService).

(** The dashboard data [d] carry the nine figures of the record [r], as the
    data built by [generateDashboardFromRealData] do. *)
Definition built_from (r : RealRecord) (d : DashboardData) : Prop :=
  kiln_temperature (current_parameters d) = rr_kiln_temperature r
  /\ kiln_pressure (current_parameters d) = rr_kiln_pressure r
  /\ raw_mill_power (current_parameters d) = rr_raw_mill_power r
  /\ cement_mill_power (current_parameters d) = rr_cement_mill_power r
  /\ production_rate (current_parameters d) = rr_production_rate r
  /\ energy_consumption (current_parameters d) = rr_energy_consumption r
  /\ cement_fineness (current_parameters d) = rr_fineness r
  /\ co2_emissions (environmental_data d) = rr_co2_emissions r
  /\ map compressive_strength_28d (recent_quality d) = [rr_compressive_strength r].

(** The output [o] is a broadcast of data built from the record at the index
    [i] of the sequence. *)
Definition replays (source : list RealRecord) (o : Output) (i : nat) : Prop :=
  exists d r, nth_error source i = Some r /\ o = Broadcast (Ok d) /\ built_from r d.

(** The ways the call of the AI service fails in [callGeminiAPI]. *)
Definition backendFails (o : FetchOutcome) : bool :=
  match o with
  | FetchRejected | HttpError _ | HttpOkInvalidBody => true
  | HttpOk data =>
      match hasExpectedStructure data with
      | Ok true => false
      | _ => true
      end
  end.

(** The lines that [extractRecommendations] keeps. *)
Definition kept (line : jsstring) : bool :=
  mentions_action line && (10 <? List.length (cleaned line))%nat.

(** A reply of the service with advice in it, for concrete runs. *)
Definition adviceText : jsstring := js
"Plan:
- Reduce kiln temperature by 10 degrees
* Check it
  2) Monitor NOx emissions closely  
Optimize".

Definition adviceReply : Value :=
  VObject [ (js "candidates",
    VArray [ VObject [ (js "content",
      VObject [ (js "parts", VArray [ VObject [ (js "text", VString adviceText) ] ]) ]) ] ]) ].

(** A reply that passes the test of [callGeminiAPI] and has no [parts]. *)
Definition partlessReply : Value :=
  VObject [ (js "candidates", VArray [ VObject [ (js "content", VObject []) ] ]) ].

(** The state of the data source switch: mode, sequence and position. *)
Definition switchState (s : Server) : bool * list RealRecord * N :=
  (realDataEnabled s, realDataSource s, realDataIndex s).

(** The events that load the real data or toggle the mode. *)
Definition switches (e : Event) : bool :=
  match e with
  | PostRealDataLoad _ | PostRealDataToggle => true
  | _ => false
  end.

(** Every coming result of [Math.random()] lies in [0, 1), as the language
    promises. *)
Definition draws_in_unit (w : World) : Prop :=
  forall n : nat, 0 <= randoms w n < 1.

(** A computation keeps the coming draws within [0, 1). *)
Definition keeps_draws {A : Type} (m : M A) : Prop :=
  forall w, draws_in_unit w -> draws_in_unit (snd (m w)).

(** A reply of the service in the shape that [parseGeminiResponse] reads,
    with the text [text]. *)
Definition textReply (text : jsstring) : Value :=
  VObject [ (js "candidates",
    VArray [ VObject [ (js "content",
      VObject [ (js "parts", VArray [ VObject [ (js "text", VString text) ] ]) ]) ] ]) ].

(** The events that leave the whole state of the server as it is. *)
Definition read_only (e : Event) : bool :=
  match e with
  | GetSensorsRealtime | GetPlantStatus | GetQualityCurrent | GetEquipmentStatus
  | GetEnvironmentalCurrent | PostSimulationAnomaly _ | PostAiChat _ | GetSystemPrompt
  | GetRealDataStatus | SocketConnection | SocketRequestSensorData => true
  | _ => false
  end.

(** The events that load the sample data. *)
Definition loads_sample (e : Event) : bool :=
  match e with
  | PostRealDataLoad dataType => is_sample dataType
  | _ => false
  end.

Definition is_tick (e : Event) : bool :=
  match e with
  | Tick => true
  | _ => false
  end.

(** A world for concrete runs: every draw is 1/2, the clock stands at 0. *)
Definition quietWorld : World :=
  mkWorld (fun _ => 1 / 2) (fun _ => 0) (fun _ => EmptyString) (fun _ => FetchRejected).

(** The simulator and the server of the concrete runs. *)
Definition quietSimulator : CementPlantSimulator :=
  fst (newCementPlantSimulator simulationConfig quietWorld).

Definition quietServer : Server := fst (bootServer quietWorld).

(** The quiet world four hours later. *)
Definition laterWorld : World :=
  mkWorld (fun _ => 1 / 2) (fun _ => 14400000) (fun _ => EmptyString) (fun _ => FetchRejected).

(* ================================================================== *)
(** * Part II: verified properties *)

(** ** Signal synthesizer *)

Lemma clamp_within (lo hi x : R) : lo <= hi -> lo <= Rmax lo (Rmin hi x) <= hi.
Proof.
  intros Hle. split.
  - apply Rmax_l.
  - apply Rmax_lub; [exact Hle | apply Rmin_l].
Qed.

Lemma getRandomInRange_world (min max noise : R) (w : World) :
  snd (getRandomInRange min max noise w)
  = mkWorld (tail (tail (randoms w))) (clock w) (uuids w) (fetches w).
Proof. reflexivity. Qed.

Lemma getRandomInRange_value (min max noise : R) (w : World) :
  fst (getRandomInRange min max noise w)
  = let base := min + randoms w 0%nat * (max - min) in
    let noiseValue := base * noise * (randoms w 1%nat - 0.5) * 2 in
    Rmax min (Rmin max (base + noiseValue)).
Proof. reflexivity. Qed.

Lemma getRandomInRange_clamped (min max noise : R) (w : World) :
  min <= max ->
  min <= fst (getRandomInRange min max noise w) <= max.
Proof.
  intros Hle. unfold getRandomInRange, bind, Math_random, ret. cbn.
  apply clamp_within. exact Hle.
Qed.

(** C6. For every [min <= max] and every noise fraction the value returned by
    [getRandomInRange] lies in the closed interval [min, max], whatever the
    random draws are (in particular when they lie in [0,1)). *)
Theorem getRandomInRange_within_bounds (min max noise : R) (w : World) :
  min <= max ->
  min <= fst (getRandomInRange min max noise w) <= max.
Proof.
  intros Hle. rewrite getRandomInRange_value. apply clamp_within. exact Hle.
Qed.

Lemma getRandomInRange_within_bounds_witness :
  340 <= 380
  /\ 340 <= fst (getRandomInRange 340 380 default_noise quietWorld) <= 380.
Proof.
  assert (H : 340 <= 380) by lra.
  split; [exact H |].
  exact (getRandomInRange_within_bounds 340 380 default_noise quietWorld H).
Defined.

Lemma sin_shift_2PI (x : R) : sin (x + 2 * PI) = sin x.
Proof. rewrite sin_plus, cos_2PI, sin_2PI. ring. Qed.

Lemma generateCyclicalValue_formula (self : CementPlantSimulator)
    (baseValue amplitude period phase : R) (w : World) :
  fst (generateCyclicalValue self baseValue amplitude period phase w)
  = baseValue + amplitude * sin (2 * PI * elapsedHours self w / period + phase).
Proof. reflexivity. Qed.

(** C7. [generateCyclicalValue] equals
    [base + amplitude * sin (2 * PI * t / period + phase)], where [t] is the
    number of hours elapsed since [baseTime]; hence for a period different
    from 0 its value at elapsed time [t + period] equals its value at [t]. *)
Theorem generateCyclicalValue_periodic (self : CementPlantSimulator)
    (baseValue amplitude period phase : R) (w1 w2 : World) :
  period <> 0 ->
  elapsedHours self w2 = elapsedHours self w1 + period ->
  fst (generateCyclicalValue self baseValue amplitude period phase w1)
  = baseValue + amplitude * sin (2 * PI * elapsedHours self w1 / period + phase)
  /\ fst (generateCyclicalValue self baseValue amplitude period phase w2)
     = fst (generateCyclicalValue self baseValue amplitude period phase w1).
Proof.
  intros Hp Ht. split; [apply generateCyclicalValue_formula|].
  rewrite !generateCyclicalValue_formula, Ht.
  replace (2 * PI * (elapsedHours self w1 + period) / period + phase)
    with ((2 * PI * elapsedHours self w1 / period + phase) + 2 * PI)
    by (field; exact Hp).
  now rewrite sin_shift_2PI.
Qed.

Lemma generateCyclicalValue_periodic_witness :
  4 <> 0
  /\ elapsedHours quietSimulator laterWorld = elapsedHours quietSimulator quietWorld + 4
  /\ fst (generateCyclicalValue quietSimulator 1450 40 4 0 laterWorld)
     = fst (generateCyclicalValue quietSimulator 1450 40 4 0 quietWorld).
Proof.
  assert (H4 : 4 <> 0) by lra.
  assert (Ht : elapsedHours quietSimulator laterWorld
               = elapsedHours quietSimulator quietWorld + 4)
    by (unfold elapsedHours; cbn; lra).
  split; [exact H4 | split; [exact Ht |]].
  exact (proj2 (generateCyclicalValue_periodic quietSimulator 1450 40 4 0
                  quietWorld laterWorld H4 Ht)).
Defined.

(** ** Running the monad *)

Lemma bind_run {A B : Type} (m : M A) (k : A -> M B) (w : World) :
  bind m k w = k (fst (m w)) (snd (m w)).
Proof. unfold bind. destruct (m w); reflexivity. Qed.

Lemma generateCyclicalValue_range (self : CementPlantSimulator)
    (baseValue amplitude period phase : R) (w : World) :
  0 <= amplitude ->
  baseValue - amplitude
  <= fst (generateCyclicalValue self baseValue amplitude period phase w)
  <= baseValue + amplitude.
Proof.
  intros Ha. rewrite generateCyclicalValue_formula.
  pose proof (SIN_bound (2 * PI * elapsedHours self w / period + phase)) as [Hl Hu].
  split; nra.
Qed.

(** ** Process parameters *)

(** The parameters are made of three cyclical values, of an efficiency
    between 0.6 and 1 and of an energy figure between 85 and 105. *)
Lemma generateProcessParameters_shape (self : CementPlantSimulator) (w : World) :
  exists e k r c g : R,
    0.6 <= e <= 1 /\ 1410 <= k <= 1490 /\ 2600 <= r <= 3000
    /\ 2950 <= c <= 3450 /\ 85 <= g <= 105
    /\ let p := fst (fst (generateProcessParameters self w)) in
       kiln_temperature p = k
       /\ raw_mill_power p = r * e
       /\ cement_mill_power p = c * e
       /\ production_rate p = plant_capacity (config self) * e
       /\ energy_consumption p = g / e.
Proof.
  unfold generateProcessParameters.
  rewrite bind_run. set (w1 := snd (Date_now w)).
  rewrite bind_run. set (w2 := snd (getRandomInRange (-0.05) 0.05 0.5 w1)).
  rewrite bind_run. set (w3 := snd (generateCyclicalValue self 1450 40 4 0 w2)).
  rewrite bind_run. set (w4 := snd (getRandomInRange (-15) (-5) default_noise w3)).
  rewrite bind_run. set (w5 := snd (generateCyclicalValue self 2800 200 6 0 w4)).
  rewrite bind_run. set (w6 := snd (generateCyclicalValue self 3200 250 8 0 w5)).
  rewrite !bind_run. unfold ret. cbn [fst snd].
  cbn [kiln_temperature raw_mill_power cement_mill_power production_rate energy_consumption].
  pose proof (getRandomInRange_clamped (-0.05) 0.05 0.5 w1 ltac:(lra)) as Hg.
  pose proof (SIN_bound (2 * PI * ((fst (Date_now w) - baseTime self) / (1000 * 60 * 60)) / 24))
    as Hs.
  eexists _, _, _, _, _.
  split; [| split; [| split; [| split; [| split; [| repeat split; reflexivity]]]]].
  - lra.
  - pose proof (generateCyclicalValue_range self 1450 40 4 0 w2 ltac:(lra)). lra.
  - pose proof (generateCyclicalValue_range self 2800 200 6 0 w4 ltac:(lra)). lra.
  - pose proof (generateCyclicalValue_range self 3200 250 8 0 w5 ltac:(lra)). lra.
  - apply (getRandomInRange_clamped 85 105 default_noise w6). lra.
Qed.

(** C8. Every record made by [generateProcessParameters] for a positive
    plant capacity has its kiln temperature in [1410, 1490] and its raw mill
    power, cement mill power, production rate and energy consumption not
    negative; this holds for all random draws and all readings of the clock. *)
Theorem generateProcessParameters_physical_bounds
    (self : CementPlantSimulator) (w : World) :
  0 < plant_capacity (config self) ->
  let p := fst (fst (generateProcessParameters self w)) in
  1450 - 40 <= kiln_temperature p <= 1450 + 40
  /\ 0 <= raw_mill_power p
  /\ 0 <= cement_mill_power p
  /\ 0 <= production_rate p
  /\ 0 <= energy_consumption p.
Proof.
  intros Hcap.
  destruct (generateProcessParameters_shape self w)
    as (e & k & r & c & g & He & Hk & Hr & Hc & Hg & Hp).
  cbv zeta in Hp |- *.
  destruct Hp as (-> & -> & -> & -> & ->).
  split; [lra |].
  split; [nra |].
  split; [nra |].
  split; [nra |].
  apply Rlt_le, Rdiv_lt_0_compat; lra.
Qed.

Lemma generateProcessParameters_physical_bounds_witness :
  0 < plant_capacity (config quietSimulator)
  /\ 0 <= production_rate (fst (fst (generateProcessParameters quietSimulator quietWorld))).
Proof.
  assert (H : 0 < plant_capacity (config quietSimulator)) by (cbn; lra).
  split; [exact H |].
  exact (proj1 (proj2 (proj2 (proj2
    (generateProcessParameters_physical_bounds quietSimulator quietWorld H))))).
Defined.

(** [generateProcessParameters] keeps the record it returns. *)
Lemma generateProcessParameters_retains (self : CementPlantSimulator) (w : World) :
  lastParameters (snd (fst (generateProcessParameters self w)))
  = Some (fst (fst (generateProcessParameters self w))).
Proof.
  unfold generateProcessParameters. rewrite !bind_run. reflexivity.
Qed.

(** ** Equipment status *)

Lemma equipmentRecord_id (self : CementPlantSimulator) (eq : string * string) (w : World) :
  equipment_id (fst (equipmentRecord self eq w)) = fst eq.
Proof. unfold equipmentRecord. rewrite !bind_run. reflexivity. Qed.

Lemma equipmentRecord_status (self : CementPlantSimulator) (eq : string * string) (w : World) :
  let st := status (fst (equipmentRecord self eq w)) in
  st = running \/ st = maintenance \/ st = error.
Proof.
  cbv zeta. unfold equipmentRecord. rewrite bind_run.
  destruct (gtb (fst (Math_random w)) 0.05); rewrite !bind_run; unfold ret; cbn [fst status].
  - left. reflexivity.
  - destruct (gtb _ 0.5); [right; left | right; right]; reflexivity.
Qed.

Lemma mapM_cons {A B : Type} (f : A -> M B) (x : A) (xs : list A) (w : World) :
  fst (mapM f (x :: xs) w) = fst (f x w) :: fst (mapM f xs (snd (f x w))).
Proof. cbn [mapM]. rewrite !bind_run. reflexivity. Qed.

Lemma mapM_pointwise {A B C : Type} (f : A -> M B) (g : A -> C) (h : B -> C)
    (P : B -> Prop) :
  (forall x w, h (fst (f x w)) = g x) ->
  (forall x w, P (fst (f x w))) ->
  forall xs w, map h (fst (mapM f xs w)) = map g xs /\ Forall P (fst (mapM f xs w)).
Proof.
  intros Hh HP. induction xs as [| x xs IH]; intros w.
  - split; [reflexivity | constructor].
  - rewrite mapM_cons. destruct (IH (snd (f x w))) as [IHm IHP].
    split.
    + cbn [map]. now rewrite Hh, IHm.
    + constructor; [apply HP | exact IHP].
Qed.

(** C9. Every call of [generateEquipmentStatus] returns exactly 8 records,
    whose ids are KILN_01, RAW_MILL_01, CEMENT_MILL_01, PREHEATER_01,
    COOLER_01, CRUSHER_01, SEPARATOR_01, FAN_01 in this order, and the status
    of each is running, maintenance or error, never stopped. *)
Theorem generateEquipmentStatus_fixed_units (self : CementPlantSimulator) (w : World) :
  let units := fst (generateEquipmentStatus self w) in
  List.length units = 8%nat
  /\ map equipment_id units
     = [ "KILN_01"; "RAW_MILL_01"; "CEMENT_MILL_01"; "PREHEATER_01";
         "COOLER_01"; "CRUSHER_01"; "SEPARATOR_01"; "FAN_01" ]%string
  /\ Forall (fun u => (status u = running \/ status u = maintenance \/ status u = error)
                      /\ status u <> stopped) units.
Proof.
  cbv zeta. unfold generateEquipmentStatus.
  destruct (mapM_pointwise (equipmentRecord self) fst equipment_id
              (fun u => (status u = running \/ status u = maintenance \/ status u = error)
                        /\ status u <> stopped)
              (equipmentRecord_id self)) with (xs := equipment) (w := w) as [Hids Hst].
  - intros x w'. pose proof (equipmentRecord_status self x w') as H. cbv zeta in H.
    split; [exact H |]. destruct H as [H | [H | H]]; rewrite H; discriminate.
  - split; [| split; [exact Hids | exact Hst]].
    rewrite <- (length_map equipment_id), Hids. reflexivity.
Qed.

(** ** The chat service: recommendations *)

Lemma rbind_ok {A B : Type} (r : Result A) (k : A -> Result B) (b : B) :
  rbind r k = Ok b -> exists a, r = Ok a /\ k a = Ok b.
Proof. destruct r as [a |]; cbn; [eauto | discriminate]. Qed.

Lemma collect_kept (lines : list jsstring) :
  forall acc,
    fold_left
      (fun recommendations line =>
         if mentions_action line then
           if (10 <? List.length (cleaned line))%nat
           then recommendations ++ [cleaned line]
           else recommendations
         else recommendations)
      lines acc
    = acc ++ map cleaned (filter kept lines).
Proof.
  induction lines as [| line lines IH]; intros acc; cbn [fold_left filter].
  - now rewrite app_nil_r.
  - rewrite IH. unfold kept at 2.
    destruct (mentions_action line); cbn [andb]; [| reflexivity].
    destruct (10 <? List.length (cleaned line))%nat; [| reflexivity].
    cbn [map]. now rewrite <- app_assoc.
Qed.

Lemma extractRecommendations_spec (text : jsstring) :
  extractRecommendations text = firstn 5 (map cleaned (filter kept (split_lines text))).
Proof. unfold extractRecommendations, slice0. now rewrite collect_kept. Qed.

Lemma is_word_not_space (c : N) : is_word c = true -> is_space c = false.
Proof.
  unfold is_word, is_space. intros H.
  apply not_true_is_false. intros Hs.
  repeat (progress rewrite ?orb_true_iff, ?andb_true_iff, ?N.leb_le, ?N.eqb_eq in H).
  repeat (progress rewrite ?orb_true_iff, ?andb_true_iff, ?N.leb_le, ?N.eqb_eq in Hs).
  lia.
Qed.

Lemma drop_while_last (f : N -> bool) (c : N) (l : jsstring) :
  f c = false -> exists l', drop_while f (l ++ [c]) = l' ++ [c].
Proof.
  intros Hc. induction l as [| x l IH]; cbn.
  - rewrite Hc. now exists [].
  - destruct (f x); [exact IH | now exists (x :: l)].
Qed.

Lemma strip_leading_non_word_head (s : jsstring) :
  strip_leading_non_word s = []
  \/ exists c rest, strip_leading_non_word s = c :: rest /\ is_word c = true.
Proof.
  unfold strip_leading_non_word. induction s as [| x s IH]; cbn; [now left |].
  destruct (is_word x) eqn:Hx; cbn; [right; eauto | exact IH].
Qed.

(** A cleaned line starts, if it is not empty, with a word character. *)
Lemma cleaned_head (line : jsstring) :
  cleaned line = [] \/ exists c rest, cleaned line = c :: rest /\ is_word c = true.
Proof.
  unfold cleaned, trim.
  destruct (strip_leading_non_word_head line) as [-> | (c & rest & -> & Hc)]; [now left |].
  right. pose proof (is_word_not_space c Hc) as Hs.
  cbn [drop_while]. rewrite Hs. cbn [rev].
  destruct (drop_while_last is_space c (rev rest) Hs) as [l' ->].
  rewrite rev_app_distr. cbn. eauto.
Qed.

Lemma in_slice0 {A : Type} (n : nat) (x : A) (l : list A) :
  In x (slice0 n l) -> In x l.
Proof.
  unfold slice0. intros H. rewrite <- (firstn_skipn n l). apply in_or_app. now left.
Qed.

Lemma extractRecommendations_entries (text : jsstring) :
  (List.length (extractRecommendations text) <= 5)%nat
  /\ Forall (fun entry =>
               exists line, In line (split_lines text)
                 /\ mentions_action line = true
                 /\ entry = trim (strip_leading_non_word line)
                 /\ (10 < List.length entry)%nat
                 /\ exists c rest, entry = c :: rest /\ is_word c = true)
            (extractRecommendations text).
Proof.
  rewrite extractRecommendations_spec. split; [apply firstn_le_length |].
  apply Forall_forall. intros entry Hin.
  apply (in_slice0 5), in_map_iff in Hin. destruct Hin as (line & <- & Hline).
  apply filter_In in Hline. destruct Hline as [Hline Hkept].
  unfold kept in Hkept. apply andb_true_iff in Hkept. destruct Hkept as [Hm Hlen].
  apply Nat.ltb_lt in Hlen.
  exists line. repeat split; try assumption.
  destruct (cleaned_head line) as [Hnil | H]; [| exact H].
  rewrite Hnil in Hlen. cbn in Hlen. lia.
Qed.

Lemma parseGeminiResponse_confidence (reply : Value) (r : GeminiResponse) :
  parseGeminiResponse reply = Ok r ->
  confidence r = 0.85%Q
  /\ context_used r = [js "plant_data"; js "process_parameters"; js "environmental_metrics"].
Proof.
  unfold parseGeminiResponse. intros H.
  repeat (apply rbind_ok in H; destruct H as (? & _ & H)).
  match type of H with match ?t with _ => _ end = _ => destruct t end;
    try discriminate H.
  injection H as <-. split; reflexivity.
Qed.

(** C10. A response built by [parseGeminiResponse] from a reply it parses
    has the fixed confidence 0.85 and a list of at most 5 recommendations;
    every recommendation is a line of the reply's text with its leading
    non-word characters stripped (and trimmed), longer than 10. *)
Theorem parseGeminiResponse_recommendations (reply : Value) (r : GeminiResponse) :
  parseGeminiResponse reply = Ok r ->
  confidence r = 0.85%Q
  /\ exists recs,
       recommendations r = Some recs
       /\ (List.length recs <= 5)%nat
       /\ Forall (fun entry =>
                    exists line, In line (split_lines (response r))
                      /\ mentions_action line = true
                      /\ entry = trim (strip_leading_non_word line)
                      /\ (10 < List.length entry)%nat
                      /\ exists c rest, entry = c :: rest /\ is_word c = true)
                 recs.
Proof.
  unfold parseGeminiResponse. intros H.
  repeat (apply rbind_ok in H; destruct H as (? & _ & H)).
  match type of H with match ?t with _ => _ end = _ => destruct t end;
    try discriminate H.
  injection H as <-. cbn [confidence recommendations response].
  split; [reflexivity |].
  eexists. split; [reflexivity |]. apply extractRecommendations_entries.
Qed.

Lemma parseGeminiResponse_recommendations_witness :
  exists r, parseGeminiResponse adviceReply = Ok r
    /\ confidence r = 0.85%Q
    /\ recommendations r
       = Some [ js "Reduce kiln temperature by 10 degrees";
                js "2) Monitor NOx emissions closely" ].
Proof.
  eexists. assert (H : parseGeminiResponse adviceReply = Ok _) by (vm_compute; reflexivity).
  split; [exact H |].
  split; [exact (proj1 (parseGeminiResponse_recommendations _ _ H)) | reflexivity].
Defined.

(** ** The chat service: failures of the AI backend *)

Lemma parse_connectionTroubleReply :
  parseGeminiResponse connectionTroubleReply
  = Ok {| response := connectionTroubleText;
          confidence := 0.85;
          recommendations := Some [];
          context_used := [js "plant_data"; js "process_parameters";
                           js "environmental_metrics"] |}.
Proof. vm_compute. reflexivity. Qed.

Lemma callGeminiAPI_reply (self : GeminiService) (prompt : Prompt) (w : World) :
  fst (callGeminiAPI self prompt w)
  = match fetches w O with
    | HttpOk data => if backendFails (HttpOk data) then connectionTroubleReply else data
    | _ => connectionTroubleReply
    end.
Proof.
  unfold callGeminiAPI. rewrite bind_run. unfold ret. cbn [fst fetch backendFails].
  destruct (fetches w O) as [| | | data]; try reflexivity.
  destruct (hasExpectedStructure data) as [[|] |]; reflexivity.
Qed.

Lemma askGemini_reply (self : GeminiService) (question : jsstring)
    (dashboardData : option DashboardData) (plantContext : option ProcessParameters)
    (w : World) :
  fst (askGemini self question dashboardData plantContext w)
  = match parseGeminiResponse
            (fst (callGeminiAPI self
                    (mkPrompt (buildSystemPrompt self) question dashboardData) w)) with
    | Ok r => r
    | Throw => unableToAccess
    end.
Proof. unfold askGemini. rewrite bind_run. reflexivity. Qed.

Lemma post_ai_chat_body (message : jsstring) (s : Server) (w : World) :
  fst (post_ai_chat message s w)
  = (mkResponse 200 true
       (Chat (fst (askGemini (geminiService s) message (latestDashboardData s) None w)))
       (clock w O), s).
Proof.
  unfold post_ai_chat, respond. rewrite !bind_run. unfold ret. cbn [fst snd].
  unfold askGemini, callGeminiAPI. rewrite !bind_run. reflexivity.
Qed.

(** C3, as the code has it.  When the call of the AI backend fails (no
    reply, a status that is not ok, a body that is not JSON or that lacks
    [candidates[0].content]), with or without cached dashboard data, the chat
    request is answered with the reply made up by [callGeminiAPI]: its text,
    the confidence 0.85, no recommendation and the three usual entries of
    [context_used].  The fallback of confidence 0 and [context_used] equal to
    ["error"] is the answer exactly when a reply that passed the structure
    test cannot be parsed. *)
Theorem chat_backend_failure_reply (message : jsstring) (s : Server) (w : World) :
  let out := fst (post_ai_chat message s w) in
  let r := fst (askGemini (geminiService s) message (latestDashboardData s) None w) in
  body (fst out) = Chat r /\ http_status (fst out) = 200%N /\ snd out = s
  /\ (backendFails (fetches w O) = true ->
      response r = connectionTroubleText
      /\ confidence r = 0.85%Q
      /\ recommendations r = Some []
      /\ context_used r = [js "plant_data"; js "process_parameters";
                           js "environmental_metrics"])
  /\ (confidence r = 0%Q /\ context_used r = [js "error"]
      <-> exists data, fetches w O = HttpOk data
            /\ hasExpectedStructure data = Ok true
            /\ parseGeminiResponse data = Throw).
Proof.
  cbv zeta. rewrite post_ai_chat_body. cbn [fst snd body http_status].
  split; [reflexivity | split; [reflexivity | split; [reflexivity |]]].
  rewrite askGemini_reply, callGeminiAPI_reply.
  split.
  - intros Hfail.
    assert (Hcanned : match fetches w O with
                      | HttpOk data =>
                          if backendFails (HttpOk data) then connectionTroubleReply else data
                      | _ => connectionTroubleReply
                      end = connectionTroubleReply).
    { destruct (fetches w O); try reflexivity. now rewrite Hfail. }
    rewrite Hcanned, parse_connectionTroubleReply. cbn. repeat split; reflexivity.
  - split.
    + intros [Hconf Hctx].
      destruct (fetches w O) as [| | | data] eqn:Hfetch;
        try (rewrite parse_connectionTroubleReply in Hconf; discriminate Hconf).
      destruct (backendFails (HttpOk data)) eqn:Hfail;
        [rewrite parse_connectionTroubleReply in Hconf; discriminate Hconf |].
      exists data. split; [reflexivity |].
      cbn [backendFails] in Hfail.
      destruct (hasExpectedStructure data) as [[|] |]; try discriminate Hfail.
      split; [reflexivity |].
      destruct (parseGeminiResponse data) as [r |] eqn:Hparse; [| reflexivity].
      destruct (parseGeminiResponse_confidence data r Hparse) as [Hc _].
      rewrite Hc in Hconf. discriminate Hconf.
    + intros (data & -> & Hstruct & Hparse).
      cbn [backendFails]. rewrite Hstruct, Hparse. split; reflexivity.
Qed.

Lemma chat_backend_failure_reply_witness :
  backendFails (fetches quietWorld O) = true
  /\ confidence (fst (askGemini (geminiService quietServer) (js "How is the kiln?")
                        (latestDashboardData quietServer) None quietWorld))
     = 0.85%Q.
Proof.
  assert (H : backendFails (fetches quietWorld O) = true) by reflexivity.
  split; [exact H |].
  destruct (chat_backend_failure_reply (js "How is the kiln?") quietServer quietWorld)
    as (_ & _ & _ & Hfail & _).
  exact (proj1 (proj2 (Hfail H))).
Defined.

(** C3, as it is stated, fails: no dashboard data are cached, the call of the
    AI backend is rejected, and the response has neither the confidence 0 nor
    the [context_used] list ["error"]. *)
Lemma chat_backend_failure_counterexample :
  latestDashboardData quietServer = None
  /\ fetches quietWorld O = FetchRejected
  /\ exists r,
       body (fst (fst (post_ai_chat (js "How is the kiln?") quietServer quietWorld)))
       = Chat r
       /\ confidence r <> 0%Q
       /\ context_used r <> [js "error"].
Proof.
  split; [reflexivity | split; [reflexivity |]].
  eexists. rewrite post_ai_chat_body. cbn [fst body]. split; [reflexivity |].
  rewrite askGemini_reply, callGeminiAPI_reply. cbn [fetches quietWorld].
  rewrite parse_connectionTroubleReply. split; discriminate.
Qed.

(** ** The data source switch and the broadcast *)

Lemma generateDashboardFromRealData_built_from (sim : CementPlantSimulator)
    (r : RealRecord) (w : World) :
  built_from r (fst (generateDashboardFromRealData sim r w)).
Proof.
  unfold generateDashboardFromRealData. rewrite !bind_run. unfold ret.
  cbn [fst]. unfold built_from. cbn. repeat split; reflexivity.
Qed.

(** The index that [broadcastData] reads is within the sequence. *)
Lemma currentRealData_defined (s : Server) :
  realDataSource s <> [] -> exists r, currentRealData s = Some r.
Proof.
  intros Hne. unfold currentRealData.
  destruct (nth_error (realDataSource s)
              (N.to_nat (realDataIndex s mod N.of_nat (List.length (realDataSource s)))))
    as [r |] eqn:Hnth; [eauto |].
  apply nth_error_None in Hnth. exfalso.
  assert (Hlen : (List.length (realDataSource s) <> 0)%nat).
  { destruct (realDataSource s); [congruence | cbn; lia]. }
  pose proof (N.mod_lt (realDataIndex s) (N.of_nat (List.length (realDataSource s)))
                ltac:(lia)).
  lia.
Qed.

Lemma nonempty_length {A : Type} (l : list A) :
  l <> [] -> (0 <? List.length l)%nat = true.
Proof. destruct l; [congruence | reflexivity]. Qed.

Lemma broadcastData_real (s : Server) (w : World) (r : RealRecord) :
  realDataEnabled s = true ->
  realDataSource s <> [] ->
  currentRealData s = Some r ->
  fst (broadcastData s w)
  = (Ok (fst (generateDashboardFromRealData (simulator s) r w)),
     mkServer (simulator s) (geminiService s)
       (Some (fst (generateDashboardFromRealData (simulator s) r w)))
       true (realDataSource s) (realDataIndex s + 1)).
Proof.
  intros Hen Hne Hcur. unfold broadcastData.
  rewrite Hen, (nonempty_length _ Hne), Hcur. cbn [andb].
  rewrite bind_run. reflexivity.
Qed.

Lemma broadcastData_simulated (s : Server) (w : World) :
  realDataEnabled s && (0 <? List.length (realDataSource s))%nat = false ->
  fst (broadcastData s w)
  = (Ok (fst (fst (simulatedDashboard (simulator s) w))),
     mkServer (snd (fst (simulatedDashboard (simulator s) w))) (geminiService s)
       (Some (fst (fst (simulatedDashboard (simulator s) w))))
       (realDataEnabled s) (realDataSource s) (realDataIndex s)).
Proof.
  intros Hsim. unfold broadcastData. rewrite Hsim, bind_run.
  destruct (fst (simulatedDashboard (simulator s) w)) as [d sim']. reflexivity.
Qed.

Lemma step_Tick (s : Server) (w : World) :
  fst (step Tick s w)
  = (Broadcast (fst (fst (broadcastData s w))), snd (fst (broadcastData s w))).
Proof.
  cbn [step]. rewrite bind_run. destruct (fst (broadcastData s w)). reflexivity.
Qed.

Lemma step_Tick_state (s : Server) (w : World) :
  snd (fst (step Tick s w)) = snd (fst (broadcastData s w)).
Proof. now rewrite step_Tick. Qed.

Lemma run_cons (e : Event) (es : list Event) (s : Server) (w : World) :
  run (e :: es) s w
  = (fst (fst (step e s w))
       :: fst (fst (run es (snd (fst (step e s w))) (snd (step e s w)))),
     snd (fst (run es (snd (fst (step e s w))) (snd (step e s w)))),
     snd (run es (snd (fst (step e s w))) (snd (step e s w)))).
Proof.
  cbn [run]. rewrite bind_run. destruct (step e s w) as [[o s'] w'].
  cbn [fst snd]. rewrite bind_run.
  destruct (run es s' w') as [[os s''] w'']. reflexivity.
Qed.

Lemma run_app (es1 es2 : list Event) (s : Server) (w : World) :
  snd (fst (run (es1 ++ es2) s w))
  = snd (fst (run es2 (snd (fst (run es1 s w))) (snd (run es1 s w))))
  /\ snd (run (es1 ++ es2) s w)
     = snd (run es2 (snd (fst (run es1 s w))) (snd (run es1 s w))).
Proof.
  revert s w. induction es1 as [| e es1 IH]; intros s w; [split; reflexivity |].
  cbn [app]. rewrite !run_cons. cbn [fst snd]. apply IH.
Qed.

Lemma replay_run (k : nat) :
  forall (s : Server) (w : World) (base : N) (a : nat),
    realDataEnabled s = true ->
    realDataSource s <> [] ->
    realDataIndex s = (base + N.of_nat a)%N ->
    let res := fst (run (repeat Tick k) s w) in
    let n := N.of_nat (List.length (realDataSource s)) in
    Forall2 (fun o j => replays (realDataSource s) o (N.to_nat ((base + N.of_nat j) mod n)))
            (fst res) (seq a k)
    /\ realDataIndex (snd res) = (base + N.of_nat (a + k))%N
    /\ realDataEnabled (snd res) = true
    /\ realDataSource (snd res) = realDataSource s.
Proof.
  induction k as [| k IH]; intros s w base a Hen Hne Hidx; cbv zeta.
  - cbn. repeat split; [constructor | rewrite Hidx; f_equal; lia | exact Hen].
  - cbn [repeat seq]. rewrite run_cons, step_Tick.
    destruct (currentRealData_defined s Hne) as [r Hcur].
    rewrite (broadcastData_real s w r Hen Hne Hcur). cbn [fst snd].
    set (d := fst (generateDashboardFromRealData (simulator s) r w)).
    set (s1 := mkServer _ _ _ _ _ _).
    specialize (IH s1 (snd (step Tick s w)) base (S a)).
    cbv zeta in IH. destruct IH as (Hall & Hi & He & Hs).
    + reflexivity.
    + exact Hne.
    + subst s1. cbn [realDataIndex]. rewrite Hidx. lia.
    + repeat split.
      * constructor; [| exact Hall].
        exists d, r. split; [| split; [reflexivity |]].
        -- unfold currentRealData in Hcur. rewrite Hidx in Hcur. exact Hcur.
        -- apply generateDashboardFromRealData_built_from.
      * rewrite Hi. f_equal. lia.
      * exact He.
      * exact Hs.
Qed.

Lemma post_real_data_load_sample (s : Server) (w : World) :
  fst (post_real_data_load (Some "sample"%string) s w)
  = (mkResponse 200 true (Loaded "sample" 10) (clock w O),
     mkServer (simulator s) (geminiService s) (latestDashboardData s)
       true loadSampleRealData 0).
Proof. reflexivity. Qed.

(** C1. In REAL mode with a non-empty sequence of [n] records, the [j]-th of
    [k] consecutive broadcasts replays the record at index
    [(position + j) mod n], and the position has advanced by [k] afterwards;
    in particular the 25 broadcasts that follow the loading of the sample
    sequence replay the records at the indices 0..9, 0..9, 0..4 in order. *)
Theorem broadcast_cyclic_replay :
  (forall (k : nat) (s : Server) (w : World),
      realDataEnabled s = true ->
      realDataSource s <> [] ->
      let res := fst (run (repeat Tick k) s w) in
      let n := N.of_nat (List.length (realDataSource s)) in
      Forall2 (fun o j =>
                 replays (realDataSource s) o
                   (N.to_nat ((realDataIndex s + N.of_nat j) mod n)))
              (fst res) (seq 0 k)
      /\ realDataIndex (snd res) = (realDataIndex s + N.of_nat k)%N)
  /\ (forall (s : Server) (w w' : World),
        let loaded := snd (fst (post_real_data_load (Some "sample"%string) s w)) in
        realDataIndex loaded = 0%N
        /\ List.length (realDataSource loaded) = 10%nat
        /\ Forall2 (replays loadSampleRealData)
             (fst (fst (run (repeat Tick 25) loaded w')))
             [0; 1; 2; 3; 4; 5; 6; 7; 8; 9; 0; 1; 2; 3; 4; 5; 6; 7; 8; 9;
              0; 1; 2; 3; 4]%nat).
Proof.
  assert (Hgen : forall (k : nat) (s : Server) (w : World),
      realDataEnabled s = true ->
      realDataSource s <> [] ->
      let res := fst (run (repeat Tick k) s w) in
      let n := N.of_nat (List.length (realDataSource s)) in
      Forall2 (fun o j =>
                 replays (realDataSource s) o
                   (N.to_nat ((realDataIndex s + N.of_nat j) mod n)))
              (fst res) (seq 0 k)
      /\ realDataIndex (snd res) = (realDataIndex s + N.of_nat k)%N).
  { intros k s w Hen Hne.
    destruct (replay_run k s w (realDataIndex s) 0 Hen Hne) as (Hall & Hidx & _).
    - cbn. now rewrite N.add_0_r.
    - split; [exact Hall | exact Hidx]. }
  split; [exact Hgen |].
  intros s w w'. cbv zeta. rewrite post_real_data_load_sample. cbn [snd].
  split; [reflexivity | split; [reflexivity |]].
  set (loaded := mkServer _ _ _ _ _ _).
  destruct (Hgen 25%nat loaded w' eq_refl) as [Hall _]; [discriminate |].
  cbv zeta in Hall.
  cbn [seq] in Hall.
  revert Hall. generalize (fst (fst (run (repeat Tick 25) loaded w'))). intros outs Hall.
  repeat match goal with
         | H : Forall2 _ _ (_ :: _) |- _ => inversion H; subst; clear H
         | H : Forall2 _ _ [] |- _ => inversion H; subst; clear H
         end.
  repeat (constructor; [assumption |]). constructor.
Qed.

Lemma broadcast_cyclic_replay_witness :
  let loaded := snd (fst (post_real_data_load (Some "sample"%string) quietServer quietWorld)) in
  realDataEnabled loaded = true
  /\ realDataSource loaded <> []
  /\ realDataIndex (snd (fst (run (repeat Tick 25) loaded quietWorld))) = 25%N.
Proof.
  cbv zeta.
  assert (Hen : realDataEnabled
                  (snd (fst (post_real_data_load (Some "sample"%string) quietServer quietWorld)))
                = true) by reflexivity.
  assert (Hne : realDataSource
                  (snd (fst (post_real_data_load (Some "sample"%string) quietServer quietWorld)))
                <> []) by discriminate.
  split; [exact Hen | split; [exact Hne |]].
  exact (proj2 (proj1 broadcast_cyclic_replay 25%nat _ quietWorld Hen Hne)).
Defined.

(** ** Loading the real data *)

(** C2, as the code has it.  Loading with the data type "sample" stores the
    sequence of 10 sample records, resets the replay position to 0 and sets
    the mode to REAL, whatever it was; the mode flag is left as it was only
    when REAL mode was already active.  The simulator, the chat service and
    the cached dashboard data are left alone. *)
Theorem load_sample_enables_real_mode (s : Server) (w : World) :
  let out := fst (post_real_data_load (Some "sample"%string) s w) in
  realDataSource (snd out) = loadSampleRealData
  /\ List.length (realDataSource (snd out)) = 10%nat
  /\ realDataIndex (snd out) = 0%N
  /\ realDataEnabled (snd out) = true
  /\ (realDataEnabled (snd out) = realDataEnabled s <-> realDataEnabled s = true)
  /\ simulator (snd out) = simulator s
  /\ geminiService (snd out) = geminiService s
  /\ latestDashboardData (snd out) = latestDashboardData s
  /\ http_status (fst out) = 200%N
  /\ body (fst out) = Loaded "sample" 10.
Proof.
  cbv zeta. rewrite post_real_data_load_sample. cbn.
  repeat split; try reflexivity; intros H; now rewrite H.
Qed.

(** C2, as it is stated, fails: the server starts in SIMULATED mode and a
    load of the sample data leaves it in REAL mode. *)
Lemma load_sample_flips_mode :
  realDataEnabled quietServer = false
  /\ realDataEnabled
       (snd (fst (step (PostRealDataLoad (Some "sample"%string)) quietServer quietWorld)))
     <> realDataEnabled quietServer.
Proof. split; [reflexivity | discriminate]. Qed.

(** ** Pull requests *)

Lemma respond_run (st : N) (ok : bool) (b : Body) (w : World) :
  respond st ok b w
  = (mkResponse st ok b (clock w O),
     mkWorld (randoms w) (tail (clock w)) (uuids w) (fetches w)).
Proof. reflexivity. Qed.

Lemma reply_state (m : M (Response * Server)) (w : World) :
  snd (fst (reply m w)) = snd (fst (m w)).
Proof. unfold reply. rewrite bind_run. destruct (fst (m w)). reflexivity. Qed.

Lemma get_process_parameters_run (s : Server) (w : World) :
  fst (get_process_parameters s w)
  = (mkResponse 200 true
       (ProcessData (fst (fst (generateProcessParameters (simulator s) w))))
       (clock (snd (generateProcessParameters (simulator s) w)) O),
     set_simulator s (snd (fst (generateProcessParameters (simulator s) w)))).
Proof.
  unfold get_process_parameters. rewrite bind_run.
  destruct (fst (generateProcessParameters (simulator s) w)) as [p sim'].
  rewrite bind_run. reflexivity.
Qed.

Lemma simulatedDashboard_retains (sim : CementPlantSimulator) (w : World) :
  lastParameters (snd (fst (simulatedDashboard sim w)))
  = Some (current_parameters (fst (fst (simulatedDashboard sim w)))).
Proof.
  unfold simulatedDashboard. rewrite !bind_run.
  pose proof (generateProcessParameters_retains sim
                (snd (generateSensorReadings sim (snd (generatePlantOverview sim w)))))
    as Hkeep.
  destruct (fst (generateProcessParameters sim
                   (snd (generateSensorReadings sim (snd (generatePlantOverview sim w))))))
    as [p sim'].
  rewrite !bind_run. exact Hkeep.
Qed.

Lemma get_dashboard_data_fresh (s : Server) (w : World) :
  latestDashboardData s = None ->
  fst (get_dashboard_data s w)
  = (mkResponse 200 true
       (Dashboard (fst (fst (simulatedDashboard (simulator s) w))))
       (clock (snd (simulatedDashboard (simulator s) w)) O),
     set_simulator s (snd (fst (simulatedDashboard (simulator s) w)))).
Proof.
  intros Hnone. unfold get_dashboard_data. rewrite Hnone, bind_run.
  destruct (fst (simulatedDashboard (simulator s) w)) as [d sim'].
  rewrite bind_run. reflexivity.
Qed.

(** C4, as the code has it.  A request for [/api/dashboard/data] made while
    dashboard data are cached is answered with the cached data: the server,
    its simulator included, is left as it was and no random number is drawn.
    Made while nothing is cached, the request is answered with data
    synthesized for it, which are not cached and whose process parameters the
    simulator retains.  The requests for [/api/sensors/realtime] and
    [/api/process/parameters] are always answered by synthesis, the second
    one replacing the parameters that the simulator retains. *)
Theorem pull_reads_cache_or_synthesizes (s : Server) (w : World) :
  (forall latest,
      latestDashboardData s = Some latest ->
      let out := get_dashboard_data s w in
      body (fst (fst out)) = Dashboard latest
      /\ snd (fst out) = s
      /\ randoms (snd out) = randoms w
      /\ uuids (snd out) = uuids w)
  /\ (latestDashboardData s = None ->
      let out := fst (get_dashboard_data s w) in
      let fresh := fst (fst (simulatedDashboard (simulator s) w)) in
      body (fst out) = Dashboard fresh
      /\ latestDashboardData (snd out) = None
      /\ lastParameters (simulator (snd out)) = Some (current_parameters fresh))
  /\ (let out := fst (get_sensors_realtime s w) in
      body (fst out) = SensorData (fst (generateSensorReadings (simulator s) w))
      /\ snd out = s)
  /\ (let out := fst (get_process_parameters s w) in
      let fresh := fst (fst (generateProcessParameters (simulator s) w)) in
      body (fst out) = ProcessData fresh
      /\ lastParameters (simulator (snd out)) = Some fresh).
Proof.
  split; [| split; [| split]].
  - intros latest Hsome. unfold get_dashboard_data. rewrite Hsome, bind_run, respond_run.
    cbn. repeat split; reflexivity.
  - intros Hnone. cbv zeta. rewrite (get_dashboard_data_fresh s w Hnone).
    cbn [fst snd body set_simulator latestDashboardData simulator].
    split; [reflexivity | split; [exact Hnone | apply simulatedDashboard_retains]].
  - cbv zeta. unfold get_sensors_realtime. rewrite !bind_run. cbn. split; reflexivity.
  - cbv zeta. rewrite get_process_parameters_run.
    cbn [fst snd body set_simulator simulator].
    split; [reflexivity | apply generateProcessParameters_retains].
Qed.

Lemma pull_reads_cache_or_synthesizes_witness :
  let cached := fst (fst (simulatedDashboard quietSimulator quietWorld)) in
  let s := mkServer quietSimulator createGeminiService (Some cached) false [] 0 in
  latestDashboardData s = Some cached
  /\ snd (fst (get_dashboard_data s quietWorld)) = s.
Proof.
  cbv zeta. split; [reflexivity |].
  exact (proj1 (proj2 (proj1
    (pull_reads_cache_or_synthesizes
       (mkServer quietSimulator createGeminiService
          (Some (fst (fst (simulatedDashboard quietSimulator quietWorld)))) false [] 0)
       quietWorld)
    (fst (fst (simulatedDashboard quietSimulator quietWorld))) eq_refl))).
Defined.

(** C4, as it is stated, fails: a request for [/api/process/parameters], and
    a request for [/api/dashboard/data] made while nothing is cached, run the
    simulator and change the parameters that it retains. *)
Lemma pull_changes_lastParameters :
  latestDashboardData quietServer = None
  /\ lastParameters (simulator (snd (fst (step GetProcessParameters quietServer quietWorld))))
     <> lastParameters (simulator quietServer)
  /\ lastParameters (simulator (snd (fst (step GetDashboardData quietServer quietWorld))))
     <> lastParameters (simulator quietServer).
Proof.
  split; [reflexivity |].
  split; cbn [step]; rewrite reply_state.
  - rewrite get_process_parameters_run. cbn [snd set_simulator simulator].
    rewrite generateProcessParameters_retains. discriminate.
  - rewrite (get_dashboard_data_fresh quietServer quietWorld eq_refl).
    cbn [snd set_simulator simulator].
    rewrite simulatedDashboard_retains. discriminate.
Qed.

(** ** Toggling the mode *)

Create Rewrite HintDb run_handler.
#[local] Hint Rewrite @bind_run respond_run : run_handler.

Ltac run_handler :=
  repeat first
    [ progress autorewrite with run_handler
    | progress unfold ret
    | progress cbn [fst snd switchState realDataEnabled realDataSource realDataIndex
                    set_simulator set_geminiService]
    | match goal with
      | |- context [match ?x with pair _ _ => _ end] => destruct x
      end ].

(** What every event does to the switch. *)
Lemma step_switchState (e : Event) (s : Server) (w : World) :
  switchState (snd (fst (step e s w)))
  = match e with
    | Tick =>
        if realDataEnabled s && (0 <? List.length (realDataSource s))%nat
        then (true, realDataSource s, (realDataIndex s + 1)%N)
        else switchState s
    | PostRealDataLoad dataType =>
        if is_sample dataType then (true, loadSampleRealData, 0%N) else switchState s
    | PostRealDataToggle =>
        (negb (realDataEnabled s), realDataSource s, realDataIndex s)
    | _ => switchState s
    end.
Proof.
  destruct e; try (cbn [step]; rewrite reply_state).
  - rewrite step_Tick_state.
    destruct (realDataEnabled s && (0 <? List.length (realDataSource s))%nat) eqn:Hreal.
    + apply andb_true_iff in Hreal. destruct Hreal as [Hen Hlen].
      assert (Hne : realDataSource s <> [])
        by (intros Hnil; rewrite Hnil in Hlen; discriminate Hlen).
      destruct (currentRealData_defined s Hne) as [r Hcur].
      now rewrite (broadcastData_real s w r Hen Hne Hcur).
    + now rewrite (broadcastData_simulated s w Hreal).
  - unfold get_sensors_realtime. now run_handler.
  - unfold get_plant_status. now run_handler.
  - unfold get_process_parameters. now run_handler.
  - unfold get_quality_current. now run_handler.
  - unfold get_equipment_status. now run_handler.
  - unfold get_environmental_current. now run_handler.
  - unfold get_dashboard_data. destruct (latestDashboardData s); now run_handler.
  - unfold post_simulation_start. now run_handler.
  - unfold post_simulation_stop. now run_handler.
  - unfold post_simulation_anomaly. now run_handler.
  - now rewrite post_ai_chat_body.
  - unfold get_system_prompt. now run_handler.
  - unfold post_system_prompt.
    destruct systemPrompt as [p |]; [| now run_handler].
    destruct (negb (truthy (VString p))); [now run_handler |].
    destruct (List.length (trim p) <? 10)%nat; now run_handler.
  - unfold delete_system_prompt. now run_handler.
  - unfold post_real_data_load. destruct (is_sample dataType); now run_handler.
  - unfold post_real_data_toggle. now run_handler.
  - unfold get_real_data_status. now run_handler.
  - cbn [step]. unfold on_connection. now run_handler.
  - cbn [step]. unfold on_request_sensor_data. now run_handler.
  - cbn [step]. unfold on_request_process_data. rewrite !bind_run.
    destruct (fst (generateProcessParameters (simulator s) w)) as [p sim'].
    now run_handler.
Qed.

Lemma step_keeps_switchState (e : Event) (s : Server) (w : World) :
  realDataEnabled s = false ->
  switches e = false ->
  switchState (snd (fst (step e s w))) = switchState s.
Proof.
  intros Hsim He. rewrite step_switchState.
  destruct e; try reflexivity; try discriminate He.
  now rewrite Hsim.
Qed.

(** While the mode is SIMULATED, no run of events without a load and a
    toggle touches the switch. *)
Lemma run_keeps_switchState (es : list Event) :
  forall (s : Server) (w : World),
    realDataEnabled s = false ->
    forallb (fun e => negb (switches e)) es = true ->
    switchState (snd (fst (run es s w))) = switchState s.
Proof.
  induction es as [| e es IH]; intros s w Hsim Hes; [reflexivity |].
  cbn [forallb] in Hes. apply andb_true_iff in Hes. destruct Hes as [He Hes].
  apply negb_true_iff in He.
  pose proof (step_keeps_switchState e s w Hsim He) as Hstep.
  rewrite run_cons. cbn [fst snd].
  rewrite IH; [exact Hstep | | exact Hes].
  unfold switchState in Hstep. injection Hstep as Hen _ _. now rewrite Hen.
Qed.

Lemma switchState_components (s : Server) (x : bool * list RealRecord * N) :
  switchState s = x ->
  realDataEnabled s = fst (fst x) /\ realDataSource s = snd (fst x)
  /\ realDataIndex s = snd x.
Proof. intros <-. repeat split. Qed.

(** C5. Two toggles in succession restore the mode, and neither changes the
    replay position.  An event changes the position only when it is a
    broadcast in REAL mode with a non-empty sequence, which advances it by
    one, or a load of the sample data, which resets it to 0.  Switching from
    REAL to SIMULATED, running any events but loads and toggles, and
    switching back leaves the position, the mode and the sequence as they
    were. *)
Theorem toggle_twice_keeps_position :
  (forall (s : Server) (w : World),
      let s1 := snd (fst (step PostRealDataToggle s w)) in
      let s2 := snd (fst (step PostRealDataToggle s1 (snd (step PostRealDataToggle s w)))) in
      realDataEnabled s1 = negb (realDataEnabled s)
      /\ realDataEnabled s2 = realDataEnabled s
      /\ realDataIndex s1 = realDataIndex s
      /\ realDataIndex s2 = realDataIndex s
      /\ s2 = s)
  /\ (forall (e : Event) (s : Server) (w : World),
        let s' := snd (fst (step e s w)) in
        realDataIndex s' <> realDataIndex s ->
        (e = Tick /\ realDataEnabled s = true /\ realDataSource s <> []
         /\ realDataIndex s' = (realDataIndex s + 1)%N)
        \/ (exists dataType, e = PostRealDataLoad dataType /\ is_sample dataType = true
            /\ realDataIndex s' = 0%N))
  /\ (forall (es : list Event) (s : Server) (w : World),
        realDataEnabled s = true ->
        forallb (fun e => negb (switches e)) es = true ->
        let s' := snd (fst (run ([PostRealDataToggle] ++ es ++ [PostRealDataToggle]) s w)) in
        switchState s' = switchState s).
Proof.
  split; [| split].
  - intros s w. cbv zeta. cbn [step]. rewrite !reply_state.
    unfold post_real_data_toggle. rewrite !bind_run, !respond_run. unfold ret.
    cbn [fst snd realDataEnabled realDataIndex realDataSource simulator geminiService
         latestDashboardData].
    rewrite negb_involutive. destruct s. repeat split; reflexivity.
  - intros e s w. cbv zeta. intros Hmoved.
    pose proof (f_equal snd (step_switchState e s w)) as Hidx.
    unfold switchState at 1 in Hidx. cbn [snd] in Hidx.
    destruct e; cbn [snd switchState] in Hidx; try (now elim Hmoved).
    + destruct (realDataEnabled s && (0 <? List.length (realDataSource s))%nat) eqn:Hreal;
        cbn [snd switchState] in Hidx; [| now elim Hmoved].
      left. apply andb_true_iff in Hreal. destruct Hreal as [Hen Hlen].
      repeat split; [exact Hen | | exact Hidx].
      intros Hnil. rewrite Hnil in Hlen. discriminate Hlen.
    + destruct (is_sample dataType) eqn:Hsample;
        cbn [snd switchState] in Hidx; [| now elim Hmoved].
      right. exists dataType. repeat split; assumption.
  - intros es s w Hen Hes. cbv zeta.
    cbn [app]. rewrite run_cons. cbn [fst snd].
    set (s1 := snd (fst (step PostRealDataToggle s w))).
    set (w1 := snd (step PostRealDataToggle s w)).
    destruct (switchState_components s1 (negb (realDataEnabled s), realDataSource s,
                                         realDataIndex s))
      as (Hen1 & Hsrc1 & Hidx1); [apply (step_switchState PostRealDataToggle) |].
    cbn [fst snd] in Hen1, Hsrc1, Hidx1. rewrite Hen in Hen1. cbn [negb] in Hen1.
    destruct (run_app es [PostRealDataToggle] s1 w1) as [-> _].
    set (s2 := snd (fst (run es s1 w1))).
    destruct (switchState_components s2 (switchState s1))
      as (Hen2 & Hsrc2 & Hidx2); [apply (run_keeps_switchState es s1 w1 Hen1 Hes) |].
    cbn [fst snd switchState] in Hen2, Hsrc2, Hidx2.
    rewrite run_cons. cbn [fst snd run ret].
    rewrite step_switchState. unfold switchState.
    now rewrite Hen2, Hsrc2, Hidx2, Hen1, Hsrc1, Hidx1, Hen.
Qed.

Lemma toggle_twice_keeps_position_witness :
  let loaded := snd (fst (post_real_data_load (Some "sample"%string) quietServer quietWorld)) in
  realDataEnabled loaded = true
  /\ switchState
       (snd (fst (run ([PostRealDataToggle] ++ [Tick; GetDashboardData; Tick]
                       ++ [PostRealDataToggle]) loaded quietWorld)))
     = switchState loaded.
Proof.
  cbv zeta.
  assert (Hen : realDataEnabled
                  (snd (fst (post_real_data_load (Some "sample"%string) quietServer quietWorld)))
                = true) by reflexivity.
  split; [exact Hen |].
  exact (proj2 (proj2 toggle_twice_keeps_position) [Tick; GetDashboardData; Tick]
           _ quietWorld Hen eq_refl).
Defined.

(* ================================================================== *)
(** * Part III: further properties of the code *)

(** ** The simulator: sensor readings *)

Lemma generateSensorReadings_sensor_ids (self : CementPlantSimulator) (w : World) :
  map sensor_id (fst (generateSensorReadings self w))
  = [ "KILN_TEMP_01"; "KILN_PRESSURE_01"; "RAW_MILL_POWER_01"; "CEMENT_MILL_POWER_01";
      "PRODUCTION_FLOW_01"; "EXHAUST_TEMP_01"; "DUST_LEVEL_01"; "FINENESS_01" ]%string
  /\ Forall (fun r => sr_timestamp r = clock w O) (fst (generateSensorReadings self w)).
Proof.
  unfold generateSensorReadings. rewrite !bind_run. unfold ret. cbn [fst map].
  split; [reflexivity | repeat constructor].
Qed.

(** X1. [generateSensorReadings] returns 8 readings with the sensor ids
    KILN_TEMP_01, KILN_PRESSURE_01, RAW_MILL_POWER_01, CEMENT_MILL_POWER_01,
    PRODUCTION_FLOW_01, EXHAUST_TEMP_01, DUST_LEVEL_01, FINENESS_01 in this
    order, all stamped with the one reading of the clock taken first. *)
Theorem generateSensorReadings_fixed_sensors (self : CementPlantSimulator) (w : World) :
  let readings := fst (generateSensorReadings self w) in
  map sensor_id readings
  = [ "KILN_TEMP_01"; "KILN_PRESSURE_01"; "RAW_MILL_POWER_01"; "CEMENT_MILL_POWER_01";
      "PRODUCTION_FLOW_01"; "EXHAUST_TEMP_01"; "DUST_LEVEL_01"; "FINENESS_01" ]%string
  /\ Forall (fun r => sr_timestamp r = clock w O) readings.
Proof. exact (generateSensorReadings_sensor_ids self w). Qed.

(** X2. The values of the 8 readings lie in their ranges: the three cyclical
    signals within base plus or minus amplitude, the production flow between
    75% and 95% of the plant capacity, the random ones within the interval
    they are drawn from. *)
Theorem generateSensorReadings_ranges (self : CementPlantSimulator) (w : World) :
  0 <= plant_capacity (config self) ->
  Forall2 (fun r range => fst range <= sr_value r <= snd range)
    (fst (generateSensorReadings self w))
    [ (1400, 1500); (-15, -5); (2600, 3000); (2900, 3500);
      (0.75 * plant_capacity (config self), 0.95 * plant_capacity (config self));
      (320, 380); (15, 25); (340, 380) ].
Proof.
  intros Hcap. unfold generateSensorReadings. rewrite !bind_run. unfold ret. cbn [fst].
  repeat apply Forall2_cons; try apply Forall2_nil; cbn [fst snd sr_value].
  - pose proof (generateCyclicalValue_range self 1450 50 4 0 (snd (Date_now w)) ltac:(lra)).
    lra.
  - apply getRandomInRange_clamped; lra.
  - match goal with
    | |- _ <= fst (generateCyclicalValue self 2800 200 6 ?ph ?w') <= _ =>
        pose proof (generateCyclicalValue_range self 2800 200 6 ph w' ltac:(lra))
    end. lra.
  - match goal with
    | |- _ <= fst (generateCyclicalValue self 3200 300 8 ?ph ?w') <= _ =>
        pose proof (generateCyclicalValue_range self 3200 300 8 ph w' ltac:(lra))
    end. lra.
  - match goal with
    | |- _ <= fst (generateCyclicalValue self ?b ?a 12 0 ?w') <= _ =>
        pose proof (generateCyclicalValue_range self b a 12 0 w' ltac:(nra))
    end. lra.
  - apply getRandomInRange_clamped; lra.
  - apply getRandomInRange_clamped; lra.
  - apply getRandomInRange_clamped; lra.
Qed.

Lemma generateSensorReadings_ranges_witness :
  0 <= plant_capacity (config quietSimulator)
  /\ List.length (fst (generateSensorReadings quietSimulator quietWorld)) = 8%nat.
Proof.
  assert (H : 0 <= plant_capacity (config quietSimulator)) by (cbn; lra).
  split; [exact H |].
  exact (Forall2_length (generateSensorReadings_ranges quietSimulator quietWorld H)).
Defined.

(** ** The simulator: process parameters and the snapshot *)

Lemma mapM_length {A B : Type} (f : A -> M B) (xs : list A) :
  forall w, List.length (fst (mapM f xs w)) = List.length xs.
Proof.
  induction xs as [| x xs IH]; intros w; [reflexivity |].
  rewrite mapM_cons. cbn [List.length]. now rewrite IH.
Qed.

Lemma generateEquipmentStatus_length (self : CementPlantSimulator) (w : World) :
  List.length (fst (generateEquipmentStatus self w)) = 8%nat.
Proof. unfold generateEquipmentStatus. now rewrite mapM_length. Qed.

(** X3. In every record made by [generateProcessParameters] the raw meal flow
    is 1.55 times the production rate, the production rate lies between 60%
    and 100% of a positive plant capacity, the energy consumption between 85
    and 175, and the six independent fields within the interval they are
    drawn from; the time stamp is the first reading of the clock. *)
Theorem generateProcessParameters_derived_fields (self : CementPlantSimulator) (w : World) :
  0 < plant_capacity (config self) ->
  let p := fst (fst (generateProcessParameters self w)) in
  raw_meal_flow p = 1.55 * production_rate p
  /\ 0.6 * plant_capacity (config self) <= production_rate p <= plant_capacity (config self)
  /\ 85 <= energy_consumption p <= 175
  /\ -15 <= kiln_pressure p <= -5
  /\ 15 <= alternative_fuel_rate p <= 35
  /\ 340 <= cement_fineness p <= 380
  /\ 1100 <= clinker_temperature p <= 1200
  /\ 480 <= exhaust_fan_speed p <= 520
  /\ 320 <= preheater_temperature p <= 380
  /\ pp_timestamp p = clock w O.
Proof.
  intros Hcap. cbv zeta. unfold generateProcessParameters. rewrite !bind_run. unfold ret.
  cbn [fst snd raw_meal_flow production_rate energy_consumption kiln_pressure
       alternative_fuel_rate cement_fineness clinker_temperature exhaust_fan_speed
       preheater_temperature pp_timestamp].
  set (g := fst (getRandomInRange (-0.05) 0.05 0.5 (snd (Date_now w)))).
  assert (Hg : -0.05 <= g <= 0.05) by (apply getRandomInRange_clamped; lra).
  pose proof (SIN_bound (2 * PI * ((fst (Date_now w) - baseTime self) / (1000 * 60 * 60)) / 24))
    as Hs.
  set (sn := sin _) in *.
  set (e := 0.8 + 0.15 * sn + g).
  assert (He : 0.6 <= e <= 1) by (unfold e; lra).
  match goal with
  | |- context [fst (getRandomInRange 85 105 default_noise ?w')] =>
      pose proof (getRandomInRange_clamped 85 105 default_noise w' ltac:(lra)) as Hen;
      set (en := fst (getRandomInRange 85 105 default_noise w')) in *
  end.
  split; [ring |].
  split; [nra |].
  split.
  { split.
    - apply Rle_trans with (en / 1); [lra |].
      unfold Rdiv. apply Rmult_le_compat_l; [lra |].
      apply Rinv_le_contravar; lra.
    - apply Rle_trans with (en / 0.6); [| lra].
      unfold Rdiv. apply Rmult_le_compat_l; [lra |].
      apply Rinv_le_contravar; lra. }
  repeat (split; [apply getRandomInRange_clamped; lra |]).
  reflexivity.
Qed.

Lemma generateProcessParameters_derived_fields_witness :
  0 < plant_capacity (config quietSimulator)
  /\ raw_meal_flow (fst (fst (generateProcessParameters quietSimulator quietWorld)))
     = 1.55 * production_rate (fst (fst (generateProcessParameters quietSimulator quietWorld))).
Proof.
  assert (H : 0 < plant_capacity (config quietSimulator)) by (cbn; lra).
  split; [exact H |].
  exact (proj1 (generateProcessParameters_derived_fields quietSimulator quietWorld H)).
Defined.

Lemma generateProcessParameters_frame (self : CementPlantSimulator) (w : World) :
  let self' := snd (fst (generateProcessParameters self w)) in
  config self' = config self /\ baseTime self' = baseTime self
  /\ simulationRunning self' = simulationRunning self.
Proof.
  cbv zeta. unfold generateProcessParameters. rewrite !bind_run. repeat split.
Qed.

Lemma production_rate_positive (self : CementPlantSimulator) (w : World) :
  0 < plant_capacity (config self) ->
  0 < production_rate (fst (fst (generateProcessParameters self w))).
Proof.
  intros Hcap.
  destruct (generateProcessParameters_shape self w)
    as (e & k & r & c & g & He & _ & _ & _ & _ & Hp).
  cbv zeta in Hp. destruct Hp as (_ & _ & _ & -> & _). nra.
Qed.

Lemma lastProductionRateOr_retained (self : CementPlantSimulator) (p : ProcessParameters)
    (fallback : R) :
  lastParameters self = Some p -> production_rate p <> 0 ->
  lastProductionRateOr self fallback = production_rate p.
Proof.
  intros Hlast Hrate. unfold lastProductionRateOr. rewrite Hlast.
  destruct (Req_dec_T (production_rate p) 0); [contradiction | reflexivity].
Qed.

Lemma generatePlantOverview_rate (self : CementPlantSimulator) (w : World) :
  production_rate_current (fst (generatePlantOverview self w))
  = lastProductionRateOr self (plant_capacity (config self) * 0.85)
  /\ production_rate_target (fst (generatePlantOverview self w))
     = plant_capacity (config self).
Proof. unfold generatePlantOverview. rewrite !bind_run. split; reflexivity. Qed.

Lemma generateEnvironmentalData_waste_heat (self : CementPlantSimulator) (w : World) :
  let rate := lastProductionRateOr self (plant_capacity (config self) * 0.8) in
  0 <= rate ->
  20 * rate <= waste_heat_recovery (fst (generateEnvironmentalData self w)) <= 35 * rate.
Proof.
  cbv zeta. intros Hrate. unfold generateEnvironmentalData. rewrite !bind_run. unfold ret.
  cbn [fst waste_heat_recovery].
  match goal with
  | |- context [fst (getRandomInRange 20 35 default_noise ?w')] =>
      pose proof (getRandomInRange_clamped 20 35 default_noise w' ltac:(lra))
  end.
  nra.
Qed.

(** The parts of the data that [simulatedDashboard] puts together. *)
Lemma simulatedDashboard_parts (sim : CementPlantSimulator) (w : World) :
  exists w1 w2 w3,
    let d := fst (fst (simulatedDashboard sim w)) in
    let sim' := snd (fst (simulatedDashboard sim w)) in
    plant_overview d = fst (generatePlantOverview sim w)
    /\ recent_sensors d = fst (generateSensorReadings sim (snd (generatePlantOverview sim w)))
    /\ (current_parameters d, sim') = fst (generateProcessParameters sim w1)
    /\ List.length (recent_quality d) = 1%nat
    /\ equipment_status d = fst (generateEquipmentStatus sim' w2)
    /\ environmental_data d = fst (generateEnvironmentalData sim' w3)
    /\ active_alerts d = [] /\ ai_recommendations d = [].
Proof.
  unfold simulatedDashboard. rewrite !bind_run.
  set (w1 := snd (generateSensorReadings sim (snd (generatePlantOverview sim w)))).
  exists w1.
  destruct (generateProcessParameters sim w1) as [[p sim'] w1'] eqn:Hp.
  cbn [fst snd]. rewrite !bind_run. unfold ret. cbn [fst snd].
  eexists _, _. cbn.
  repeat split; reflexivity.
Qed.

(** X4. The figures of one simulated snapshot hang together as follows, for
    a positive plant capacity: the waste heat recovery of the environmental
    data is 20 to 35 times the production rate of the same snapshot's process
    parameters, which the simulator retains; the production rate shown in the
    plant overview is the one retained before the snapshot was made (85% of
    the capacity when there is none).  The snapshot has 8 sensor readings, 1
    quality sample, 8 equipment records and no alerts or recommendations. *)
Theorem simulatedDashboard_consistency (sim : CementPlantSimulator) (w : World) :
  0 < plant_capacity (config sim) ->
  let d := fst (fst (simulatedDashboard sim w)) in
  let rate := production_rate (current_parameters d) in
  20 * rate <= waste_heat_recovery (environmental_data d) <= 35 * rate
  /\ production_rate_current (plant_overview d)
     = lastProductionRateOr sim (plant_capacity (config sim) * 0.85)
  /\ production_rate_target (plant_overview d) = plant_capacity (config sim)
  /\ List.length (recent_sensors d) = 8%nat
  /\ List.length (recent_quality d) = 1%nat
  /\ List.length (equipment_status d) = 8%nat
  /\ active_alerts d = [] /\ ai_recommendations d = [].
Proof.
  intros Hcap. cbv zeta.
  destruct (simulatedDashboard_parts sim w) as (w1 & w2 & w3 & Hparts).
  cbv zeta in Hparts.
  destruct Hparts as (Hov & Hsens & Hpar & Hq & Heq & Henv & Hal & Hrec).
  set (d := fst (fst (simulatedDashboard sim w))) in *.
  set (sim' := snd (fst (simulatedDashboard sim w))) in *.
  assert (Hp : current_parameters d = fst (fst (generateProcessParameters sim w1)))
    by now rewrite <- Hpar.
  assert (Hsim : sim' = snd (fst (generateProcessParameters sim w1)))
    by now rewrite <- Hpar.
  pose proof (production_rate_positive sim w1 Hcap) as Hpos. rewrite <- Hp in Hpos.
  pose proof (generateProcessParameters_retains sim w1) as Hkeep.
  rewrite <- Hsim, <- Hp in Hkeep.
  destruct (generateProcessParameters_frame sim w1) as (Hcfg & _). cbv zeta in Hcfg.
  rewrite <- Hsim in Hcfg.
  split.
  { rewrite Henv.
    pose proof (generateEnvironmentalData_waste_heat sim' w3) as Hwhr. cbv zeta in Hwhr.
    rewrite (lastProductionRateOr_retained sim' _ _ Hkeep) in Hwhr by lra.
    apply Hwhr. lra. }
  rewrite Hov. destruct (generatePlantOverview_rate sim w) as [-> ->].
  split; [reflexivity | split; [reflexivity |]].
  split.
  { rewrite Hsens.
    destruct (generateSensorReadings_sensor_ids sim (snd (generatePlantOverview sim w)))
      as [Hids _].
    rewrite <- (length_map sensor_id), Hids. reflexivity. }
  split; [exact Hq |].
  split; [| split; assumption].
  rewrite Heq. apply generateEquipmentStatus_length.
Qed.

Lemma simulatedDashboard_consistency_witness :
  0 < plant_capacity (config quietSimulator)
  /\ production_rate_current
       (plant_overview (fst (fst (simulatedDashboard quietSimulator quietWorld))))
     = lastProductionRateOr quietSimulator (plant_capacity (config quietSimulator) * 0.85).
Proof.
  assert (H : 0 < plant_capacity (config quietSimulator)) by (cbn; lra).
  split; [exact H |].
  exact (proj1 (proj2 (simulatedDashboard_consistency quietSimulator quietWorld H))).
Defined.

(** ** The simulator: quality metrics and environmental data *)

Lemma Math_floor_range (x : R) (n : Z) :
  0 <= x < IZR n -> (0 <= Math_floor x < n)%Z.
Proof.
  intros [Hlo Hhi]. unfold Math_floor.
  destruct (base_Int_part x) as [Hle Hgt].
  split.
  - apply Z.lt_succ_r, lt_IZR. rewrite succ_IZR. lra.
  - apply lt_IZR. lra.
Qed.

Lemma Math_floor_le (x : R) (n : Z) :
  0 <= x <= IZR n -> (0 <= Math_floor x <= n)%Z.
Proof.
  intros [Hlo Hhi]. unfold Math_floor.
  destruct (base_Int_part x) as [Hle Hgt].
  split.
  - apply Z.lt_succ_r, lt_IZR. rewrite succ_IZR. lra.
  - apply le_IZR. lra.
Qed.

(** X5. Every sample made by [generateQualityMetrics] has its fields within
    the intervals they are drawn from; so the 3-day strength is below the
    28-day strength and the initial setting time below the final one.  The
    defect count is a whole number from 0 to 5, and with a first draw in
    [0, 1) the quality score lies in [75, 95). *)
Theorem generateQualityMetrics_ranges (self : CementPlantSimulator) (w : World) :
  let q := fst (generateQualityMetrics self w) in
  340 <= blaine_fineness q <= 380
  /\ 18 <= compressive_strength_3d q <= 25
  /\ 42 <= compressive_strength_28d q <= 52
  /\ compressive_strength_3d q < compressive_strength_28d q
  /\ 45 <= setting_time_initial q <= 90
  /\ 180 <= setting_time_final q <= 300
  /\ setting_time_initial q < setting_time_final q
  /\ 95 <= consistency q <= 99.5
  /\ (exists n : Z, defect_count q = IZR n /\ (0 <= n <= 5)%Z)
  /\ (50 <= c3s (chemical_composition q) <= 65
      /\ 15 <= c2s (chemical_composition q) <= 25
      /\ 8 <= c3a (chemical_composition q) <= 12
      /\ 8 <= c4af (chemical_composition q) <= 12
      /\ 2.5 <= so3 (chemical_composition q) <= 3.5
      /\ 0.5 <= free_lime (chemical_composition q) <= 1.5)
  /\ (0 <= randoms w O < 1 -> 75 <= quality_score q < 95).
Proof.
  cbv zeta. unfold generateQualityMetrics. rewrite !bind_run. unfold ret.
  cbn [fst blaine_fineness compressive_strength_3d compressive_strength_28d
       setting_time_initial setting_time_final consistency defect_count
       chemical_composition c3s c2s c3a c4af so3 free_lime quality_score].
  repeat match goal with
         | |- context [fst (getRandomInRange ?a ?b default_noise ?w')] =>
             let H := fresh "Hr" in
             let v := fresh "v" in
             assert (H : a <= fst (getRandomInRange a b default_noise w') <= b)
               by (apply getRandomInRange_clamped; lra);
             set (v := fst (getRandomInRange a b default_noise w')) in *;
             clearbody v
         end.
  repeat (split; [lra |]).
  split.
  { eexists. split; [reflexivity |]. apply Math_floor_le. cbn. lra. }
  split; [repeat split; lra |].
  cbn [Math_random Date_now fst snd randoms]. intros Hu. lra.
Qed.

Lemma generateQualityMetrics_ranges_witness :
  0 <= randoms quietWorld O < 1
  /\ 75 <= quality_score (fst (generateQualityMetrics quietSimulator quietWorld)) < 95.
Proof.
  assert (H : 0 <= randoms quietWorld O < 1) by (cbn; lra).
  split; [exact H |].
  exact (proj2 (proj2 (proj2 (proj2 (proj2 (proj2 (proj2 (proj2 (proj2 (proj2
    (generateQualityMetrics_ranges quietSimulator quietWorld)))))))))) H).
Defined.

(** X6. Every record made by [generateEnvironmentalData] has its emissions
    and consumptions within the intervals they are drawn from.  Its waste
    heat recovery is 20 to 35 times the production rate of the parameters
    that the simulator retains, and 20 to 35 times 80% of the plant capacity
    when it retains none. *)
Theorem generateEnvironmentalData_ranges (self : CementPlantSimulator) (w : World) :
  let env := fst (generateEnvironmentalData self w) in
  820 <= co2_emissions env <= 950
  /\ 400 <= nox_emissions env <= 800
  /\ 50 <= so2_emissions env <= 200
  /\ 15 <= dust_emissions env <= 30
  /\ 85 <= energy_consumption_specific env <= 105
  /\ 15 <= alternative_fuel_substitution env <= 35
  /\ 200 <= water_consumption env <= 350
  /\ env_timestamp env = clock w O
  /\ (forall p, lastParameters self = Some p -> 0 < production_rate p ->
        20 * production_rate p <= waste_heat_recovery env <= 35 * production_rate p)
  /\ (lastParameters self = None -> 0 <= plant_capacity (config self) ->
        16 * plant_capacity (config self) <= waste_heat_recovery env
        <= 28 * plant_capacity (config self)).
Proof.
  cbv zeta.
  pose proof (generateEnvironmentalData_waste_heat self w) as Hwhr. cbv zeta in Hwhr.
  revert Hwhr.
  unfold generateEnvironmentalData. rewrite !bind_run. unfold ret.
  cbn [fst co2_emissions nox_emissions so2_emissions dust_emissions
       energy_consumption_specific alternative_fuel_substitution water_consumption
       env_timestamp waste_heat_recovery].
  intros Hwhr.
  repeat (split; [apply getRandomInRange_clamped; lra |]).
  split; [reflexivity |].
  split.
  - intros p Hlast Hpos.
    rewrite (lastProductionRateOr_retained self p _ Hlast) in * by lra.
    apply Hwhr. lra.
  - intros Hnone Hcap. unfold lastProductionRateOr in *. rewrite Hnone in *.
    assert (H0 : 0 <= plant_capacity (config self) * 0.8) by nra.
    specialize (Hwhr H0). lra.
Qed.

Lemma generateEnvironmentalData_ranges_witness :
  lastParameters quietSimulator = None
  /\ 0 <= plant_capacity (config quietSimulator)
  /\ 16 * plant_capacity (config quietSimulator)
     <= waste_heat_recovery (fst (generateEnvironmentalData quietSimulator quietWorld))
     <= 28 * plant_capacity (config quietSimulator).
Proof.
  assert (H : 0 <= plant_capacity (config quietSimulator)) by (cbn; lra).
  split; [reflexivity | split; [exact H |]].
  exact (proj2 (proj2 (proj2 (proj2 (proj2 (proj2 (proj2 (proj2 (proj2
    (generateEnvironmentalData_ranges quietSimulator quietWorld))))))))) eq_refl H).
Defined.

(** ** The simulator: alerts, equipment and the plant overview *)

Create HintDb keeps_draws.

Lemma keeps_draws_ret {A : Type} (a : A) : keeps_draws (ret a).
Proof. intros w H. exact H. Qed.

Lemma keeps_draws_bind {A B : Type} (m : M A) (k : A -> M B) :
  keeps_draws m -> (forall a, keeps_draws (k a)) -> keeps_draws (bind m k).
Proof. intros Hm Hk w H. rewrite bind_run. cbn [snd]. apply Hk, Hm, H. Qed.

Lemma keeps_draws_Math_random : keeps_draws Math_random.
Proof. intros w H n. apply (H (S n)). Qed.

Lemma keeps_draws_Date_now : keeps_draws Date_now.
Proof. intros w H. exact H. Qed.

Lemma keeps_draws_uuidv4 : keeps_draws uuidv4.
Proof. intros w H. exact H. Qed.

Lemma keeps_draws_if {A : Type} (b : bool) (m1 m2 : M A) :
  keeps_draws m1 -> keeps_draws m2 -> keeps_draws (if b then m1 else m2).
Proof. destruct b; auto. Qed.

#[local] Hint Resolve keeps_draws_ret keeps_draws_Math_random keeps_draws_Date_now
  keeps_draws_uuidv4 : keeps_draws.
#[local] Hint Extern 2 (keeps_draws (bind _ _)) =>
  apply keeps_draws_bind; [| intro] : keeps_draws.
#[local] Hint Extern 2 (keeps_draws (if _ then _ else _)) =>
  apply keeps_draws_if : keeps_draws.

Lemma keeps_draws_run {A : Type} (m : M A) (w : World) :
  keeps_draws m -> draws_in_unit w -> draws_in_unit (snd (m w)).
Proof. intros Hm. apply Hm. Qed.

Lemma keeps_draws_getRandomInRange (min max noise : R) :
  keeps_draws (getRandomInRange min max noise).
Proof. unfold getRandomInRange. auto 10 with keeps_draws. Qed.
#[local] Hint Resolve keeps_draws_getRandomInRange : keeps_draws.

Lemma keeps_draws_generateAlertsForEquipment (self : CementPlantSimulator) (id : string) :
  keeps_draws (generateAlertsForEquipment self id).
Proof. unfold generateAlertsForEquipment. auto 30 with keeps_draws. Qed.
#[local] Hint Resolve keeps_draws_generateAlertsForEquipment : keeps_draws.

Lemma keeps_draws_equipmentRecord (self : CementPlantSimulator) (eq : string * string) :
  keeps_draws (equipmentRecord self eq).
Proof. unfold equipmentRecord. auto 40 with keeps_draws. Qed.

Lemma array_get_four {A : Type} (a b c d : A) (x : R) :
  0 <= x < 1 ->
  In (array_get [a; b; c; d] (Math_floor (x * 4))) [Some a; Some b; Some c; Some d].
Proof.
  intros Hx.
  destruct (Math_floor_range (x * 4) 4 ltac:(lra)) as [Hlo Hhi].
  assert (Hcases : Math_floor (x * 4) = 0%Z \/ Math_floor (x * 4) = 1%Z
                   \/ Math_floor (x * 4) = 2%Z \/ Math_floor (x * 4) = 3%Z) by lia.
  destruct Hcases as [-> | [-> | [-> | ->]]]; cbn; auto.
Qed.

Lemma generateAlertsForEquipment_alerts (self : CementPlantSimulator)
    (equipmentId : string) (w : World) :
  let alerts := fst (generateAlertsForEquipment self equipmentId w) in
  (List.length alerts <= 1)%nat
  /\ (alerts <> [] <-> randoms w O < 0.3)
  /\ Forall (fun a =>
               message a = (equipmentId ++ ": Parameter deviation detected")%string
               /\ alert_equipment_id a = Some equipmentId
               /\ severity a <> critical)
            alerts
  /\ (draws_in_unit w ->
      Forall (fun a => In (alert_type a)
                         [Some at_temperature; Some at_vibration; Some at_power;
                          Some at_efficiency])
             alerts).
Proof.
  cbv zeta. unfold generateAlertsForEquipment. rewrite bind_run.
  cbn [Math_random fst snd]. unfold ltb.
  destruct (Rlt_dec (randoms w O) 0.3) as [Hlt | Hge]; cbv beta iota.
  - rewrite !bind_run. unfold ret at 1. cbn [fst List.length].
    split; [lia |]. split; [split; [intros _; exact Hlt | discriminate] |].
    split.
    + constructor; [| constructor]. cbn [message alert_equipment_id severity].
      repeat split.
      destruct (gtb _ 0.7); cbn [fst ret]; [discriminate |].
      rewrite bind_run. unfold ret. cbn [fst].
      destruct (gtb _ 0.4); discriminate.
    + intros Hdraws. constructor; [| constructor]. cbn [alert_type].
      apply array_get_four.
      match goal with
      | |- 0 <= fst (Math_random ?w') < 1 =>
          assert (Hw' : draws_in_unit w'); [| exact (Hw' O)]
      end.
      repeat (apply keeps_draws_run; [solve [auto 10 with keeps_draws] |]).
      exact (fun n => Hdraws (S n)).
  - unfold ret. cbn [fst List.length].
    split; [lia |]. split; [split; [congruence | intros H; contradiction] |].
    split; [constructor | intros _; constructor].
Qed.

(** X7. [generateAlertsForEquipment] returns no alert or one alert, the
    latter exactly when the first draw is below 0.3.  The alert carries the
    message "<id>: Parameter deviation detected" and the id of the equipment,
    and its severity is high, medium or low, never critical; with draws in
    [0, 1) its type is temperature, vibration, power or efficiency. *)
Theorem generateAlertsForEquipment_shape (self : CementPlantSimulator)
    (equipmentId : string) (w : World) :
  let alerts := fst (generateAlertsForEquipment self equipmentId w) in
  (List.length alerts <= 1)%nat
  /\ (alerts <> [] <-> randoms w O < 0.3)
  /\ Forall (fun a =>
               message a = (equipmentId ++ ": Parameter deviation detected")%string
               /\ alert_equipment_id a = Some equipmentId
               /\ severity a <> critical)
            alerts
  /\ (draws_in_unit w ->
      Forall (fun a => In (alert_type a)
                         [Some at_temperature; Some at_vibration; Some at_power;
                          Some at_efficiency])
             alerts).
Proof. exact (generateAlertsForEquipment_alerts self equipmentId w). Qed.

Lemma generateAlertsForEquipment_shape_witness :
  draws_in_unit quietWorld
  /\ Forall (fun a => In (alert_type a)
                        [Some at_temperature; Some at_vibration; Some at_power;
                         Some at_efficiency])
            (fst (generateAlertsForEquipment quietSimulator "KILN_01" quietWorld)).
Proof.
  assert (H : draws_in_unit quietWorld) by (intros n; cbn; lra).
  split; [exact H |].
  exact (proj2 (proj2 (proj2
    (generateAlertsForEquipment_shape quietSimulator "KILN_01" quietWorld))) H).
Defined.

Lemma fst_ret {A : Type} (a : A) (w : World) : fst (ret a w) = a.
Proof. reflexivity. Qed.

Lemma snd_ret {A : Type} (a : A) (w : World) : snd (ret a w) = w.
Proof. reflexivity. Qed.

Lemma equipmentRecord_fields (self : CementPlantSimulator) (eq : string * string)
    (w : World) :
  let u := fst (equipmentRecord self eq w) in
  (equipment_id u, equipment_name u) = eq
  /\ 85 <= efficiency u <= 98
  /\ 45 <= temperature u <= 85
  /\ 0.5 <= vibration_level u <= 8
  /\ 800 <= power_consumption u <= 3500
  /\ 1000 <= runtime_hours u <= 8760
  /\ (List.length (alerts u) <= 1)%nat
  /\ Forall (fun text => text = (equipment_id u ++ ": Parameter deviation detected")%string)
            (alerts u)
  /\ (draws_in_unit w -> exists n, location u = PlantSection n /\ (1 <= n <= 3)%Z).
Proof.
  cbv zeta. unfold equipmentRecord. rewrite !bind_run, !fst_ret.
  cbn [equipment_id equipment_name efficiency temperature vibration_level
       power_consumption runtime_hours alerts location].
  split; [now destruct eq |].
  repeat (split;
          [match goal with
           | |- _ <= fst (getRandomInRange ?a ?b ?n ?w') <= _ =>
               pose proof (getRandomInRange_clamped a b n w' ltac:(lra)); lra
           end |]).
  match goal with
  | |- context [generateAlertsForEquipment self (fst eq) ?w'] =>
      destruct (generateAlertsForEquipment_alerts self (fst eq) w')
        as (Hlen & _ & Hmsg & _);
      cbv zeta in Hlen, Hmsg;
      set (al := fst (generateAlertsForEquipment self (fst eq) w')) in *
  end.
  split; [now rewrite length_map |].
  split.
  { apply Forall_map. eapply Forall_impl; [| exact Hmsg].
    intros a (Ha & _). exact Ha. }
  intros Hdraws. eexists. split; [reflexivity |].
  match goal with
  | |- (1 <= Math_floor (fst (Math_random ?w') * 3) + 1 <= 3)%Z =>
      assert (Hw' : draws_in_unit w')
  end.
  { repeat (apply keeps_draws_run; [solve [auto 10 with keeps_draws] |]). exact Hdraws. }
  match goal with
  | |- (1 <= Math_floor (?u * 3) + 1 <= 3)%Z =>
      assert (Hu : 0 <= u < 1) by exact (Hw' O);
      destruct (Math_floor_range (u * 3) 3 ltac:(lra)) as [Hlo Hhi]
  end.
  lia.
Qed.

Lemma mapM_Forall {A B : Type} (f : A -> M B) (P : B -> Prop) (I : World -> Prop) :
  (forall x w, I w -> P (fst (f x w))) ->
  (forall x w, I w -> I (snd (f x w))) ->
  forall xs w, I w -> Forall P (fst (mapM f xs w)).
Proof.
  intros HP HI. induction xs as [| x xs IH]; intros w Hw.
  - constructor.
  - rewrite mapM_cons. constructor; [apply HP, Hw | apply IH, HI, Hw].
Qed.

Lemma mapM_map {A B C : Type} (f : A -> M B) (h : B -> C) (g : A -> C) :
  (forall x w, h (fst (f x w)) = g x) ->
  forall xs w, map h (fst (mapM f xs w)) = map g xs.
Proof.
  intros Hh. induction xs as [| x xs IH]; intros w; [reflexivity |].
  rewrite mapM_cons. cbn [map]. now rewrite Hh, IH.
Qed.

Lemma generateEquipmentStatus_units (self : CementPlantSimulator) (w : World) :
  let units := fst (generateEquipmentStatus self w) in
  map (fun u => (equipment_id u, equipment_name u)) units = equipment
  /\ Forall (fun u =>
               85 <= efficiency u <= 98
               /\ 45 <= temperature u <= 85
               /\ 0.5 <= vibration_level u <= 8
               /\ 800 <= power_consumption u <= 3500
               /\ 1000 <= runtime_hours u <= 8760
               /\ (List.length (alerts u) <= 1)%nat
               /\ Forall (fun text =>
                            text = (equipment_id u ++ ": Parameter deviation detected")%string)
                         (alerts u))
            units
  /\ (draws_in_unit w ->
      Forall (fun u => exists n, location u = PlantSection n /\ (1 <= n <= 3)%Z) units).
Proof.
  cbv zeta. unfold generateEquipmentStatus. split; [| split].
  - rewrite (mapM_map _ _ (fun eq => eq)); [apply map_id |].
    intros x w'. exact (proj1 (equipmentRecord_fields self x w')).
  - apply (mapM_Forall _ _ (fun _ => True)); [| trivial | trivial].
    intros x w' _. destruct (equipmentRecord_fields self x w') as (_ & H).
    cbv zeta in H. tauto.
  - apply (mapM_Forall _ _ draws_in_unit).
    + intros x w' Hw'. destruct (equipmentRecord_fields self x w') as (_ & H).
      cbv zeta in H. apply H, Hw'.
    + intros x w'. apply keeps_draws_equipmentRecord.
Qed.

(** X8. Every record of [generateEquipmentStatus] carries the id and the
    name of its line of the equipment table, an efficiency in [85, 98], a
    temperature in [45, 85], a vibration level in [0.5, 8], a power
    consumption in [800, 3500] and runtime hours in [1000, 8760]; it has at
    most one alert, whose text is its own id followed by
    ": Parameter deviation detected".  With draws in [0, 1) its location is
    Plant Section 1, 2 or 3. *)
Theorem generateEquipmentStatus_unit_ranges (self : CementPlantSimulator) (w : World) :
  let units := fst (generateEquipmentStatus self w) in
  map (fun u => (equipment_id u, equipment_name u)) units = equipment
  /\ Forall (fun u =>
               85 <= efficiency u <= 98
               /\ 45 <= temperature u <= 85
               /\ 0.5 <= vibration_level u <= 8
               /\ 800 <= power_consumption u <= 3500
               /\ 1000 <= runtime_hours u <= 8760
               /\ (List.length (alerts u) <= 1)%nat
               /\ Forall (fun text =>
                            text = (equipment_id u ++ ": Parameter deviation detected")%string)
                         (alerts u))
            units
  /\ (draws_in_unit w ->
      Forall (fun u => exists n, location u = PlantSection n /\ (1 <= n <= 3)%Z) units).
Proof. exact (generateEquipmentStatus_units self w). Qed.

Lemma generateEquipmentStatus_unit_ranges_witness :
  draws_in_unit quietWorld
  /\ Forall (fun u => exists n, location u = PlantSection n /\ (1 <= n <= 3)%Z)
            (fst (generateEquipmentStatus quietSimulator quietWorld)).
Proof.
  assert (H : draws_in_unit quietWorld) by (intros n; cbn; lra).
  split; [exact H |].
  exact (proj2 (proj2 (generateEquipmentStatus_unit_ranges quietSimulator quietWorld)) H).
Defined.

Lemma count_alerts_le (units : list EquipmentStatus) :
  Forall (fun u => (List.length (alerts u) <= 1)%nat) units ->
  forall acc,
    (fold_left (fun total eq => total + N.of_nat (List.length (alerts eq))) units acc
     <= acc + N.of_nat (List.length units))%N.
Proof.
  induction 1 as [| u units Hu _ IH]; intros acc; cbn [fold_left List.length]; [lia |].
  specialize (IH (acc + N.of_nat (List.length (alerts u)))%N). lia.
Qed.

(** X9. In every record of [generatePlantOverview] the equipment total is 8
    and the running count and the alert count, taken from equipment records
    that the overview draws for itself, are at most 8.  The efficiency lies
    in [82, 94], the energy consumption in [85, 105] against the target 90,
    the quality score in [88, 96]; the production target is the plant
    capacity and the current production rate is the one of the parameters
    that the simulator retains (85% of the capacity when it retains none). *)
Theorem generatePlantOverview_counts (self : CementPlantSimulator) (w : World) :
  let o := fst (generatePlantOverview self w) in
  let units := fst (generateEquipmentStatus self (snd (Date_now w))) in
  equipment_total_count o = 8%N
  /\ equipment_running_count o
     = N.of_nat (List.length (filter (fun u => is_running (status u)) units))
  /\ (equipment_running_count o <= 8)%N
  /\ (active_alerts_count o <= 8)%N
  /\ 82 <= overall_efficiency o <= 94
  /\ 85 <= energy_consumption_current o <= 105
  /\ energy_consumption_target o = 90
  /\ 88 <= quality_score_avg o <= 96
  /\ production_rate_target o = plant_capacity (config self)
  /\ production_rate_current o
     = lastProductionRateOr self (plant_capacity (config self) * 0.85)
  /\ po_timestamp o = clock w O.
Proof.
  cbv zeta. unfold generatePlantOverview. rewrite !bind_run. unfold ret.
  cbn [fst equipment_total_count equipment_running_count active_alerts_count
       overall_efficiency energy_consumption_current energy_consumption_target
       quality_score_avg production_rate_target production_rate_current po_timestamp].
  set (units := fst (generateEquipmentStatus self (snd (Date_now w)))).
  pose proof (generateEquipmentStatus_length self (snd (Date_now w))) as Hlen.
  fold units in Hlen.
  split; [now rewrite Hlen |].
  split; [reflexivity |].
  split.
  { pose proof (filter_length_le (fun u => is_running (status u)) units). lia. }
  split.
  { destruct (generateEquipmentStatus_units self (snd (Date_now w))) as (_ & Hall & _).
    cbv zeta in Hall. fold units in Hall.
    pose proof (count_alerts_le units) as Hsum.
    specialize (Hsum ltac:(eapply Forall_impl; [| exact Hall]; cbv beta; tauto) 0%N).
    lia. }
  repeat (split; [first [apply getRandomInRange_clamped; lra | reflexivity] |]).
  reflexivity.
Qed.

(** ** The server: the cache of the latest data *)

Lemma broadcastData_emits (s : Server) (w : World) :
  exists d,
    fst (fst (broadcastData s w)) = Ok d
    /\ latestDashboardData (snd (fst (broadcastData s w))) = Some d
    /\ geminiService (snd (fst (broadcastData s w))) = geminiService s.
Proof.
  destruct (realDataEnabled s && (0 <? List.length (realDataSource s))%nat) eqn:Hreal.
  - apply andb_true_iff in Hreal. destruct Hreal as [Hen Hlen].
    assert (Hne : realDataSource s <> [])
      by (intros Hnil; rewrite Hnil in Hlen; discriminate Hlen).
    destruct (currentRealData_defined s Hne) as [r Hcur].
    rewrite (broadcastData_real s w r Hen Hne Hcur). cbn. eauto.
  - rewrite (broadcastData_simulated s w Hreal). cbn. eauto.
Qed.

Lemma on_connection_run (s : Server) (w : World) :
  step SocketConnection s w = (EmitDashboard (latestDashboardData s), s, w).
Proof. reflexivity. Qed.

Lemma get_dashboard_data_cached (s : Server) (w : World) (latest : DashboardData) :
  latestDashboardData s = Some latest ->
  fst (get_dashboard_data s w) = (mkResponse 200 true (Dashboard latest) (clock w O), s).
Proof. intros H. unfold get_dashboard_data. rewrite H. reflexivity. Qed.

Lemma reply_output (m : M (Response * Server)) (w : World) :
  fst (fst (reply m w)) = Reply (fst (fst (m w))).
Proof. unfold reply. rewrite bind_run. destruct (fst (m w)). reflexivity. Qed.

(** X10. Every broadcast succeeds and caches exactly the data it emits: a
    socket that connects next is sent these data at once, and a request for
    [/api/dashboard/data] made next is answered with them. *)
Theorem broadcast_caches_emitted_data (s : Server) (w w1 : World) :
  let s' := snd (fst (step Tick s w)) in
  exists d,
    fst (fst (step Tick s w)) = Broadcast (Ok d)
    /\ latestDashboardData s' = Some d
    /\ fst (fst (step SocketConnection s' w1)) = EmitDashboard (Some d)
    /\ body (fst (fst (get_dashboard_data s' w1))) = Dashboard d
    /\ snd (fst (step GetDashboardData s' w1)) = s'.
Proof.
  cbv zeta. rewrite step_Tick. cbn [fst snd].
  destruct (broadcastData_emits s w) as (d & Hout & Hlatest & _).
  exists d. rewrite Hout, on_connection_run, Hlatest. cbn [step fst snd].
  rewrite reply_state, (get_dashboard_data_cached _ w1 d Hlatest).
  repeat split.
Qed.

(** What every event does to the cache. *)
Lemma step_latestDashboardData (e : Event) (s : Server) (w : World) :
  e <> Tick ->
  latestDashboardData (snd (fst (step e s w))) = latestDashboardData s.
Proof.
  intros Hev.
  destruct e; try congruence; try (cbn [step]; rewrite reply_state).
  - unfold get_sensors_realtime. now run_handler.
  - unfold get_plant_status. now run_handler.
  - unfold get_process_parameters. now run_handler.
  - unfold get_quality_current. now run_handler.
  - unfold get_equipment_status. now run_handler.
  - unfold get_environmental_current. now run_handler.
  - unfold get_dashboard_data. destruct (latestDashboardData s) eqn:Hl; run_handler;
      cbn [latestDashboardData set_simulator]; congruence.
  - unfold post_simulation_start. now run_handler.
  - unfold post_simulation_stop. now run_handler.
  - unfold post_simulation_anomaly. now run_handler.
  - now rewrite post_ai_chat_body.
  - unfold get_system_prompt. now run_handler.
  - unfold post_system_prompt.
    destruct systemPrompt as [p |]; [| now run_handler].
    destruct (negb (truthy (VString p))); [now run_handler |].
    destruct (List.length (trim p) <? 10)%nat; now run_handler.
  - unfold delete_system_prompt. now run_handler.
  - unfold post_real_data_load. destruct (is_sample dataType); now run_handler.
  - unfold post_real_data_toggle. now run_handler.
  - unfold get_real_data_status. now run_handler.
  - cbn [step]. unfold on_connection. now run_handler.
  - cbn [step]. unfold on_request_sensor_data. now run_handler.
  - cbn [step]. unfold on_request_process_data. rewrite !bind_run.
    destruct (fst (generateProcessParameters (simulator s) w)) as [p sim'].
    now run_handler.
Qed.

(** X11. The cache of the latest data is written by the broadcast alone: no
    request and no socket event changes it, so that between two broadcasts
    every client that pulls or connects is given the same data. *)
Theorem only_broadcast_writes_cache (es : list Event) (s : Server) (w : World) :
  ~ In Tick es ->
  latestDashboardData (snd (fst (run es s w))) = latestDashboardData s.
Proof.
  revert s w. induction es as [| e es IH]; intros s w Hno; [reflexivity |].
  rewrite run_cons. cbn [fst snd].
  rewrite IH by (intros Hin; apply Hno; now right).
  apply step_latestDashboardData. intros ->. apply Hno. now left.
Qed.

Lemma only_broadcast_writes_cache_witness :
  ~ In Tick [GetProcessParameters; PostRealDataToggle; GetDashboardData]
  /\ latestDashboardData
       (snd (fst (run [GetProcessParameters; PostRealDataToggle; GetDashboardData]
                      quietServer quietWorld)))
     = latestDashboardData quietServer.
Proof.
  assert (H : ~ In Tick [GetProcessParameters; PostRealDataToggle; GetDashboardData]).
  { cbn. intros [H | [H | [H | []]]]; discriminate H. }
  split; [exact H |].
  exact (only_broadcast_writes_cache _ quietServer quietWorld H).
Defined.

(** ** The server: the data source switch *)

(** X12. REAL mode with an empty sequence falls back to simulation: the
    broadcast emits simulated data, its mode flag stays set and the replay
    position does not move.  This is the case after a toggle made before any
    load. *)
Theorem empty_sequence_falls_back_to_simulation (s : Server) (w : World) :
  realDataSource s = [] ->
  let out := fst (broadcastData s w) in
  fst out = Ok (fst (fst (simulatedDashboard (simulator s) w)))
  /\ latestDashboardData (snd out) = Some (fst (fst (simulatedDashboard (simulator s) w)))
  /\ switchState (snd out) = switchState s.
Proof.
  intros Hnil. cbv zeta.
  rewrite broadcastData_simulated by (rewrite Hnil; apply andb_false_r).
  repeat split.
Qed.

Lemma empty_sequence_falls_back_to_simulation_witness :
  let toggled := snd (fst (step PostRealDataToggle quietServer quietWorld)) in
  realDataSource toggled = []
  /\ realDataEnabled toggled = true
  /\ switchState (snd (fst (broadcastData toggled quietWorld))) = switchState toggled.
Proof.
  cbv zeta.
  assert (H : realDataSource (snd (fst (step PostRealDataToggle quietServer quietWorld))) = [])
    by reflexivity.
  split; [exact H | split; [reflexivity |]].
  exact (proj2 (proj2 (empty_sequence_falls_back_to_simulation _ quietWorld H))).
Defined.

Lemma get_real_data_status_run (s : Server) (w : World) :
  fst (get_real_data_status s w)
  = (mkResponse 200 true
       (RealDataStatus (realDataEnabled s) (N.of_nat (List.length (realDataSource s)))
          (realDataIndex s) (dataSourceName (realDataEnabled s))
          (if realDataEnabled s && (0 <? List.length (realDataSource s))%nat
           then currentRealData s else None))
       (clock w O), s).
Proof. reflexivity. Qed.

(** X13. The reply to [/api/real-data/status] tells what the next broadcast
    will do: it leaves the server as it is and reports the mode, the number
    of records and the position; when its [nextRecord] is a record, the next
    broadcast replays this record and moves the position by one, and when it
    is null the next broadcast is simulated and leaves the position. *)
Theorem status_announces_next_broadcast (s : Server) (w w' : World) :
  let out := fst (get_real_data_status s w) in
  exists next,
    body (fst out)
    = RealDataStatus (realDataEnabled s) (N.of_nat (List.length (realDataSource s)))
        (realDataIndex s) (dataSourceName (realDataEnabled s)) next
    /\ snd out = s
    /\ (forall r, next = Some r ->
          exists d, fst (fst (broadcastData s w')) = Ok d /\ built_from r d
            /\ realDataIndex (snd (fst (broadcastData s w'))) = (realDataIndex s + 1)%N)
    /\ (next = None ->
          fst (fst (broadcastData s w')) = Ok (fst (fst (simulatedDashboard (simulator s) w')))
          /\ realDataIndex (snd (fst (broadcastData s w'))) = realDataIndex s).
Proof.
  cbv zeta. rewrite get_real_data_status_run. cbn [fst snd body].
  eexists. split; [reflexivity |]. split; [reflexivity |].
  destruct (realDataEnabled s && (0 <? List.length (realDataSource s))%nat) eqn:Hreal.
  - apply andb_true_iff in Hreal. destruct Hreal as [Hen Hlen].
    assert (Hne : realDataSource s <> [])
      by (intros Hnil; rewrite Hnil in Hlen; discriminate Hlen).
    split.
    + intros r Hcur. rewrite (broadcastData_real s w' r Hen Hne Hcur). cbn [fst snd].
      eexists. split; [reflexivity |].
      split; [apply generateDashboardFromRealData_built_from | reflexivity].
    + intros Hnone. destruct (currentRealData_defined s Hne) as [r Hcur]. congruence.
  - split; [discriminate |]. intros _.
    rewrite (broadcastData_simulated s w' Hreal). split; reflexivity.
Qed.

Lemma post_real_data_load_rejected (dataType : option string) (s : Server) (w : World) :
  is_sample dataType = false ->
  fst (post_real_data_load dataType s w)
  = (mkResponse 400 false (Failure "Unsupported data type. Use sample for demo data.")
       (clock w O), s).
Proof. intros H. unfold post_real_data_load. rewrite H. reflexivity. Qed.

(** X14. A load whose data type is not the string "sample" (another string,
    or none) is refused with status 400 and changes nothing; loading the
    sample data a second time gives the state of the first load again, so
    that a reload restarts the replay at position 0. *)
Theorem load_rejects_other_types_and_is_idempotent
    (dataType : option string) (s : Server) (w w1 : World) :
  (dataType <> Some "sample"%string ->
   let out := fst (post_real_data_load dataType s w) in
   http_status (fst out) = 400%N /\ success (fst out) = false /\ snd out = s)
  /\ (let s1 := snd (fst (post_real_data_load (Some "sample"%string) s w)) in
      forall k w2,
        let s2 := snd (fst (run (repeat Tick k) s1 w2)) in
        snd (fst (post_real_data_load (Some "sample"%string) s1 w1)) = s1
        /\ switchState (snd (fst (post_real_data_load (Some "sample"%string) s2 w1)))
           = switchState s1).
Proof.
  split.
  - intros Hother. cbv zeta.
    assert (Hfalse : is_sample dataType = false).
    { destruct dataType as [t |]; [| reflexivity]. cbn [is_sample].
      apply String.eqb_neq. congruence. }
    rewrite (post_real_data_load_rejected dataType s w Hfalse). repeat split.
  - cbv zeta. intros k w2. rewrite !post_real_data_load_sample. cbn [snd fst].
    split; [reflexivity |].
    unfold switchState. reflexivity.
Qed.

Lemma load_rejects_other_types_and_is_idempotent_witness :
  Some "csv"%string <> Some "sample"%string
  /\ snd (fst (post_real_data_load (Some "csv"%string) quietServer quietWorld)) = quietServer.
Proof.
  assert (H : Some "csv"%string <> Some "sample"%string) by discriminate.
  split; [exact H |].
  exact (proj2 (proj2 (proj1
    (load_rejects_other_types_and_is_idempotent (Some "csv"%string) quietServer
       quietWorld quietWorld) H))).
Defined.

(** ** Strings: trimming and cleaning *)

Lemma drop_while_head (f : N -> bool) (s : jsstring) :
  drop_while f s = [] \/ exists c rest, drop_while f s = c :: rest /\ f c = false.
Proof.
  induction s as [| x s IH]; cbn; [now left |].
  destruct (f x) eqn:Hx; [exact IH | right; eauto].
Qed.

Lemma drop_while_fixed (f : N -> bool) (c : N) (rest : jsstring) :
  f c = false -> drop_while f (c :: rest) = c :: rest.
Proof. intros H. cbn. now rewrite H. Qed.

Lemma drop_while_idempotent (f : N -> bool) (s : jsstring) :
  drop_while f (drop_while f s) = drop_while f s.
Proof.
  destruct (drop_while_head f s) as [-> | (c & rest & -> & Hc)]; [reflexivity |].
  now apply drop_while_fixed.
Qed.

Lemma drop_while_length (f : N -> bool) (s : jsstring) :
  (List.length (drop_while f s) <= List.length s)%nat.
Proof.
  induction s as [| x s IH]; cbn; [lia |]. destruct (f x); cbn; lia.
Qed.

Lemma drop_while_fixed_head (f : N -> bool) (c : N) (rest : jsstring) :
  drop_while f (c :: rest) = c :: rest -> f c = false.
Proof.
  cbn. destruct (f c); [| reflexivity]. intros H.
  pose proof (drop_while_length f rest) as Hlen. rewrite H in Hlen. cbn in Hlen. lia.
Qed.

Lemma trim_no_leading_space (s : jsstring) : drop_while is_space (trim s) = trim s.
Proof.
  unfold trim.
  destruct (drop_while_head is_space s) as [-> | (c & rest & -> & Hc)]; [reflexivity |].
  cbn [rev]. destruct (drop_while_last is_space c (rev rest) Hc) as [l' ->].
  rewrite rev_app_distr. cbn [rev app]. now apply drop_while_fixed.
Qed.

Lemma trim_no_trailing_space (s : jsstring) :
  drop_while is_space (rev (trim s)) = rev (trim s).
Proof. unfold trim. rewrite rev_involutive. apply drop_while_idempotent. Qed.

Lemma trim_idempotent (s : jsstring) : trim (trim s) = trim s.
Proof.
  unfold trim at 1.
  now rewrite trim_no_leading_space, trim_no_trailing_space, rev_involutive.
Qed.

Lemma trim_ends (s : jsstring) :
  (forall c rest, trim s = c :: rest -> is_space c = false)
  /\ (forall init d, trim s = init ++ [d] -> is_space d = false).
Proof.
  split.
  - intros c rest H. apply (drop_while_fixed_head is_space c rest).
    rewrite <- H. apply trim_no_leading_space.
  - intros init d H. apply (drop_while_fixed_head is_space d (rev init)).
    replace (d :: rev init) with (rev (trim s)) by (rewrite H, rev_app_distr; reflexivity).
    apply trim_no_trailing_space.
Qed.

Lemma trim_length (s : jsstring) : (List.length (trim s) <= List.length s)%nat.
Proof.
  unfold trim. rewrite length_rev.
  etransitivity; [apply drop_while_length |]. rewrite length_rev. apply drop_while_length.
Qed.

Lemma cleaned_idempotent (line : jsstring) : cleaned (cleaned line) = cleaned line.
Proof.
  assert (Hstrip : strip_leading_non_word (cleaned line) = cleaned line).
  { destruct (cleaned_head line) as [-> | (c & rest & -> & Hc)]; [reflexivity |].
    unfold strip_leading_non_word. apply drop_while_fixed. now rewrite Hc. }
  unfold cleaned at 1. rewrite Hstrip. unfold cleaned. apply trim_idempotent.
Qed.

Lemma filter_none {A : Type} (f : A -> bool) (l : list A) :
  (forall x, In x l -> f x = false) -> filter f l = [].
Proof.
  induction l as [| x l IH]; intros H; [reflexivity |]. cbn.
  rewrite (H x (or_introl eq_refl)). apply IH. intros y Hy. apply H. now right.
Qed.

(** X15. The recommendations taken from a text are the cleaned forms of the
    first five lines that mention an action word and are longer than 10 once
    cleaned, in the order of the text.  A text none of whose lines mentions
    an action word (the empty text among them) gives no recommendation.
    Every recommendation is clean already: cleaning it again changes nothing
    and it does not end with white space. *)
Theorem extractRecommendations_first_five (text : jsstring) :
  extractRecommendations text = firstn 5 (map cleaned (filter kept (split_lines text)))
  /\ List.length (extractRecommendations text)
     = Nat.min 5 (List.length (filter kept (split_lines text)))
  /\ ((forall line, In line (split_lines text) -> mentions_action line = false) ->
      extractRecommendations text = [])
  /\ extractRecommendations [] = []
  /\ Forall (fun entry =>
               cleaned entry = entry
               /\ forall init d, entry = init ++ [d] -> is_space d = false)
            (extractRecommendations text).
Proof.
  split; [apply extractRecommendations_spec |].
  split; [rewrite extractRecommendations_spec, length_firstn, length_map; reflexivity |].
  split.
  { intros Hnone. rewrite extractRecommendations_spec, filter_none; [reflexivity |].
    intros line Hin. unfold kept. now rewrite (Hnone line Hin). }
  split; [reflexivity |].
  rewrite extractRecommendations_spec. apply Forall_forall. intros entry Hin.
  apply (in_slice0 5), in_map_iff in Hin. destruct Hin as (line & <- & _).
  split; [apply cleaned_idempotent |].
  unfold cleaned. apply trim_ends.
Qed.

Lemma extractRecommendations_first_five_witness :
  (forall line, In line (split_lines (js "All is well.")) -> mentions_action line = false)
  /\ extractRecommendations (js "All is well.") = [].
Proof.
  assert (H : forall line, In line (split_lines (js "All is well."))
                           -> mentions_action line = false).
  { intros line [<- | []]. reflexivity. }
  split; [exact H |].
  exact (proj1 (proj2 (proj2 (extractRecommendations_first_five (js "All is well.")))) H).
Defined.

(** ** The chat service: prompts and replies *)

Lemma post_system_prompt_accepts (p : jsstring) (s : Server) (w : World) :
  p <> [] -> (10 <= List.length (trim p))%nat ->
  fst (post_system_prompt (Some p) s w)
  = (mkResponse 200 true (SystemPromptSet (trim p)) (clock w O),
     set_geminiService s (setCustomSystemPrompt (geminiService s) (trim p))).
Proof.
  intros Hne Hlen. unfold post_system_prompt.
  destruct p as [| c p]; [congruence |]. cbn [truthy negb].
  destruct (Nat.ltb_spec (List.length (trim (c :: p))) 10); [lia |]. reflexivity.
Qed.

Lemma post_system_prompt_rejects (systemPrompt : option jsstring) (s : Server) (w : World) :
  (forall p, systemPrompt = Some p -> p = [] \/ (List.length (trim p) < 10)%nat) ->
  http_status (fst (fst (post_system_prompt systemPrompt s w))) = 400%N
  /\ snd (fst (post_system_prompt systemPrompt s w)) = s.
Proof.
  intros Hbad. unfold post_system_prompt.
  destruct systemPrompt as [p |]; [| split; reflexivity].
  destruct p as [| c p]; [split; reflexivity |]. cbn [truthy negb].
  destruct (Nat.ltb_spec (List.length (trim (c :: p))) 10); [split; reflexivity |].
  destruct (Hbad (c :: p) eq_refl) as [H0 | H0]; [discriminate H0 | lia].
Qed.

(** X16. A system prompt that is a non-empty string of at least 10 units
    once trimmed is accepted: the trimmed text is stored, a following GET
    returns it as custom, and it is the system prompt of the next chat; a
    DELETE makes the GET return null and the chat use the default prompt
    again.  A prompt that is missing, empty or shorter than 10 units once
    trimmed is refused with status 400 and changes nothing.  No prompt that
    gets stored is empty or has white space at either end. *)
Theorem system_prompt_round_trip (s : Server) (w w1 w2 : World) :
  (forall p : jsstring, p <> [] -> (10 <= List.length (trim p))%nat ->
     let s1 := snd (fst (post_system_prompt (Some p) s w)) in
     let s2 := snd (fst (delete_system_prompt s1 w2)) in
     body (fst (fst (get_system_prompt s1 w1))) = SystemPrompt (Some (trim p)) true
     /\ buildSystemPrompt (geminiService s1) = trim p
     /\ trim (trim p) = trim p
     /\ body (fst (fst (get_system_prompt s2 w1))) = SystemPrompt None false
     /\ buildSystemPrompt (geminiService s2) = defaultSystemPrompt
     /\ switchState s1 = switchState s /\ simulator s1 = simulator s
     /\ latestDashboardData s1 = latestDashboardData s)
  /\ (forall systemPrompt,
        (forall p, systemPrompt = Some p -> p = [] \/ (List.length (trim p) < 10)%nat) ->
        http_status (fst (fst (post_system_prompt systemPrompt s w))) = 400%N
        /\ snd (fst (post_system_prompt systemPrompt s w)) = s).
Proof.
  split; [| intros sp; apply post_system_prompt_rejects].
  intros p Hne Hlen. cbv zeta.
  rewrite (post_system_prompt_accepts p s w Hne Hlen). cbn [snd].
  split; [reflexivity |].
  split.
  { cbn [set_geminiService geminiService setCustomSystemPrompt].
    unfold buildSystemPrompt. cbn [customSystemPrompt].
    destruct (trim p) as [| c t] eqn:Ht; [cbn in Hlen; lia | reflexivity]. }
  split; [apply trim_idempotent |].
  repeat split.
Qed.

Lemma system_prompt_round_trip_witness :
  js "  Answer briefly. " <> []
  /\ (10 <= List.length (trim (js "  Answer briefly. ")))%nat
  /\ buildSystemPrompt
       (geminiService
          (snd (fst (post_system_prompt (Some (js "  Answer briefly. ")) quietServer
                       quietWorld))))
     = js "Answer briefly.".
Proof.
  assert (H1 : js "  Answer briefly. " <> []) by discriminate.
  assert (H2 : (10 <= List.length (trim (js "  Answer briefly. ")))%nat)
    by (vm_compute; lia).
  split; [exact H1 | split; [exact H2 |]].
  exact (proj1 (proj2 (proj1
    (system_prompt_round_trip quietServer quietWorld quietWorld quietWorld)
    (js "  Answer briefly. ") H1 H2))).
Defined.

(** X17. The system prompt that [buildSystemPrompt] hands to the chat is
    never empty: it is the custom prompt when one is set and not empty, and
    the default prompt otherwise, also when the custom prompt is the empty
    string; setting and clearing the custom prompt are undone by each
    other. *)
Theorem buildSystemPrompt_never_empty (self : GeminiService) (p : jsstring) :
  buildSystemPrompt self <> []
  /\ (p <> [] -> buildSystemPrompt (setCustomSystemPrompt self p) = p)
  /\ buildSystemPrompt (setCustomSystemPrompt self []) = defaultSystemPrompt
  /\ buildSystemPrompt (clearCustomSystemPrompt self) = defaultSystemPrompt
  /\ getCustomSystemPrompt (clearCustomSystemPrompt (setCustomSystemPrompt self p)) = None
  /\ getCustomSystemPrompt (setCustomSystemPrompt (clearCustomSystemPrompt self) p) = Some p
  /\ apiKey (setCustomSystemPrompt self p) = apiKey self.
Proof.
  split.
  { unfold buildSystemPrompt. destruct (customSystemPrompt self) as [[| c q] |];
      cbn [truthy]; discriminate. }
  split.
  { intros Hne. destruct p; [congruence | reflexivity]. }
  repeat split.
Qed.

Lemma textReply_parses (text : jsstring) :
  hasExpectedStructure (textReply text) = Ok true
  /\ parseGeminiResponse (textReply text)
     = Ok {| response := text;
             confidence := 0.85;
             recommendations := Some (extractRecommendations text);
             context_used := [js "plant_data"; js "process_parameters";
                              js "environmental_metrics"] |}.
Proof. split; reflexivity. Qed.

Lemma connectionTroubleReply_structure :
  hasExpectedStructure connectionTroubleReply = Ok true.
Proof. reflexivity. Qed.

(** X18. [callGeminiAPI] never throws and always returns a reply that passes
    its own structure test ([candidates[0].content] is there): the data sent
    by the service when they pass the test, and the made-up reply in every
    other case.  It makes exactly one call of [fetch]. *)
Theorem callGeminiAPI_always_structured (self : GeminiService) (prompt : Prompt) (w : World) :
  hasExpectedStructure (fst (callGeminiAPI self prompt w)) = Ok true
  /\ (forall data, fetches w O = HttpOk data -> hasExpectedStructure data = Ok true ->
        fst (callGeminiAPI self prompt w) = data)
  /\ (backendFails (fetches w O) = true ->
        fst (callGeminiAPI self prompt w) = connectionTroubleReply)
  /\ snd (callGeminiAPI self prompt w)
     = mkWorld (randoms w) (clock w) (uuids w) (tail (fetches w)).
Proof.
  rewrite callGeminiAPI_reply. split; [| split; [| split]].
  - destruct (fetches w O) as [| | | data]; try apply connectionTroubleReply_structure.
    cbn [backendFails].
    destruct (hasExpectedStructure data) as [[|] |] eqn:Hs;
      [exact Hs | apply connectionTroubleReply_structure ..].
  - intros data -> Hs. cbn [backendFails]. now rewrite Hs.
  - intros Hfail. destruct (fetches w O); try reflexivity. now rewrite Hfail.
  - unfold callGeminiAPI. rewrite bind_run. reflexivity.
Qed.

Lemma callGeminiAPI_always_structured_witness :
  fetches (mkWorld (fun _ => 0) (fun _ => 0) (fun _ => EmptyString)
             (fun _ => HttpOk adviceReply)) O = HttpOk adviceReply
  /\ hasExpectedStructure adviceReply = Ok true
  /\ fst (callGeminiAPI createGeminiService
            (mkPrompt defaultSystemPrompt (js "What now?") None)
            (mkWorld (fun _ => 0) (fun _ => 0) (fun _ => EmptyString)
               (fun _ => HttpOk adviceReply)))
     = adviceReply.
Proof.
  assert (H : hasExpectedStructure adviceReply = Ok true) by reflexivity.
  split; [reflexivity | split; [exact H |]].
  exact (proj1 (proj2 (callGeminiAPI_always_structured createGeminiService
    (mkPrompt defaultSystemPrompt (js "What now?") None)
    (mkWorld (fun _ => 0) (fun _ => 0) (fun _ => EmptyString)
       (fun _ => HttpOk adviceReply)))) adviceReply eq_refl H).
Defined.

(** X19. A reply of the service in the expected shape is passed through by
    [askGemini]: the response is the text of the reply, unchanged (also when
    it is empty), with the recommendations taken from this text and the
    confidence 0.85.  In every case the response of [askGemini] either has
    the confidence 0.85 or is the fixed apology of confidence 0. *)
Theorem askGemini_passes_reply_through (self : GeminiService) (question : jsstring)
    (dashboardData : option DashboardData) (plantContext : option ProcessParameters)
    (w : World) :
  let r := fst (askGemini self question dashboardData plantContext w) in
  (forall text, fetches w O = HttpOk (textReply text) ->
     response r = text
     /\ confidence r = 0.85%Q
     /\ recommendations r = Some (extractRecommendations text))
  /\ (confidence r = 0.85%Q \/ r = unableToAccess).
Proof.
  cbv zeta. rewrite askGemini_reply, callGeminiAPI_reply. split.
  - intros text ->. cbn [backendFails].
    destruct (textReply_parses text) as [-> ->]. repeat split.
  - destruct (parseGeminiResponse _) as [r |] eqn:Hparse; [left | now right].
    exact (proj1 (parseGeminiResponse_confidence _ r Hparse)).
Qed.

Lemma askGemini_passes_reply_through_witness :
  let w := mkWorld (fun _ => 0) (fun _ => 0) (fun _ => EmptyString)
             (fun _ => HttpOk (textReply [])) in
  fetches w O = HttpOk (textReply [])
  /\ response (fst (askGemini createGeminiService (js "Anything?") None None w)) = [].
Proof.
  cbv zeta. split; [reflexivity |].
  exact (proj1 (proj1
    (askGemini_passes_reply_through createGeminiService (js "Anything?") None None
       (mkWorld (fun _ => 0) (fun _ => 0) (fun _ => EmptyString)
          (fun _ => HttpOk (textReply []))))
    [] eq_refl)).
Defined.

(** ** The server: what the handlers share *)

(** The simulator with its running flag set to [r]. *)
Lemma generateProcessParameters_running (self : CementPlantSimulator) (r : bool)
    (w : World) :
  let flagged := mkSimulator (config self) (baseTime self) r (lastParameters self) in
  fst (fst (generateProcessParameters flagged w)) = fst (fst (generateProcessParameters self w))
  /\ snd (generateProcessParameters flagged w) = snd (generateProcessParameters self w)
  /\ lastParameters (snd (fst (generateProcessParameters flagged w)))
     = lastParameters (snd (fst (generateProcessParameters self w)))
  /\ config (snd (fst (generateProcessParameters flagged w))) = config self
  /\ baseTime (snd (fst (generateProcessParameters flagged w))) = baseTime self.
Proof.
  cbv zeta. unfold generateProcessParameters. rewrite !bind_run. repeat split.
Qed.

Lemma generatePlantOverview_running (self : CementPlantSimulator) (r : bool) :
  generatePlantOverview (mkSimulator (config self) (baseTime self) r (lastParameters self))
  = generatePlantOverview self.
Proof.
  unfold generatePlantOverview, generateEquipmentStatus, equipmentRecord,
    generateAlertsForEquipment, lastProductionRateOr.
  cbn [config lastParameters]. reflexivity.
Qed.

Lemma generateSensorReadings_running (self : CementPlantSimulator) (r : bool) :
  generateSensorReadings (mkSimulator (config self) (baseTime self) r (lastParameters self))
  = generateSensorReadings self.
Proof.
  unfold generateSensorReadings, generateCyclicalValue. cbn [config baseTime]. reflexivity.
Qed.

Lemma generateQualityMetrics_any (a b : CementPlantSimulator) :
  generateQualityMetrics a = generateQualityMetrics b.
Proof. unfold generateQualityMetrics. reflexivity. Qed.

Lemma generateEquipmentStatus_any (a b : CementPlantSimulator) :
  generateEquipmentStatus a = generateEquipmentStatus b.
Proof.
  unfold generateEquipmentStatus, equipmentRecord, generateAlertsForEquipment. reflexivity.
Qed.

Lemma simulatedDashboard_data (sim : CementPlantSimulator) (w : World) :
  let a := generatePlantOverview sim w in
  let b := generateSensorReadings sim (snd a) in
  let c := generateProcessParameters sim (snd b) in
  let q := generateQualityMetrics (snd (fst c)) (snd c) in
  let e := generateEquipmentStatus (snd (fst c)) (snd q) in
  let v := generateEnvironmentalData (snd (fst c)) (snd e) in
  fst (fst (simulatedDashboard sim w))
  = {| plant_overview := fst a;
       recent_sensors := fst b;
       current_parameters := fst (fst c);
       recent_quality := [fst q];
       equipment_status := fst e;
       active_alerts := [];
       ai_recommendations := [];
       environmental_data := fst v |}
  /\ snd (simulatedDashboard sim w) = snd v.
Proof.
  cbv zeta. unfold simulatedDashboard. rewrite !bind_run.
  destruct (generateProcessParameters sim
              (snd (generateSensorReadings sim (snd (generatePlantOverview sim w)))))
    as [[p sim'] w'].
  cbn [fst snd]. rewrite !bind_run.
  split; [rewrite fst_ret | rewrite snd_ret]; reflexivity.
Qed.

Lemma simulatedDashboard_running (self : CementPlantSimulator) (r : bool) (w : World) :
  let flagged := mkSimulator (config self) (baseTime self) r (lastParameters self) in
  fst (fst (simulatedDashboard flagged w)) = fst (fst (simulatedDashboard self w))
  /\ snd (simulatedDashboard flagged w) = snd (simulatedDashboard self w).
Proof.
  cbv zeta.
  pose proof (simulatedDashboard_data
                (mkSimulator (config self) (baseTime self) r (lastParameters self)) w)
    as H1.
  pose proof (simulatedDashboard_data self w) as H2.
  cbv zeta in H1, H2. destruct H1 as [-> ->]. destruct H2 as [-> ->].
  rewrite generatePlantOverview_running, generateSensorReadings_running.
  destruct (generateProcessParameters_running self r
              (snd (generateSensorReadings self (snd (generatePlantOverview self w)))))
    as (Hp & Hw & Hl & Hc & Hb).
  cbv zeta in Hp, Hw, Hl, Hc, Hb.
  destruct (generateProcessParameters_frame self
              (snd (generateSensorReadings self (snd (generatePlantOverview self w)))))
    as (Hc2 & Hb2 & _).
  rewrite Hp, Hw.
  set (sim1 := snd (fst (generateProcessParameters
                           (mkSimulator (config self) (baseTime self) r
                              (lastParameters self))
                           (snd (generateSensorReadings self
                                   (snd (generatePlantOverview self w))))))) in *.
  set (sim2 := snd (fst (generateProcessParameters self
                           (snd (generateSensorReadings self
                                   (snd (generatePlantOverview self w))))))) in *.
  clearbody sim1 sim2.
  assert (Henv : generateEnvironmentalData sim1 = generateEnvironmentalData sim2).
  { unfold generateEnvironmentalData, lastProductionRateOr. rewrite Hl, Hc, Hc2.
    reflexivity. }
  rewrite (generateQualityMetrics_any sim1 sim2), (generateEquipmentStatus_any sim1 sim2),
    Henv.
  split; reflexivity.
Qed.

Lemma simulation_stop_state (s : Server) (w : World) :
  snd (fst (step PostSimulationStop s w)) = set_simulator s (stopSimulation (simulator s)).
Proof.
  cbn [step]. rewrite reply_state. unfold post_simulation_stop.
  rewrite !bind_run, fst_ret. reflexivity.
Qed.

Lemma simulation_start_state (s : Server) (w : World) :
  snd (fst (step PostSimulationStart s w)) = set_simulator s (startSimulation (simulator s)).
Proof.
  cbn [step]. rewrite reply_state. unfold post_simulation_start.
  rewrite !bind_run, fst_ret. reflexivity.
Qed.

(** X20. The running flag of the simulator is not read by the broadcast:
    after [/api/simulation/stop] (and after [/api/simulation/start]) the
    timer goes on broadcasting, and with the same draws and clock readings
    it emits the very data it would have emitted otherwise. *)
Theorem stop_does_not_stop_broadcast (s : Server) (w w' : World) :
  let stopped := snd (fst (step PostSimulationStop s w)) in
  let started := snd (fst (step PostSimulationStart s w)) in
  isRunning (simulator stopped) = false
  /\ isRunning (simulator started) = true
  /\ fst (fst (step Tick stopped w')) = fst (fst (step Tick s w'))
  /\ fst (fst (step Tick started w')) = fst (fst (step Tick s w'))
  /\ switchState stopped = switchState s
  /\ lastParameters (simulator stopped) = lastParameters (simulator s).
Proof.
  cbv zeta. rewrite simulation_stop_state, simulation_start_state.
  unfold stopSimulation, startSimulation.
  split; [reflexivity | split; [reflexivity |]].
  assert (Htick : forall r,
    fst (fst (step Tick
                (set_simulator s (mkSimulator (config (simulator s)) (baseTime (simulator s))
                                    r (lastParameters (simulator s)))) w'))
    = fst (fst (step Tick s w'))).
  { intros r. rewrite !step_Tick. cbn [fst].
    destruct (realDataEnabled s && (0 <? List.length (realDataSource s))%nat) eqn:Hreal.
    - apply andb_true_iff in Hreal. destruct Hreal as [Hen Hlen].
      assert (Hne : realDataSource s <> [])
        by (intros Hnil; rewrite Hnil in Hlen; discriminate Hlen).
      destruct (currentRealData_defined s Hne) as [rec Hcur].
      rewrite (broadcastData_real s w' rec Hen Hne Hcur).
      rewrite (broadcastData_real (set_simulator s _) w' rec Hen Hne Hcur).
      reflexivity.
    - rewrite (broadcastData_simulated s w' Hreal).
      rewrite (broadcastData_simulated (set_simulator s _) w' Hreal).
      cbn [fst set_simulator simulator].
      now rewrite (proj1 (simulatedDashboard_running (simulator s) r w')). }
  split; [apply (Htick false) | split; [apply (Htick true) |]].
  split; reflexivity.
Qed.

Lemma step_Tick_output (s : Server) (w : World) :
  fst (fst (step Tick s w)) = Broadcast (fst (fst (broadcastData s w))).
Proof. now rewrite step_Tick. Qed.

Lemma broadcastData_simulated_output (s : Server) (w : World) :
  realDataEnabled s && (0 <? List.length (realDataSource s))%nat = false ->
  fst (fst (broadcastData s w)) = Ok (fst (fst (simulatedDashboard (simulator s) w))).
Proof. intros H. now rewrite (broadcastData_simulated s w H). Qed.

Lemma get_process_parameters_state (s : Server) (w : World) :
  snd (fst (step GetProcessParameters s w))
  = set_simulator s (snd (fst (generateProcessParameters (simulator s) w))).
Proof. cbn [step]. now rewrite reply_state, get_process_parameters_run. Qed.

Lemma get_process_parameters_body (s : Server) (w : World) :
  body (fst (fst (get_process_parameters s w)))
  = ProcessData (fst (fst (generateProcessParameters (simulator s) w))).
Proof. now rewrite get_process_parameters_run. Qed.

Lemma simulatedDashboard_overview (sim : CementPlantSimulator) (w : World) :
  plant_overview (fst (fst (simulatedDashboard sim w))) = fst (generatePlantOverview sim w).
Proof.
  destruct (simulatedDashboard_parts sim w) as (w1 & w2 & w3 & Hparts).
  cbv zeta in Hparts. exact (proj1 Hparts).
Qed.

(** X21. A pull of the process parameters shows in the live stream: in
    SIMULATED mode, for a positive plant capacity, the plant overview of the
    next broadcast reports as current production rate the rate of the
    parameters that were made for the pull. *)
Theorem pull_shows_in_next_broadcast (s : Server) (w : World) :
  0 < plant_capacity (config (simulator s)) ->
  realDataEnabled s = false ->
  let pulled := fst (fst (generateProcessParameters (simulator s) w)) in
  let s' := snd (fst (step GetProcessParameters s w)) in
  forall w',
    body (fst (fst (get_process_parameters s w))) = ProcessData pulled
    /\ exists d, fst (fst (step Tick s' w')) = Broadcast (Ok d)
         /\ production_rate_current (plant_overview d) = production_rate pulled.
Proof.
  intros Hcap Hsim. cbv zeta. intros w'.
  split; [apply get_process_parameters_body |].
  rewrite get_process_parameters_state.
  set (sim' := snd (fst (generateProcessParameters (simulator s) w))).
  exists (fst (fst (simulatedDashboard sim' w'))).
  split.
  - rewrite step_Tick_output, broadcastData_simulated_output; [reflexivity |].
    unfold set_simulator. cbn. now rewrite Hsim.
  - rewrite simulatedDashboard_overview.
    rewrite (proj1 (generatePlantOverview_rate sim' w')).
    apply lastProductionRateOr_retained.
    + apply generateProcessParameters_retains.
    + pose proof (production_rate_positive (simulator s) w Hcap). lra.
Qed.

Lemma pull_shows_in_next_broadcast_witness :
  0 < plant_capacity (config (simulator quietServer))
  /\ realDataEnabled quietServer = false
  /\ body (fst (fst (get_process_parameters quietServer quietWorld)))
     = ProcessData (fst (fst (generateProcessParameters (simulator quietServer) quietWorld))).
Proof.
  assert (H : 0 < plant_capacity (config (simulator quietServer))) by (cbn; lra).
  split; [exact H | split; [reflexivity |]].
  exact (proj1 (pull_shows_in_next_broadcast quietServer quietWorld H eq_refl quietWorld)).
Defined.

Lemma Forall2_seq_nth {A : Type} (R : A -> nat -> Prop) (d : A) (l : list A) :
  forall a k j, Forall2 R l (seq a k) -> (j < k)%nat -> R (nth j l d) (a + j)%nat.
Proof.
  induction l as [| x l IH]; intros a k j H Hj.
  - inversion H as [Hseq |]. destruct k; [lia | discriminate].
  - destruct k as [| k]; [lia |]. cbn [seq] in H. inversion H; subst.
    destruct j as [| j]; cbn [nth].
    + now rewrite Nat.add_0_r.
    + replace (a + S j)%nat with (S a + j)%nat by lia. apply (IH (S a) k); [assumption | lia].
Qed.

(** X22. The replay is periodic: in REAL mode with [n] records, the
    broadcasts number [j] and number [j + n] of a run of ticks replay the
    record at the same index of the sequence. *)
Theorem replay_period (k j : nat) (s : Server) (w : World) :
  realDataEnabled s = true ->
  realDataSource s <> [] ->
  (j + List.length (realDataSource s) < k)%nat ->
  let outs := fst (fst (run (repeat Tick k) s w)) in
  exists i,
    (i < List.length (realDataSource s))%nat
    /\ replays (realDataSource s) (nth j outs (Broadcast Throw)) i
    /\ replays (realDataSource s)
         (nth (j + List.length (realDataSource s)) outs (Broadcast Throw)) i.
Proof.
  intros Hen Hne Hk. cbv zeta.
  destruct (replay_run k s w (realDataIndex s) 0 Hen Hne) as (Hall & _).
  { cbn. now rewrite N.add_0_r. }
  cbv zeta in Hall.
  set (n := List.length (realDataSource s)) in *.
  assert (Hn : (n <> 0)%nat).
  { subst n. destruct (realDataSource s); [congruence | cbn; lia]. }
  pose proof (Forall2_seq_nth _ (Broadcast Throw) _ 0 k j Hall ltac:(lia)) as Hj.
  pose proof (Forall2_seq_nth _ (Broadcast Throw) _ 0 k (j + n) Hall ltac:(lia)) as Hjn.
  cbn beta in Hj, Hjn. cbn [Nat.add] in Hj, Hjn.
  exists (N.to_nat ((realDataIndex s + N.of_nat j) mod N.of_nat n)).
  split; [| split; [exact Hj |]].
  - pose proof (N.mod_lt (realDataIndex s + N.of_nat j) (N.of_nat n) ltac:(lia)). lia.
  - replace ((realDataIndex s + N.of_nat j) mod N.of_nat n)%N
      with ((realDataIndex s + N.of_nat (j + n)) mod N.of_nat n)%N; [exact Hjn |].
    rewrite Nat2N.inj_add, N.add_assoc.
    rewrite <- (N.mul_1_l (N.of_nat n)) at 1.
    apply N.Div0.mod_add.
Qed.

Lemma replay_period_witness :
  let loaded := snd (fst (post_real_data_load (Some "sample"%string) quietServer quietWorld)) in
  realDataEnabled loaded = true
  /\ realDataSource loaded <> []
  /\ (3 + List.length (realDataSource loaded) < 25)%nat
  /\ exists i,
       replays (realDataSource loaded)
         (nth 3 (fst (fst (run (repeat Tick 25) loaded quietWorld))) (Broadcast Throw)) i
       /\ replays (realDataSource loaded)
            (nth 13 (fst (fst (run (repeat Tick 25) loaded quietWorld))) (Broadcast Throw)) i.
Proof.
  cbv zeta.
  assert (Hen : realDataEnabled
                  (snd (fst (post_real_data_load (Some "sample"%string) quietServer quietWorld)))
                = true) by reflexivity.
  assert (Hne : realDataSource
                  (snd (fst (post_real_data_load (Some "sample"%string) quietServer quietWorld)))
                <> []) by discriminate.
  assert (Hk : (3 + List.length
                      (realDataSource
                         (snd (fst (post_real_data_load (Some "sample"%string) quietServer
                                      quietWorld)))) < 25)%nat) by (cbn; lia).
  split; [exact Hen | split; [exact Hne | split; [exact Hk |]]].
  destruct (replay_period 25 3 _ quietWorld Hen Hne Hk) as (i & _ & H3 & H13).
  exists i. split; [exact H3 | exact H13].
Defined.

(** X23. The requests for sensor readings, plant status, quality, equipment
    status, environmental data, the status of the real data and the system
    prompt, the chat, the injection of an anomaly and the socket events for a
    connection and for sensor data leave the whole state of the server as it
    is. *)
Theorem read_only_events_keep_state (e : Event) (s : Server) (w : World) :
  read_only e = true -> snd (fst (step e s w)) = s.
Proof.
  intros Hro.
  destruct e; try discriminate Hro; try (cbn [step]; rewrite reply_state).
  - unfold get_sensors_realtime. now rewrite !bind_run.
  - unfold get_plant_status. now rewrite !bind_run.
  - unfold get_quality_current. now rewrite !bind_run.
  - unfold get_equipment_status. now rewrite !bind_run.
  - unfold get_environmental_current. now rewrite !bind_run.
  - unfold post_simulation_anomaly. rewrite !bind_run. unfold ret, injectAnomaly.
    cbn [fst snd]. now destruct s.
  - now rewrite post_ai_chat_body.
  - unfold get_system_prompt. now rewrite !bind_run.
  - now rewrite get_real_data_status_run.
  - reflexivity.
  - cbn [step]. unfold on_request_sensor_data. now rewrite !bind_run.
Qed.

Lemma read_only_events_keep_state_witness :
  read_only (PostAiChat (js "How is the kiln?")) = true
  /\ snd (fst (step (PostAiChat (js "How is the kiln?")) quietServer quietWorld))
     = quietServer.
Proof.
  split; [reflexivity |].
  exact (read_only_events_keep_state (PostAiChat (js "How is the kiln?")) quietServer
           quietWorld eq_refl).
Defined.

(** ** The server: invariants of the replay position *)

Lemma step_realDataIndex (e : Event) (s : Server) (w : World) :
  loads_sample e = false ->
  realDataSource (snd (fst (step e s w))) = realDataSource s
  /\ (realDataIndex (snd (fst (step e s w))) = realDataIndex s
      \/ is_tick e = true
         /\ realDataIndex (snd (fst (step e s w))) = (realDataIndex s + 1)%N).
Proof.
  intros Hload.
  destruct (switchState_components _ _ (step_switchState e s w)) as (_ & Hsrc & Hidx).
  destruct e; cbn [fst snd switchState] in Hsrc, Hidx; cbn [loads_sample] in Hload;
    try (split; [exact Hsrc | left; exact Hidx]).
  - destruct (realDataEnabled s && (0 <? List.length (realDataSource s))%nat);
      cbn [fst snd switchState] in Hsrc, Hidx;
      (split; [exact Hsrc | first [left; exact Hidx | right; split; [reflexivity | exact Hidx]]]).
  - rewrite Hload in Hsrc, Hidx. cbn [fst snd switchState] in Hsrc, Hidx.
    split; [exact Hsrc | left; exact Hidx].
Qed.

(** X24. Without a load of the sample data the replay position never goes
    back and the sequence stays as it is: after any run of events the
    position is at least what it was and exceeds it by no more than the
    number of broadcasts in the run. *)
Theorem position_never_goes_back (es : list Event) (s : Server) (w : World) :
  forallb (fun e => negb (loads_sample e)) es = true ->
  let s' := snd (fst (run es s w)) in
  realDataSource s' = realDataSource s
  /\ (realDataIndex s <= realDataIndex s')%N
  /\ (realDataIndex s' <= realDataIndex s + N.of_nat (List.length (filter is_tick es)))%N.
Proof.
  revert s w. induction es as [| e es IH]; intros s w Hes; cbv zeta.
  - cbn. repeat split; lia.
  - cbn [forallb] in Hes. apply andb_true_iff in Hes. destruct Hes as [He Hes].
    apply negb_true_iff in He.
    rewrite run_cons. cbn [fst snd].
    destruct (step_realDataIndex e s w He) as (Hsrc & Hidx).
    specialize (IH (snd (fst (step e s w))) (snd (step e s w)) Hes). cbv zeta in IH.
    destruct IH as (IHsrc & IHlo & IHhi).
    split; [now rewrite IHsrc |].
    cbn [filter]. destruct Hidx as [Hidx | [Htick Hidx]].
    + rewrite Hidx in IHlo, IHhi. split; [exact IHlo |].
      destruct (is_tick e); cbn [List.length]; lia.
    + rewrite Hidx in IHlo, IHhi. rewrite Htick. cbn [List.length]. split; lia.
Qed.

Lemma position_never_goes_back_witness :
  forallb (fun e => negb (loads_sample e))
    [PostRealDataToggle; Tick; PostRealDataLoad (Some "csv"%string); Tick] = true
  /\ (realDataIndex quietServer
      <= realDataIndex
           (snd (fst (run [PostRealDataToggle; Tick; PostRealDataLoad (Some "csv"%string); Tick]
                          quietServer quietWorld))))%N.
Proof.
  split; [reflexivity |].
  exact (proj1 (proj2 (position_never_goes_back
    [PostRealDataToggle; Tick; PostRealDataLoad (Some "csv"%string); Tick]
    quietServer quietWorld eq_refl))).
Defined.

(** X25. From the start of the server on, whatever events arrive, the
    sequence of real data is either empty or the 10 sample records, and as
    long as it is empty the replay position is 0. *)
Theorem reachable_switch_states (es : list Event) (simulator : CementPlantSimulator)
    (gemini : GeminiService) (w : World) :
  let s := snd (fst (run es (initialServer simulator gemini) w)) in
  (realDataSource s = [] /\ realDataIndex s = 0%N)
  \/ (realDataSource s = loadSampleRealData /\ List.length (realDataSource s) = 10%nat).
Proof.
  cbv zeta.
  assert (Hinv : forall es s w,
             (realDataSource s = [] /\ realDataIndex s = 0%N)
             \/ realDataSource s = loadSampleRealData ->
             let s' := snd (fst (run es s w)) in
             (realDataSource s' = [] /\ realDataIndex s' = 0%N)
             \/ realDataSource s' = loadSampleRealData).
  { clear. induction es as [| e es IH]; intros s w Hs; cbv zeta; [exact Hs |].
    rewrite run_cons. cbn [fst snd]. apply IH.
    destruct (switchState_components _ _ (step_switchState e s w)) as (_ & Hsrc & Hidx).
    destruct e; cbn [fst snd switchState] in Hsrc, Hidx;
      try (rewrite Hsrc, Hidx; exact Hs).
    - destruct (realDataEnabled s && (0 <? List.length (realDataSource s))%nat) eqn:Hreal;
        cbn [fst snd switchState] in Hsrc, Hidx; rewrite Hsrc, Hidx; [| exact Hs].
      destruct Hs as [[Hnil _] | Hsample]; [| now right].
      rewrite Hnil in Hreal. rewrite andb_false_r in Hreal. discriminate Hreal.
    - destruct (is_sample dataType); cbn [fst snd switchState] in Hsrc, Hidx;
        rewrite Hsrc, ?Hidx; [now right | exact Hs]. }
  specialize (Hinv es (initialServer simulator gemini) w (or_introl (conj eq_refl eq_refl))).
  cbv zeta in Hinv. destruct Hinv as [H | H]; [now left | right].
  split; [exact H | now rewrite H].
Qed.

(** ** The snapshot made of a real record *)

Lemma generateDashboardFromRealData_equipment (sim : CementPlantSimulator)
    (r : RealRecord) (w : World) :
  equipment_status (fst (generateDashboardFromRealData sim r w))
  = fst (generateEquipmentStatus sim (snd (Date_now (snd (Date_now w))))).
Proof.
  unfold generateDashboardFromRealData. rewrite !bind_run, fst_ret. reflexivity.
Qed.

(** X26. In a snapshot made of a real record the six sensor readings carry
    the very figures of the process parameters (there is no exhaust and no
    dust sensor), the overview and the environmental data repeat the
    production rate and the energy consumption of the parameters, the
    quality score and the overall efficiency are capped at 95, and the
    overview counts 2 active alerts and 8 units, while the list of active
    alerts is empty and the equipment list, taken from the simulator, has
    8 units. *)
Theorem generateDashboardFromRealData_consistency (sim : CementPlantSimulator)
    (r : RealRecord) (w : World) :
  let d := fst (generateDashboardFromRealData sim r w) in
  let p := current_parameters d in
  map sensor_id (recent_sensors d)
  = ["KILN_TEMP_01"; "KILN_PRESSURE_01"; "RAW_MILL_POWER_01"; "CEMENT_MILL_POWER_01";
     "PRODUCTION_FLOW_01"; "FINENESS_01"]%string
  /\ map sr_value (recent_sensors d)
     = [kiln_temperature p; kiln_pressure p; raw_mill_power p; cement_mill_power p;
        production_rate p; cement_fineness p]
  /\ production_rate_current (plant_overview d) = production_rate p
  /\ energy_consumption_current (plant_overview d) = energy_consumption p
  /\ energy_consumption_specific (environmental_data d) = energy_consumption p
  /\ raw_meal_flow p = production_rate p * 1.55
  /\ clinker_temperature p = kiln_temperature p - 300
  /\ map quality_score (recent_quality d) = [quality_score_avg (plant_overview d)]
  /\ quality_score_avg (plant_overview d) <= 95
  /\ overall_efficiency (plant_overview d) <= 95
  /\ active_alerts_count (plant_overview d) = 2%N
  /\ active_alerts d = []
  /\ equipment_total_count (plant_overview d) = 8%N
  /\ List.length (equipment_status d) = 8%nat.
Proof.
  cbv zeta.
  repeat match goal with |- _ /\ _ => split end;
    try (rewrite generateDashboardFromRealData_equipment;
         apply generateEquipmentStatus_length);
    unfold generateDashboardFromRealData; rewrite !bind_run, fst_ret;
    cbn [plant_overview recent_sensors current_parameters recent_quality
         active_alerts environmental_data map sensor_id sr_value
         kiln_temperature kiln_pressure raw_mill_power cement_mill_power
         production_rate cement_fineness production_rate_current
         energy_consumption_current energy_consumption
         energy_consumption_specific raw_meal_flow clinker_temperature
         quality_score quality_score_avg overall_efficiency
         active_alerts_count equipment_total_count];
    try reflexivity; apply Rmin_l.
Qed.

(** ** The two generators of numbers *)

(** X27. When the first draw lies in [0,1], the second in [0,1] and the
    noise fraction is not negative, the value returned by
    [getRandomInRange] differs from the uniform value
    [min + u1 * (max - min)] by no more than the noise fraction of that
    value: the clamping never moves the result away from it. *)
Theorem getRandomInRange_noise_bound (min max noise : R) (w : World) :
  min <= max ->
  0 <= noise ->
  0 <= randoms w 0%nat <= 1 ->
  0 <= randoms w 1%nat <= 1 ->
  let base := min + randoms w 0%nat * (max - min) in
  Rabs (fst (getRandomInRange min max noise w) - base) <= noise * Rabs base.
Proof.
  intros Hle Hn Hu1 Hu2. cbv zeta. rewrite getRandomInRange_value. cbv zeta.
  set (u1 := randoms w 0%nat) in *. set (u2 := randoms w 1%nat) in *.
  set (base := min + u1 * (max - min)).
  assert (Hbase : min <= base <= max) by (unfold base; split; nra).
  set (nv := base * noise * (u2 - 0.5) * 2).
  assert (Hnv : Rabs nv <= noise * Rabs base).
  { unfold nv.
    replace (base * noise * (u2 - 0.5) * 2) with (noise * base * (2 * u2 - 1)) by lra.
    rewrite !Rabs_mult, (Rabs_pos_eq noise Hn).
    assert (Hc : Rabs (2 * u2 - 1) <= 1) by (apply Rabs_le; lra).
    pose proof (Rabs_pos base) as Hb.
    assert (Hnb : 0 <= noise * Rabs base) by (apply Rmult_le_pos; assumption).
    nra. }
  assert (Hlo : - (noise * Rabs base) <= nv /\ nv <= noise * Rabs base).
  { revert Hnv. unfold Rabs at 1. destruct (Rcase_abs nv); intros; lra. }
  destruct Hlo as [Hlo Hhi].
  apply Rabs_le.
  unfold Rmax, Rmin.
  destruct (Rle_dec max (base + nv)); destruct (Rle_dec min _); split; lra.
Qed.

Lemma getRandomInRange_noise_bound_witness :
  340 <= 380 /\ 0 <= default_noise
  /\ Rabs (fst (getRandomInRange 340 380 default_noise quietWorld)
           - (340 + randoms quietWorld 0%nat * (380 - 340)))
     <= default_noise * Rabs (340 + randoms quietWorld 0%nat * (380 - 340)).
Proof.
  assert (H1 : 340 <= 380) by lra.
  assert (H2 : 0 <= default_noise) by (unfold default_noise; lra).
  assert (H3 : 0 <= randoms quietWorld 0%nat <= 1) by (cbn; lra).
  assert (H4 : 0 <= randoms quietWorld 1%nat <= 1) by (cbn; lra).
  split; [exact H1 | split; [exact H2 |]].
  exact (getRandomInRange_noise_bound 340 380 default_noise quietWorld H1 H2 H3 H4).
Defined.

Lemma sin_shift_PI (x : R) : sin (x + PI) = - sin x.
Proof. apply neg_sin. Qed.

(** X28. Half a period later the value of [generateCyclicalValue] is the
    mirror image about the base value: for a period different from 0, the
    value at elapsed time [t + period / 2] and the value at [t] add up to
    twice the base value; and whatever the sign of the amplitude the value
    stays within [|amplitude|] of the base value. *)
Theorem generateCyclicalValue_half_period (self : CementPlantSimulator)
    (baseValue amplitude period phase : R) (w1 w2 : World) :
  period <> 0 ->
  elapsedHours self w2 = elapsedHours self w1 + period / 2 ->
  fst (generateCyclicalValue self baseValue amplitude period phase w2)
  + fst (generateCyclicalValue self baseValue amplitude period phase w1)
  = 2 * baseValue
  /\ Rabs (fst (generateCyclicalValue self baseValue amplitude period phase w1) - baseValue)
     <= Rabs amplitude.
Proof.
  intros Hp Ht. rewrite !generateCyclicalValue_formula, Ht. split.
  - replace (2 * PI * (elapsedHours self w1 + period / 2) / period + phase)
      with ((2 * PI * elapsedHours self w1 / period + phase) + PI)
      by (field; exact Hp).
    rewrite sin_shift_PI. ring.
  - replace (baseValue
             + amplitude * sin (2 * PI * elapsedHours self w1 / period + phase)
             - baseValue)
      with (amplitude * sin (2 * PI * elapsedHours self w1 / period + phase)) by ring.
    rewrite Rabs_mult.
    pose proof (SIN_bound (2 * PI * elapsedHours self w1 / period + phase)) as Hs.
    assert (Hc : Rabs (sin (2 * PI * elapsedHours self w1 / period + phase)) <= 1)
      by (apply Rabs_le; exact Hs).
    pose proof (Rabs_pos amplitude). nra.
Qed.

Lemma generateCyclicalValue_half_period_witness :
  8 <> 0
  /\ elapsedHours quietSimulator laterWorld = elapsedHours quietSimulator quietWorld + 8 / 2
  /\ fst (generateCyclicalValue quietSimulator 3200 250 8 0 laterWorld)
     + fst (generateCyclicalValue quietSimulator 3200 250 8 0 quietWorld)
     = 2 * 3200.
Proof.
  assert (H8 : 8 <> 0) by lra.
  assert (Ht : elapsedHours quietSimulator laterWorld
               = elapsedHours quietSimulator quietWorld + 8 / 2)
    by (unfold elapsedHours; cbn; lra).
  split; [exact H8 | split; [exact Ht |]].
  exact (proj1 (generateCyclicalValue_half_period quietSimulator 3200 250 8 0
                  quietWorld laterWorld H8 Ht)).
Defined.
